(** * AlphaPulldown: the interface-screening pipeline of
      [alphapulldown/analysis_pipeline/get_good_inter_pae.py]

    A shallow embedding of the batch pipeline that screens predicted
    multimer models by their predicted aligned error (PAE) matrix, and the
    properties of it that the specification states.

    Conventions of the embedding.
    - Python floats are IEEE binary64 numbers: Rocq's primitive [float].
      The cells of an array are taken to be binary64 too.
    - A numpy array is a heap object.  The program stores into the array it
      is handed ([a[lo:hi, lo:hi] = 50]), so arrays live in a store and are
      passed by reference.
    - A statement that may raise is a computation in the monad [M]: it takes
      the world (array store and event log) and yields either a value or the
      exception raised, together with the world it leaves behind.
    - The modules [calculate_mpdockq] and [obtain_interface_residues] are
      imported by the program but are not part of it; their functions are
      the fields of the interface [Collaborators].

    The scripts that build template databases,
    [alphapulldown/create_custom_template_db.py] and
    [alphapulldown/create_fake_template_db.py], are embedded in the module
    [TemplateDb], over a file system; their properties are in
    [TemplateDbFacts]. *)

From Stdlib Require Import Floats ZArith Lia Ascii.
From stdpp Require Import base option strings list gmap pretty.

(** * The program *)

(** ** Python values, exceptions and the world *)

(** The exceptions the program can meet.  [DecodeError] stands for the
    errors of json, pickle, gzip and Bio.PDB on a file they cannot read,
    and [ForeignError] for an exception raised inside a collaborator.
    [DanglingReference] is the embedding's own: a reference with no array
    behind it, which a reference obtained from [alloc] never is. *)
Inductive exn : Type :=
| FileNotFoundError (path : string)
| KeyError (key : string)
| IndexError
| UnboundLocalError (var : string)
| DecodeError (path : string)
| DanglingReference
| ForeignError (what : string).

Inductive result (A : Type) : Type :=
| Ok (a : A)
| Raise (e : exn).
Arguments Ok {A} a.
Arguments Raise {A} e.

(** The scalar values that the program stores in variables of mixed type:
    a score is a float, the string ["None"], or Python's [None]. *)
Inductive pyval : Type :=
| PyNone
| PyFloat (x : float)
| PyStr (s : string).

(** [a == b] on these values.  A float never equals a string or [None]. *)
Definition py_eq (a b : pyval) : bool :=
  match a, b with
  | PyNone, PyNone => true
  | PyFloat x, PyFloat y => PrimFloat.eqb x y
  | PyStr s, PyStr t => bool_decide (s = t)
  | _, _ => false
  end.

(** A two-dimensional numpy array, row by row. *)
Abbreviation ndarray := (list (list float)).

(** A reference to an array in the store. *)
Abbreviation ref := nat.

(** The columns of the summary table; [main] accumulates them in six lists
    of its own. *)
Record columns : Type := Columns {
  good_jobs : list string;
  iptm_ptm : list float;
  iptm : list pyval;
  mpDockq_scores : list pyval;
  average_interface_paes : list float;
  average_interface_plddts : list float
}.

(** Pieces of a formatted log message (an f-string). *)
Inductive frag : Type :=
| Lit (s : string)
| FStr (s : string)
| FNat (n : nat)
| FFloat (x : float).

(** Calls into the modules that are not part of the program, as made by the
    program text.  [call_pdb_analyser] records the array reference handed
    over and the contents of that array at the time of the call. *)
Inductive call : Type :=
| call_PDBAnalyser (job : string)
| call_read_pdb (job : string)
| call_get_best_plddt (job : string)
| call_read_plddt
| call_score_complex
| call_calculate_mpDockQ (complex_score : float)
| call_read_pdb_pdockq (job : string)
| call_calc_pdockq (t : Z)
| call_pdb_analyser (pae_mtx : ref) (contents : ndarray).

Inductive event : Type :=
| LogInfo (msg : list frag)
| LogWarning (msg : list frag)
| Called (c : call)
| ToCsv (path : string) (table : columns).

Record world : Type := World {
  heap : list ndarray;
  log : list event
}.

(** ** The monad of statements *)

Definition M (A : Type) : Type := world -> result A * world.

Definition ret {A} (a : A) : M A := fun w => (Ok a, w).

Definition bind {A B} (m : M A) (k : A -> M B) : M B :=
  fun w => match m w with
           | (Ok a, w') => k a w'
           | (Raise e, w') => (Raise e, w')
           end.

Definition raise {A} (e : exn) : M A := fun w => (Raise e, w).

#[global] Instance M_ret : MRet M := @ret.
#[global] Instance M_bind : MBind M := fun A B k m => bind m k.

(** Append one event to the log. *)
Definition emit (ev : event) : M unit :=
  fun w => (Ok (), World (heap w) (log w ++ [ev])).

(** A new array object. *)
Definition alloc (a : ndarray) : M ref :=
  fun w => (Ok (length (heap w)), World (heap w ++ [a]) (log w)).

(** Read the array behind a reference. *)
Definition deref (r : ref) : M ndarray :=
  fun w => match heap w !! r with
           | Some a => (Ok a, w)
           | None => (Raise DanglingReference, w)
           end.

(** Overwrite the array behind a reference, in place. *)
Definition assign (r : ref) (a : ndarray) : M unit :=
  fun w => match heap w !! r with
           | Some _ => (Ok (), World (<[r := a]> (heap w)) (log w))
           | None => (Raise DanglingReference, w)
           end.

(** Lift the outcome of a call that touches neither store nor log. *)
Definition lift {A} (r : result A) : M A := fun w => (r, w).

(** Reading a local variable that may not have been assigned. *)
Definition local {A} (var : string) (v : option A) : M A :=
  match v with
  | Some a => ret a
  | None => raise (UnboundLocalError var)
  end.

(** [d[key]] on a dict. *)
Definition getitem {V} (key : string) (d : gmap string V) : M V :=
  match d !! key with
  | Some v => ret v
  | None => raise (KeyError key)
  end.

(** ** numpy: block assignment and [np.where] *)

(** [lo <= i < hi], the indices selected by the slice [lo:hi]. *)
Definition in_slice (lo hi i : nat) : bool := ((lo <=? i) && (i <? hi))%nat.

(** [a[lo:hi, lo:hi] = v].  A slice is clipped to the extent of the array,
    so the assignment never fails. *)
Definition assign_block (lo hi : nat) (v : float) (a : ndarray) : ndarray :=
  imap (fun i row =>
          if in_slice lo hi i
          then imap (fun j x => if in_slice lo hi j then v else x) row
          else row) a.

(** The positions [(i, j)] of one row whose cell is below the cutoff. *)
Definition row_hits (cutoff : float) (i : nat) (row : list float) : list (nat * nat) :=
  omap id (imap (fun j x => if PrimFloat.ltb x cutoff then Some (i, j) else None) row).

(** [np.where(a < cutoff)]: the row indices and the column indices of the
    cells below the cutoff. *)
Definition np_where_lt (a : ndarray) (cutoff : float) : list nat * list nat :=
  let hits := mjoin (imap (row_hits cutoff) a) in
  (fst <$> hits, snd <$> hits).

(** ** [examine_inter_pae] *)

(** The loop over [seq_lengths]: one block assignment per chain, each
    stored into the array object [pae_mtx] refers to. *)
Fixpoint mask_loop (pae_mtx : ref) (old_lenth : nat) (seq_lengths : list nat) : M unit :=
  match seq_lengths with
  | [] => mret ()
  | length :: rest =>
      let new_length := old_lenth + length in
      a ← deref pae_mtx;
      assign pae_mtx (assign_block old_lenth new_length 50 a);;
      mask_loop pae_mtx new_length rest
  end.

Definition examine_inter_pae (pae_mtx : ref) (seq_lengths : list nat) (cutoff : float) : M bool :=
  mask_loop pae_mtx 0 seq_lengths;;
  a ← deref pae_mtx;
  let check := negb (length (fst (np_where_lt a cutoff)) =? 0)%nat in
  mret check.

(** ** Job directories *)

(** The object in [ranking_debug.json], by the keys the program reads; a
    key is present or not. *)
Record ranking : Type := Ranking {
  rk_order : option (list string);
  rk_iptm : option (gmap string float);
  rk_iptm_ptm : option (gmap string float)
}.

(** The dict pickled in [result_<model>.pkl] and [result_<model>.pkl.gz],
    by the keys the program reads. *)
Record result_blob : Type := ResultBlob {
  blob_predicted_aligned_error : option ndarray;
  blob_iptm : option float
}.

(** What a file holds, as its reader sees it.  [PaeJson] is a JSON list of
    objects, each with the key [predicted_aligned_error] or without it.
    [PdbFile] is a coordinate file: the lengths of the peptides that
    Bio.PDB's [PPBuilder] builds from it, and the rest of its records,
    which only the collaborators look at. *)
Inductive file : Type :=
| RankingJson (data : ranking)
| PaeJson (entries : list (option ndarray))
| ResultPickle (blob : result_blob)
| PdbFile (peptides : list nat) (records : string)
| Unreadable.

(** A directory: its path, and its files by name. *)
Record directory : Type := Directory {
  dir_path : string;
  dir_files : gmap string file
}.

(** [os.path.join(a, b)] *)
Definition os_path_join (a b : string) : string :=
  if String.prefix "/" b then b
  else if bool_decide (a = "") then b
  else match String.get (String.length a - 1) a with
       | Some "/"%char => a +:+ b
       | _ => a +:+ "/" +:+ b
       end.

(** [os.path.join(dir, name)], looked up. *)
Definition at_path (d : directory) (name : string) : option file :=
  dir_files d !! name.

(** ** The modules the program imports but does not contain *)

Class Collaborators : Type := {
  coords : Type;
  indices : Type;
  plddt : Type;
  chain_plddt : Type;
  pair_coords : Type;
  analyser : Type;
  (* calculate_mpdockq *)
  read_pdb : option file -> result (list string * coords * indices * indices);
  get_best_plddt : directory -> result plddt;
  read_plddt : plddt -> indices -> result chain_plddt;
  score_complex : coords -> indices -> chain_plddt -> result (option float * Z);
  calculate_mpDockQ : float -> result float;
  read_pdb_pdockq : option file -> result (pair_coords * chain_plddt);
  calc_pdockq : pair_coords -> chain_plddt -> Z -> result float;
  (* obtain_interface_residues.PDBAnalyser: the constructor and __call__ *)
  PDBAnalyser : option file -> result analyser;
  pdb_analyser : analyser -> ndarray -> chain_plddt -> result (float * float)
}.

(** ** Reading files *)

(** [d[key]] where the key of a JSON object or pickled dict is optional. *)
Definition getkey {V} (key : string) (v : option V) : M V :=
  match v with
  | Some x => ret x
  | None => raise (KeyError key)
  end.

(** [l[0]] *)
Definition first_item {V} (l : list V) : M V :=
  match l with
  | x :: _ => ret x
  | [] => raise IndexError
  end.

(** Run a statement and hand its outcome, value or exception, to the
    [except] and [finally] clauses around it. *)
Definition attempt {A} (m : M A) : M (result A) :=
  fun w => let (r, w') := m w in (Ok r, w').

(** [json.load(open(dir/ranking_debug.json))] *)
Definition load_ranking (d : directory) : M ranking :=
  match at_path d "ranking_debug.json" with
  | None => raise (FileNotFoundError "ranking_debug.json")
  | Some (RankingJson data) => ret data
  | Some _ => raise (DecodeError "ranking_debug.json")
  end.

(** [np.array(json.load(open(path))[0]['predicted_aligned_error'])]: a new
    array object. *)
Definition load_pae_json (path : string) (d : directory) : M ref :=
  match at_path d path with
  | None => raise (FileNotFoundError path)
  | Some (PaeJson entries) =>
      entry ← first_item entries;
      pae_results ← getkey "predicted_aligned_error" entry;
      alloc pae_results
  | Some _ => raise (DecodeError path)
  end.

(** The dict that [pickle.load] returns: its array is a new object. *)
Record check_dict : Type := CheckDict {
  cd_predicted_aligned_error : option ref;
  cd_iptm : option float
}.

(** [pickle.load(open(path, 'rb'))] and [pickle.load(gzip.open(path, 'rb'))] *)
Definition pickle_load (path : string) (d : directory) : M check_dict :=
  match at_path d path with
  | None => raise (FileNotFoundError path)
  | Some (ResultPickle blob) =>
      pae ← match blob_predicted_aligned_error blob with
            | Some a => r ← alloc a; mret (Some r)
            | None => mret None
            end;
      mret (CheckDict pae (blob_iptm blob))
  | Some _ => raise (DecodeError path)
  end.

(** ** [obtain_pae_and_iptm] *)

Definition obtain_pae_and_iptm (result_subdir : directory) (best_model : string)
  : M (ref * pyval) :=
  (* try: ranking_results = json.load(...)  except FileNotFoundError: warn *)
  loaded ← attempt (load_ranking result_subdir);
  ranking_results ← match loaded with
                     | Ok data => mret (Some data)
                     | Raise (FileNotFoundError _) =>
                         emit (LogWarning [Lit "ranking_debug.json is not found at ";
                                           FStr (dir_path result_subdir)]);;
                         mret None
                     | Raise e => raise e
                     end;
  let iptm_score := PyStr "None" in
  data ← local "ranking_results" ranking_results;
  let iptm_score :=
    match rk_iptm data with
    | Some scores => match scores !! best_model with
                     | Some x => PyFloat x
                     | None => PyNone
                     end
    | None => iptm_score
    end in
  let pae_json := "pae_" +:+ best_model +:+ ".json" in
  '(pae_mtx, iptm_score) ←
    (if bool_decide (is_Some (at_path result_subdir pae_json)) then
       pae_mtx ← load_pae_json pae_json result_subdir;
       mret (Some pae_mtx, iptm_score)
     else if py_eq iptm_score (PyStr "None") then
       let pkl := "result_" +:+ best_model +:+ ".pkl" in
       let pkl_gz := "result_" +:+ best_model +:+ ".pkl.gz" in
       (* try: *)
       tried ← attempt (pickle_load pkl result_subdir);
       '(check_dict, pending) ←
         match tried with
         | Ok cd => mret (Some cd, None)
         | Raise (FileNotFoundError _) =>
             (* except FileNotFoundError: *)
             emit (LogInfo [FStr (os_path_join (dir_path result_subdir) pkl);
                            Lit " does not exist. Will search for pkl.gz"]);;
             retried ← attempt (pickle_load pkl_gz result_subdir);
             match retried with
             | Ok cd =>
                 match cd_iptm cd with
                 | Some _ => mret (Some cd, None)
                 | None => mret (Some cd, Some (KeyError "iptm"))
                 end
             | Raise e => mret (None, Some e)
             end
         | Raise e => mret (None, Some e)
         end;
       (* finally: *)
       emit (LogInfo [Lit "finished reading result pickle for the best model."]);;
       cd ← local "check_dict" check_dict;
       pae_mtx ← getkey "predicted_aligned_error" (cd_predicted_aligned_error cd);
       iptm_score ← getkey "iptm" (cd_iptm cd);
       match pending with
       | Some e => raise e
       | None => mret (Some pae_mtx, PyFloat iptm_score)
       end
     else mret (None, iptm_score));
  pae_mtx ← local "pae_mtx" pae_mtx;
  mret (pae_mtx, iptm_score).

(** ** [obtain_seq_lengths] *)

Definition obtain_seq_lengths (result_subdir : directory) : M (list nat) :=
  match at_path result_subdir "ranked_0.pdb" with
  | None => raise (FileNotFoundError ("ranked_0.pdb is not found at "
                                      +:+ dir_path result_subdir))
  | Some (PdbFile peptides _) => mret peptides
  | Some _ => raise (DecodeError "ranked_0.pdb")
  end.

(** ** [obtain_mpdockq] *)

Section Pipeline.

Context {collab : Collaborators}.

(** A call of a collaborator: noted in the log, then its outcome. *)
Definition invoke {A} (c : call) (r : result A) : M A :=
  emit (Called c);; lift r.

Definition obtain_mpdockq (work_dir : directory) : M (pyval * chain_plddt) :=
  let pdb_path := at_path work_dir "ranked_0.pdb" in
  '(pdb_chains, chain_coords, chain_CA_inds, chain_CB_inds) ←
    invoke (call_read_pdb (dir_path work_dir)) (read_pdb pdb_path);
  best_plddt ← invoke (call_get_best_plddt (dir_path work_dir))
                      (get_best_plddt work_dir);
  plddt_per_chain ← invoke call_read_plddt (read_plddt best_plddt chain_CA_inds);
  '(complex_score, num_chains) ←
    invoke call_score_complex (score_complex chain_coords chain_CB_inds plddt_per_chain);
  (* The branches assign [mpDockq_or_pdockq]; the second one assigns
     [plddt_per_chain] again. *)
  '(mpDockq_or_pdockq, plddt_per_chain) ←
    match complex_score with
    | Some x =>
        if (2 <? num_chains)%Z then
          score ← invoke (call_calculate_mpDockQ x) (calculate_mpDockQ x);
          mret (PyFloat score, plddt_per_chain)
        else if (num_chains =? 2)%Z then
          '(chain_coords, plddt_per_chain) ←
            invoke (call_read_pdb_pdockq (dir_path work_dir)) (read_pdb_pdockq pdb_path);
          score ← invoke (call_calc_pdockq 8) (calc_pdockq chain_coords plddt_per_chain 8);
          mret (PyFloat score, plddt_per_chain)
        else mret (PyStr "None", plddt_per_chain)
    | None => mret (PyStr "None", plddt_per_chain)
    end;
  mret (mpDockq_or_pdockq, plddt_per_chain).

(** ** [main] *)

(** The local variables of [main] that live across iterations. *)
Record locals : Type := Locals {
  table : columns;
  count : nat
}.

Definition no_rows : columns := Columns [] [] [] [] [] [].

(** The six [append] calls of an accepted job. *)
Definition append_row (t : columns) (job : string) (iptm_ptm_score : float)
    (iptm_score mpDockq_score : pyval)
    (average_interface_pae average_interface_plddt : float) : columns :=
  Columns (good_jobs t ++ [job])
          (iptm_ptm t ++ [iptm_ptm_score])
          (iptm t ++ [iptm_score])
          (mpDockq_scores t ++ [mpDockq_score])
          (average_interface_paes t ++ [average_interface_pae])
          (average_interface_plddts t ++ [average_interface_plddt]).

(** The statements after the interface check (from the call of
    [obtain_mpdockq] to the appends). *)
Definition score_and_report (job : directory) (pdb_an : analyser) (pae_mtx : ref)
    (iptm_ptm_score : float) (iptm_score : pyval) (check : bool) (t : columns)
  : M columns :=
  '(mpDockq_score, plddt_per_chain) ← obtain_mpdockq job;
  if check then
    contents ← deref pae_mtx;
    '(average_interface_pae, average_interface_plddt) ←
      invoke (call_pdb_analyser pae_mtx contents)
             (pdb_analyser pdb_an contents plddt_per_chain);
    mret (append_row t (dir_path job) iptm_ptm_score iptm_score mpDockq_score
                     average_interface_pae average_interface_plddt)
  else mret t.

(** The body of [if "iptm" in data.keys() or "iptm+ptm" in data.keys():]. *)
Definition analyse_job (cutoff : float) (job : directory) (pdb_an : analyser)
    (data : ranking) (best_model : string) (t : columns) : M columns :=
  scores ← getkey "iptm+ptm" (rk_iptm_ptm data);
  iptm_ptm_score ← getitem best_model scores;
  '(pae_mtx, iptm_score) ← obtain_pae_and_iptm job best_model;
  seq_lengths ← obtain_seq_lengths job;
  check ← examine_inter_pae pae_mtx seq_lengths cutoff;
  score_and_report job pdb_an pae_mtx iptm_ptm_score iptm_score check t.

(** One iteration of [for job in jobs:]. *)
Definition process_job (cutoff : float) (n_jobs : nat) (job : directory) (st : locals)
  : M locals :=
  emit (LogInfo [Lit "now processing "; FStr (dir_path job)]);;
  if bool_decide (is_Some (at_path job "ranking_debug.json")) then
    pdb_an ← invoke (call_PDBAnalyser (dir_path job))
                    (PDBAnalyser (at_path job "ranked_0.pdb"));
    let count := S (count st) in
    ranked ← load_ranking job;
    order ← getkey "order" (rk_order ranked);
    best_model ← first_item order;
    data ← load_ranking job;
    t ← (if bool_decide (is_Some (rk_iptm data)) || bool_decide (is_Some (rk_iptm_ptm data))
         then analyse_job cutoff job pdb_an data best_model (table st)
         else mret (table st));
    emit (LogInfo [Lit "done for "; FStr (dir_path job); Lit " "; FNat count;
                   Lit " out of "; FNat n_jobs; Lit " finished."]);;
    mret (Locals t count)
  else mret st.

Fixpoint job_loop (cutoff : float) (n_jobs : nat) (jobs : list directory) (st : locals)
  : M locals :=
  match jobs with
  | [] => mret st
  | job :: rest =>
      st' ← process_job cutoff n_jobs job st;
      job_loop cutoff n_jobs rest st'
  end.

(** The notice of a run that accepted no job. *)
Definition empty_notice (cutoff : float) : list frag :=
  [Lit "Unfortunately, none of your protein models had at least one PAE on the interface below your cutoff value : ";
   FFloat cutoff;
   Lit ".";
   Lit (String "010"%char " Please consider using a larger cutoff.")].

(** [main], with [FLAGS.cutoff] and the listing of [FLAGS.output_dir] as
    arguments.  An entry of the listing that is not a directory has no
    files. *)
Definition main (cutoff : float) (output_dir : list directory) : M unit :=
  let jobs := output_dir in
  st ← job_loop cutoff (length jobs) jobs (Locals no_rows 0);
  if (0 <? length (good_jobs (table st)))%nat then
    emit (ToCsv "output.csv" (table st))
  else
    emit (LogInfo (empty_notice cutoff)).

End Pipeline.

(** * The vocabulary of the properties *)

(** [a[i, j]], when inside the array. *)
Definition cell (a : ndarray) (i j : nat) : option float :=
  a !! i ≫= (.!! j).

(** The [check] of [examine_inter_pae] on the array contents [a]. *)
Definition any_below (cutoff : float) (a : ndarray) : bool :=
  negb (length (fst (np_where_lt a cutoff)) =? 0)%nat.

(** The array after the loop of [examine_inter_pae], started at offset
    [old_lenth]. *)
Fixpoint mask_blocks (old_lenth : nat) (seq_lengths : list nat) (a : ndarray) : ndarray :=
  match seq_lengths with
  | [] => a
  | length :: rest =>
      mask_blocks (old_lenth + length) rest
                  (assign_block old_lenth (old_lenth + length) 50 a)
  end.

(** Residues [i] and [j] lie in the same chain, for chains of the given
    lengths laid out from offset [old_lenth]. *)
Fixpoint same_chain (old_lenth : nat) (seq_lengths : list nat) (i j : nat) : bool :=
  match seq_lengths with
  | [] => false
  | length :: rest =>
      (in_slice old_lenth (old_lenth + length) i
       && in_slice old_lenth (old_lenth + length) j)
      || same_chain (old_lenth + length) rest i j
  end.

(** An [n] by [n] array. *)
Definition square (n : nat) (a : ndarray) : Prop :=
  length a = n ∧ Forall (fun row => length row = n) a.

(** [grows P m]: running [m] only appends events to the log, each of them
    satisfying [P]. *)
Definition grows (P : event -> Prop) {A} (m : M A) : Prop :=
  ∀ w r w', m w = (r, w') -> ∃ evs, log w' = log w ++ evs ∧ Forall P evs.

(** Events other than the writing of the table. *)
Definition not_csv (ev : event) : Prop :=
  match ev with
  | ToCsv _ _ => False
  | _ => True
  end.

(** Events that are neither the writing of the table nor the notice of a
    run without accepted job. *)
Definition quiet (cutoff : float) (ev : event) : Prop :=
  not_csv ev ∧ ev ≠ LogInfo (empty_notice cutoff).

(** The number of tables written, by the log. *)
Definition is_csv (ev : event) : bool :=
  match ev with
  | ToCsv _ _ => true
  | _ => false
  end.

Definition csv_writes (l : list event) : nat := length (List.filter is_csv l).

(** The six columns have one entry per accepted job ([DataFrame.from_dict]
    needs columns of one length). *)
Definition aligned (t : columns) : Prop :=
  length (iptm_ptm t) = length (good_jobs t)
  ∧ length (iptm t) = length (good_jobs t)
  ∧ length (mpDockq_scores t) = length (good_jobs t)
  ∧ length (average_interface_paes t) = length (good_jobs t)
  ∧ length (average_interface_plddts t) = length (good_jobs t).

(** The directory has a ranking file ([os.path.isfile] on it is true). *)
Definition has_ranking (job : directory) : bool :=
  bool_decide (is_Some (at_path job "ranking_debug.json")).

(** The directory has a coordinate file that Bio.PDB reads. *)
Definition has_coordinates (job : directory) : Prop :=
  ∃ peptides records, at_path job "ranked_0.pdb" = Some (PdbFile peptides records).

(** Some cell of [a] lies between two chains, outside every diagonal
    block, and is below the cutoff. *)
Definition confident_cell (cutoff : float) (seq_lengths : list nat) (a : ndarray) : Prop :=
  ∃ i j x, cell a i j = Some x
    ∧ same_chain 0 seq_lengths i j = false
    ∧ PrimFloat.ltb x cutoff = true.

(** The sentinel 50 is below the cutoff, and some cell of [a] lies inside a
    chain, where the masking writes the sentinel. *)
Definition sentinel_cell (cutoff : float) (seq_lengths : list nat) (a : ndarray) : Prop :=
  PrimFloat.ltb 50 cutoff = true
  ∧ ∃ i j x, cell a i j = Some x ∧ same_chain 0 seq_lengths i j = true.

(** * Concrete collaborators and job directories for the examples *)

(** Collaborators that accept whatever they are given: the scorer reports
    the given composite score and chain count, the regressors return fixed
    scores, and the analyser reports the top-left cell of the matrix it
    receives as the mean interface error. *)
Definition stub (complex_score : option float) (num_chains : Z) : Collaborators := {|
  coords := unit;
  indices := unit;
  plddt := unit;
  chain_plddt := unit;
  pair_coords := unit;
  analyser := unit;
  read_pdb := fun _ => Ok ([], (), (), ());
  get_best_plddt := fun _ => Ok ();
  read_plddt := fun _ _ => Ok ();
  score_complex := fun _ _ _ => Ok (complex_score, num_chains);
  calculate_mpDockQ := fun _ => Ok 0.5%float;
  read_pdb_pdockq := fun _ => Ok ((), ());
  calc_pdockq := fun _ _ _ => Ok 0.25%float;
  PDBAnalyser := fun _ => Ok ();
  pdb_analyser := fun _ a _ => Ok (default 0%float (a !! 0%nat ≫= (.!! 0%nat)), 90%float)
|}.

(** Collaborators of a model of two chains whose per-chain confidence tells
    where it was read: [read_plddt] gives 70, [read_pdb_pdockq] gives 80,
    and the analyser reports the confidence it is handed. *)
Definition tagged : Collaborators := {|
  coords := unit;
  indices := unit;
  plddt := unit;
  chain_plddt := float;
  pair_coords := unit;
  analyser := unit;
  read_pdb := fun _ => Ok ([], (), (), ());
  get_best_plddt := fun _ => Ok ();
  read_plddt := fun _ _ => Ok 70%float;
  score_complex := fun _ _ _ => Ok (Some 1%float, 2%Z);
  calculate_mpDockQ := fun _ => Ok 0.5%float;
  read_pdb_pdockq := fun _ => Ok ((), 80%float);
  calc_pdockq := fun _ _ _ => Ok 0.25%float;
  PDBAnalyser := fun _ => Ok ();
  pdb_analyser := fun _ a per_chain =>
                    Ok (default 0%float (a !! 0%nat ≫= (.!! 0%nat)), per_chain)
|}.

Definition scores_of (model : string) (x : float) : gmap string float := {[ model := x ]}.

(** A ranking file of the multimer pipeline: [order], [iptm] and [iptm+ptm]. *)
Definition ranking_full : ranking :=
  Ranking (Some ["model_1"]) (Some (scores_of "model_1" 0.75%float))
          (Some (scores_of "model_1" 0.875%float)).

(** A ranking file with [order] and [iptm+ptm] only. *)
Definition ranking_iptm_ptm_only : ranking :=
  Ranking (Some ["model_1"]) None (Some (scores_of "model_1" 0.875%float)).

(** A ranking file with [order] and [iptm] only. *)
Definition ranking_iptm_only : ranking :=
  Ranking (Some ["model_1"]) (Some (scores_of "model_1" 0.75%float)) None.

(** Two chains of one residue each; the inter-chain cell (0,1) is 4. *)
Definition pae_2x2 : ndarray := [[0; 4]; [7; 0]]%float.

Definition files (l : list (string * file)) : gmap string file := list_to_map l.

(** A complete job: ranking, PAE JSON and coordinates of two chains. *)
Definition job_complete (name : string) : directory :=
  Directory name (files [("ranking_debug.json", RankingJson ranking_full);
                         ("pae_model_1.json", PaeJson [Some pae_2x2]);
                         ("ranked_0.pdb", PdbFile [1; 1]%nat "ATOM")]).

(** The same job without its coordinate file. *)
Definition job_without_pdb (name : string) : directory :=
  Directory name (files [("ranking_debug.json", RankingJson ranking_full);
                         ("pae_model_1.json", PaeJson [Some pae_2x2])]).

(** A directory without ranking file. *)
Definition job_without_ranking (name : string) : directory :=
  Directory name (files [("ranked_0.pdb", PdbFile [1; 1]%nat "ATOM")]).

Definition world0 : world := World [] [].

(** A job whose ranking file carries an [iptm] mapping and whose result
    pickle is present, but which has no PAE JSON file. *)
Definition job_pickle_only (name : string) : directory :=
  Directory name
    (files [("ranking_debug.json", RankingJson ranking_full);
            ("result_model_1.pkl",
             ResultPickle (ResultBlob (Some pae_2x2) (Some 0.75%float)));
            ("ranked_0.pdb", PdbFile [1; 1]%nat "ATOM")]).

(** A job whose only error-matrix artifact is the compressed pickle. *)
Definition job_gzip_only (name : string) : directory :=
  Directory name
    (files [("ranking_debug.json", RankingJson ranking_iptm_ptm_only);
            ("result_model_1.pkl.gz",
             ResultPickle (ResultBlob (Some pae_2x2) (Some 0.75%float)));
            ("ranked_0.pdb", PdbFile [1; 1]%nat "ATOM")]).

(** A job with all three artifacts, whose ranking file has no [iptm]. *)
Definition job_all_artifacts (name : string) : directory :=
  Directory name
    (files [("ranking_debug.json", RankingJson ranking_iptm_ptm_only);
            ("pae_model_1.json", PaeJson [Some pae_2x2]);
            ("result_model_1.pkl",
             ResultPickle (ResultBlob (Some [[1; 1]; [1; 1]]%float) (Some 0.75%float)));
            ("result_model_1.pkl.gz",
             ResultPickle (ResultBlob (Some [[2; 2]; [2; 2]]%float) (Some 0.5%float)));
            ("ranked_0.pdb", PdbFile [1; 1]%nat "ATOM")]).

(** The same without the PAE JSON file. *)
Definition job_both_pickles (name : string) : directory :=
  Directory name
    (files [("ranking_debug.json", RankingJson ranking_iptm_ptm_only);
            ("result_model_1.pkl",
             ResultPickle (ResultBlob (Some [[1; 1]; [1; 1]]%float) (Some 0.75%float)));
            ("result_model_1.pkl.gz",
             ResultPickle (ResultBlob (Some [[2; 2]; [2; 2]]%float) (Some 0.5%float)));
            ("ranked_0.pdb", PdbFile [1; 1]%nat "ATOM")]).

(** A complete job of a single chain of two residues. *)
Definition job_single_chain : directory :=
  Directory "s" (files [("ranking_debug.json", RankingJson ranking_full);
                        ("pae_model_1.json", PaeJson [Some pae_2x2]);
                        ("ranked_0.pdb", PdbFile [2%nat] "ATOM")]).

(** A job whose ranking file has [order] and [iptm] but no [iptm+ptm]. *)
Definition job_iptm_only (name : string) : directory :=
  Directory name (files [("ranking_debug.json", RankingJson ranking_iptm_only);
                         ("pae_model_1.json", PaeJson [Some pae_2x2]);
                         ("ranked_0.pdb", PdbFile [1; 1]%nat "ATOM")]).

(** * The template database scripts:
      [create_custom_template_db.py] and [create_fake_template_db.py]

    Both scripts build a directory tree ([pdb_mmcif/mmcif_files],
    [pdb_seqres]) from template files.  They are embedded over a file
    system: a map from paths to nodes, with the error behaviour of the
    POSIX calls the scripts make.  Permissions, links and other processes
    are not modelled.  The text of a file is a string with one [ascii] for
    each character, so the code points of the text are below 256. *)

Module TemplateDb.

(** ** Python strings *)

(** [c.isspace()] for a code point below 256. *)
Definition is_space (c : ascii) : bool :=
  let n := nat_of_ascii c in
  ((9 <=? n) && (n <=? 13) || (28 <=? n) && (n <=? 32) || (n =? 133) || (n =? 160))%nat.

(** [s.split()]: the maximal runs of characters that are not whitespace. *)
Fixpoint tokens (word : string) (s : string) : list string :=
  match s with
  | EmptyString => if String.eqb word "" then [] else [word]
  | String c rest =>
      if is_space c
      then (if String.eqb word "" then tokens "" rest else word :: tokens "" rest)
      else tokens (word +:+ String c "") rest
  end.

Definition py_split (s : string) : list string := tokens "" s.

(** [c.lower()] for a code point below 256: the letters A to Z, and the
    Latin-1 capitals U+00C0 to U+00DE without the sign U+00D7. *)
Definition lower_char (c : ascii) : ascii :=
  let n := nat_of_ascii c in
  if ((65 <=? n) && (n <=? 90) || (192 <=? n) && (n <=? 222) && negb (n =? 215))%nat
  then ascii_of_nat (n + 32)
  else c.

Fixpoint py_lower (s : string) : string :=
  match s with
  | EmptyString => EmptyString
  | String c rest => String (lower_char c) (py_lower rest)
  end.

(** [s.startswith(prefix)] *)
Definition py_startswith (s prefix : string) : bool := String.prefix prefix s.

(** [s.endswith(suffix)] *)
Definition py_endswith (s suffix : string) : bool :=
  let n := String.length s in
  let m := String.length suffix in
  (m <=? n)%nat && String.eqb (String.substring (n - m) m s) suffix.

(** [s.replace(old, new)]: every occurrence of [old], found from the left
    and not overlapping, becomes [new].  [skip] counts the characters of
    an occurrence still to be passed over. *)
Fixpoint replace_from (old new : string) (skip : nat) (s : string) : string :=
  match s with
  | EmptyString => EmptyString
  | String c rest =>
      match skip with
      | S k => replace_from old new k rest
      | O =>
          if String.prefix old s
          then new +:+ replace_from old new (String.length old - 1) rest
          else String c (replace_from old new 0 rest)
      end
  end.

(** With an empty [old], [new] goes before every character and at the end. *)
Fixpoint intersperse (new : string) (s : string) : string :=
  match s with
  | EmptyString => new
  | String c rest => new +:+ String c (intersperse new rest)
  end.

Definition py_replace (s old new : string) : string :=
  if String.eqb old "" then intersperse new s else replace_from old new 0 s.

Definition nl : string := String "010"%char "".

(** The lines of a text file as [for line in f] yields them: [\r\n] and
    [\r] are read as [\n], and every line but possibly the last ends in
    [\n]. *)
Fixpoint lines_from (line : string) (s : string) : list string :=
  match s with
  | EmptyString => if String.eqb line "" then [] else [line]
  | String c rest =>
      if Ascii.eqb c "010"%char then (line +:+ nl) :: lines_from "" rest
      else if Ascii.eqb c "013"%char then
        match rest with
        | String c' rest' =>
            if Ascii.eqb c' "010"%char
            then (line +:+ nl) :: lines_from "" rest'
            else (line +:+ nl) :: lines_from "" rest
        | EmptyString => [line +:+ nl]
        end
      else lines_from (line +:+ String c "") rest
  end.

Definition py_lines (text : string) : list string := lines_from "" text.

(** ** Names of paths, as [pathlib] reads them (POSIX, up to Python 3.13) *)

(** The fields of [s] between the separators. *)
Fixpoint split_on (sep : ascii) (field : string) (s : string) : list string :=
  match s with
  | EmptyString => [field]
  | String c rest =>
      if Ascii.eqb c sep then field :: split_on sep "" rest
      else split_on sep (field +:+ String c "") rest
  end.

(** The parts of a path string: empty parts and [.] are dropped. *)
Definition components (s : string) : list string :=
  List.filter (fun c => negb (String.eqb c "") && negb (String.eqb c "."))
              (split_on "/"%char "" s).

(** [Path(s).name] *)
Definition path_name (s : string) : string := default "" (last (components s)).

(** [name.rfind('.')] *)
Fixpoint rfind_dot (name : string) : option nat :=
  match name with
  | EmptyString => None
  | String c rest =>
      match rfind_dot rest with
      | Some i => Some (S i)
      | None => if Ascii.eqb c "."%char then Some 0%nat else None
      end
  end.

(** The place where the name splits into stem and suffix: a dot that is
    neither the first nor the last character. *)
Definition suffix_at (name : string) : option nat :=
  match rfind_dot name with
  | Some i => if ((0 <? i) && (i <? String.length name - 1))%nat then Some i else None
  | None => None
  end.

(** [Path.stem] and [Path.suffix] of a name. *)
Definition py_stem (name : string) : string :=
  match suffix_at name with
  | Some i => String.substring 0 i name
  | None => name
  end.

Definition py_suffix (name : string) : string :=
  match suffix_at name with
  | Some i => String.substring i (String.length name - i) name
  | None => ""
  end.

(** ** The file system and the journal *)

(** A path, by its parts from the root. *)
Abbreviation path := (list string).

Inductive node : Type :=
| Dir
| File (content : string).

Inductive level : Type := DEBUG | INFO | WARNING | ERROR.

(** The exceptions the scripts can meet.  [Failure] is [raise Exception(..)],
    [Foreign] an exception (a subclass of [Exception]) raised inside a
    collaborator. *)
Inductive error : Type :=
| SystemExit (status : Z)
| ValueError (about : path)
| IndexError
| KeyError (key : string)
| TypeError
| UnboundLocalError (var : string)
| FileExistsError (p : path)
| FileNotFoundError (p : path)
| NotADirectoryError (p : path)
| IsADirectoryError (p : path)
| SameFileError (p : path)
| Failure (what : string)
| Foreign (what : string).

(** [except Exception] catches everything but [SystemExit]. *)
Definition is_Exception (e : error) : bool :=
  match e with
  | SystemExit _ => false
  | _ => true
  end.

(** Pieces of a formatted message. *)
Inductive piece : Type :=
| Txt (s : string)
| Val (s : string)
| Num (n : nat)
| Loc (p : path)
| Names (l : list string)
| Exc (e : error).

(** What a run leaves behind besides the files: log records, and the calls
    of collaborators.  [BadLog] is a logging call whose arguments do not
    fit its format string. *)
Inductive entry : Type :=
| Logged (lv : level) (msg : list piece)
| BadLog (lv : level) (msg : string) (args : list string)
| Converted (pdb : path)
| Validated (cif : path)
| Parsed (file : path) (format : string)
| Structured (file : path).

Record state : Type := State {
  tree : gmap path node;
  journal : list entry
}.

Inductive outcome (A : Type) : Type :=
| Returned (a : A)
| Raised (e : error).
Arguments Returned {A} a.
Arguments Raised {A} e.

Definition IO (A : Type) : Type := state -> outcome A * state.

Definition io_ret {A} (a : A) : IO A := fun s => (Returned a, s).

Definition io_bind {A B} (m : IO A) (k : A -> IO B) : IO B :=
  fun s => match m s with
           | (Returned a, s') => k a s'
           | (Raised e, s') => (Raised e, s')
           end.

Definition throw {A} (e : error) : IO A := fun s => (Raised e, s).

#[export] Instance IO_ret : MRet IO := @io_ret.
#[export] Instance IO_bind : MBind IO := fun A B k m => io_bind m k.

(** The outcome of a statement, for the [except] clause around it. *)
Definition try {A} (m : IO A) : IO (outcome A) :=
  fun s => let (r, s') := m s in (Returned r, s').

Definition note (e : entry) : IO unit :=
  fun s => (Returned (), State (tree s) (journal s ++ [e])).

Definition logging (lv : level) (msg : list piece) : IO unit := note (Logged lv msg).

(** [if b: m] *)
Definition when (b : bool) (m : IO unit) : IO unit :=
  if b then m else io_ret ().

(** Reading a local variable that may not have been assigned. *)
Definition bound {A} (var : string) (v : option A) : IO A :=
  match v with
  | Some a => io_ret a
  | None => throw (UnboundLocalError var)
  end.

(** ** Looking a path up *)

(** What the walk from the root along a path ends in: a node, a missing
    entry ([ENOENT]), or a file where a directory is needed ([ENOTDIR]). *)
Inductive resolution : Type :=
| Found (n : node)
| Missing
| NotDir.

(** The walk, by the parts of the path from the last one back. *)
Fixpoint resolve_rev (t : gmap path node) (rp : list string) : resolution :=
  match rp with
  | [] => Found Dir
  | _ :: rparent =>
      match resolve_rev t rparent with
      | Found Dir =>
          match t !! rev rp with
          | Some n => Found n
          | None => Missing
          end
      | Found (File _) => NotDir
      | Missing => Missing
      | NotDir => NotDir
      end
  end.

Definition resolve (t : gmap path node) (p : path) : resolution :=
  resolve_rev t (rev p).

(** [Path.parent] *)
Definition parent (p : path) : path := rev (tail (rev p)).

Definition stat (p : path) : IO resolution := fun s => (Returned (resolve (tree s) p), s).

(** [os.path.exists] and [Path.exists] *)
Definition exists_ (p : path) : IO bool :=
  r ← stat p;
  mret (match r with Found _ => true | _ => false end).

(** [Path.is_dir] *)
Definition is_dir (p : path) : IO bool :=
  r ← stat p;
  mret (match r with Found Dir => true | _ => false end).

Definition put (p : path) (n : node) : IO unit :=
  fun s => (Returned (), State (<[p := n]> (tree s)) (journal s)).

Definition del (p : path) : IO unit :=
  fun s => (Returned (), State (delete p (tree s)) (journal s)).

(** A directory that has just been made has no entries. *)
Definition cleared (p : path) (t : gmap path node) : gmap path node :=
  <[p := Dir]> (filter (fun item => ¬ p `prefix_of` item.1) t).

Definition fresh_dir (p : path) : IO unit :=
  fun s => (Returned (), State (cleared p (tree s)) (journal s)).

(** [os.mkdir] *)
Definition os_mkdir (p : path) : IO unit :=
  r ← stat p;
  match r with
  | Found _ => throw (FileExistsError p)
  | NotDir => throw (NotADirectoryError p)
  | Missing =>
      up ← stat (parent p);
      match up with
      | Found Dir => fresh_dir p
      | _ => throw (FileNotFoundError p)
      end
  end.

(** [except OSError] of [Path.mkdir]: the error is passed over when
    [exist_ok] holds and the path is a directory. *)
Definition mkdir_excuse (p : path) (exist_ok : bool) (e : error) : IO unit :=
  d ← is_dir p;
  if exist_ok && d then mret () else throw e.

(** [Path.mkdir(parents, exist_ok)], by the parts of the path from the
    last one back. *)
Fixpoint path_mkdir_rev (rp : list string) (parents exist_ok : bool) : IO unit :=
  r ← try (os_mkdir (rev rp));
  match r with
  | Returned _ => mret ()
  | Raised (FileNotFoundError q) =>
      match rp with
      | [] => throw (FileNotFoundError q)
      | _ :: rparent =>
          if parents then
            path_mkdir_rev rparent true true;;
            again ← try (os_mkdir (rev rp));
            match again with
            | Returned _ => mret ()
            | Raised (FileNotFoundError q') => throw (FileNotFoundError q')
            | Raised e => mkdir_excuse (rev rp) exist_ok e
            end
          else throw (FileNotFoundError q)
      end
  | Raised e => mkdir_excuse (rev rp) exist_ok e
  end.

Definition path_mkdir (p : path) (parents exist_ok : bool) : IO unit :=
  path_mkdir_rev (rev p) parents exist_ok.

(** [os.remove] and [Path.unlink] *)
Definition unlink (p : path) : IO unit :=
  r ← stat p;
  match r with
  | Found (File _) => del p
  | Found Dir => throw (IsADirectoryError p)
  | Missing => throw (FileNotFoundError p)
  | NotDir => throw (NotADirectoryError p)
  end.

(** The names of the entries of a directory of the tree. *)
Definition entries (t : gmap path node) (p : path) : list string :=
  omap (fun q => match last q with
                 | Some name => if bool_decide (q = p ++ [name]) then Some name else None
                 | None => None
                 end)
       (map_to_list t).*1.

Inductive mode : Type := Append | Write.

(** [open(p, 'a')] and [open(p, 'w')]: the file is made if it is not there,
    and emptied in mode [Write]. *)
Definition open_file (m : mode) (p : path) : IO unit :=
  r ← stat p;
  match r with
  | Found (File content) =>
      match m with
      | Append => mret ()
      | Write => put p (File "")
      end
  | Found Dir => throw (IsADirectoryError p)
  | NotDir => throw (NotADirectoryError p)
  | Missing =>
      up ← stat (parent p);
      match up with
      | Found Dir => put p (File "")
      | _ => throw (FileNotFoundError p)
      end
  end.

(** [f.write(text)] on a file opened for writing: the text goes to its end. *)
Definition write_file (p : path) (text : string) : IO unit :=
  r ← stat p;
  match r with
  | Found (File content) => put p (File (content +:+ text))
  | Found Dir => throw (IsADirectoryError p)
  | NotDir => throw (NotADirectoryError p)
  | Missing => throw (FileNotFoundError p)
  end.

(** [open(p, 'r')] and the reading of the whole text. *)
Definition read_text (p : path) : IO string :=
  r ← stat p;
  match r with
  | Found (File content) => mret content
  | Found Dir => throw (IsADirectoryError p)
  | NotDir => throw (NotADirectoryError p)
  | Missing => throw (FileNotFoundError p)
  end.

(** [shutil.copyfile(src, dst)] *)
Definition copyfile (src dst : path) : IO unit :=
  there ← exists_ src;
  if bool_decide (src = dst) && there then throw (SameFileError src)
  else
    content ← read_text src;
    open_file Write dst;;
    write_file dst content.

(** ** The libraries the scripts call *)

(** A record of [Bio.SeqIO]: its id, the chain it is annotated with, if
    any, and its sequence. *)
Record seq_record : Type := SeqRecord {
  rec_id : string;
  rec_chain : option string;
  rec_seq : string
}.

(** A chain of a parsed structure: its id and the names of its residues. *)
Record chain : Type := Chain {
  chain_id_of : string;
  resnames : list string
}.

(** A structure is the list of its models, a model the list of its chains. *)
Abbreviation structure := (list (list chain)).

(** What the scripts take from outside.  [listing_order] is the order in
    which [os.listdir] returns names, [locate] the place a path string
    denotes.  [SeqIO_parse] yields records one at a time and may raise
    after some of them.  [convert_pdb_to_mmcif] and [validate_and_fix_mmcif]
    rewrite files. *)
Class Libraries : Type := {
  listing_order : list string -> list string;
  listing_order_perm : forall names, listing_order names ≡ₚ names;
  locate : string -> path;
  SeqIO_parse : resolution -> string -> list seq_record * option error;
  get_structure : resolution -> outcome structure;
  three_to_one : string -> option string;
  convert_pdb_to_mmcif : path -> gmap path node -> outcome unit * gmap path node;
  validate_and_fix_mmcif : path -> gmap path node -> outcome unit * gmap path node
}.

Section Scripts.

Context {libs : Libraries}.

(** [os.listdir] *)
Definition listdir (p : path) : IO (list string) :=
  fun s => match resolve (tree s) p with
           | Found Dir => (Returned (listing_order (entries (tree s) p)), s)
           | Found (File _) => (Raised (NotADirectoryError p), s)
           | Missing => (Raised (FileNotFoundError p), s)
           | NotDir => (Raised (NotADirectoryError p), s)
           end.

(** A collaborator that rewrites files: its call is noted, then the tree
    is what it makes of it. *)
Definition run_on_tree (f : gmap path node -> outcome unit * gmap path node) : IO unit :=
  fun s => let (r, t) := f (tree s) in (r, State t (journal s)).

Definition rewrite (e : entry) (f : gmap path node -> outcome unit * gmap path node)
  : IO unit :=
  note e;; run_on_tree f.

(** ** [save_seqres] of both scripts *)

(** The two lines written for one chain. *)
Definition seqres_record (code chain s : string) : string :=
  ">" +:+ code +:+ "_" +:+ chain +:+ " mol:protein length:"
      +:+ pretty (String.length s) +:+ nl +:+ s +:+ nl.

(** [create_custom_template_db.save_seqres]; the sequence may be [None]. *)
Definition save_seqres (code chain : string) (s : option string) (dir : path) : IO path :=
  let fn := dir ++ ["pdb_seqres.txt"] in
  open_file Append fn;;
  s ← match s with
      | Some s => mret s
      | None => throw TypeError
      end;
  let lines := seqres_record code chain s in
  logging INFO [Txt "Saving SEQRES for chain "; Val chain; Txt " to "; Loc fn; Txt "!"];;
  logging DEBUG [Val lines];;
  write_file fn lines;;
  mret fn.

Fixpoint write_records (code : string) (seqs : list (string * string)) (fn : path)
  : IO unit :=
  match seqs with
  | [] => mret ()
  | seq :: rest =>
      let chain := seq.2 in
      let s := seq.1 in
      let lines := seqres_record code chain s in
      logging INFO [Txt "Saving SEQRES for chain "; Val chain; Txt " to "; Loc fn; Txt "!"];;
      logging INFO [Val lines];;
      write_file fn lines;;
      write_records code rest fn
  end.

(** [create_fake_template_db.save_seqres] *)
Definition fake_save_seqres (code : string) (seqs : list (string * string)) (dir : path)
  : IO path :=
  let fn := dir ++ ["pdb_seqres.txt"] in
  there ← exists_ fn;
  when there (unlink fn);;
  open_file Write fn;;
  write_records code seqs fn;;
  mret fn.

(** ** [parse_code] *)

(** [line.split()[1]] *)
Definition second_token (line : string) : IO string :=
  match py_split line with
  | _ :: code :: _ => mret code
  | _ => throw IndexError
  end.

(** The loop over the lines of the template. *)
Fixpoint scan_entry_id (template : string) (lines : list string) (code : string)
  : IO string :=
  match lines with
  | [] => mret code
  | line :: rest =>
      if py_startswith line "_entry.id" then
        code ← second_token line;
        if negb (String.length code =? 4)%nat then
          logging ERROR [Txt "Error for template "; Val template; Txt "!"; Txt nl;
                         Txt "Code must have 4 characters but is "; Val code; Txt nl];;
          throw (SystemExit 1)
        else scan_entry_id template rest code
      else scan_entry_id template rest code
  end.

Definition parse_code (template : string) : IO string :=
  let code := py_stem (path_name template) in
  text ← read_text (locate template);
  code ← scan_entry_id template (py_lines text) code;
  mret (py_lower code).

(** ** [create_dir_and_remove_files] and [create_tree] *)

(** The loop over [files_to_remove]; they are names of files. *)
Fixpoint remove_listed (dir_path : path) (files_to_remove : list string) : IO unit :=
  match files_to_remove with
  | [] => mret ()
  | f :: rest =>
      let target_file := dir_path ++ [f] in
      there ← exists_ target_file;
      when there (unlink target_file);;
      remove_listed dir_path rest
  end.

Definition create_dir_and_remove_files (dir_path : path) (files_to_remove : list string)
  : IO unit :=
  made ← try (path_mkdir dir_path true false);
  match made with
  | Returned _ => mret ()
  | Raised (FileExistsError _) =>
      logging INFO [Loc dir_path; Txt " already exists!"];;
      logging INFO [Txt "The existing database will be overwritten!"];;
      remove_listed dir_path files_to_remove
  | Raised e => throw e
  end.

Definition create_tree (pdb_mmcif_dir mmcif_dir seqres_dir templates_dir : path) : IO unit :=
  there ← exists_ pdb_mmcif_dir;
  files_to_remove ← (if there : bool then listdir pdb_mmcif_dir else mret []);
  create_dir_and_remove_files mmcif_dir files_to_remove;;
  create_dir_and_remove_files templates_dir [];;
  open_file Append (pdb_mmcif_dir ++ ["obsolete.dat"]);;
  create_dir_and_remove_files seqres_dir ["pdb_seqres.txt"].

(** ** [extract_seqs] *)

(** A collaborator that reads the file at a path. *)
Definition consult {A} (e : entry) (p : path) (f : resolution -> A) : IO A :=
  note e;;
  r ← stat p;
  mret (f r).

(** The loop over the records of one format. *)
Fixpoint scan_records (format_type chain_id : string) (records : list seq_record)
    (found : option string * option string) : IO (option string * option string) :=
  match records with
  | [] => mret found
  | record :: rest =>
      chain ← match rec_chain record with
              | Some c => mret c
              | None => throw (KeyError "chain")
              end;
      let found :=
        if String.eqb chain chain_id then
          if py_endswith format_type "atom" then (Some (rec_seq record), found.2)
          else if py_endswith format_type "seqres" then (found.1, Some (rec_seq record))
          else found
        else found in
      scan_records format_type chain_id rest found
  end.

(** The loop over the formats. *)
Fixpoint scan_formats (template : path) (chain_id : string) (format_types : list string)
    (found : option string * option string) : IO (option string * option string) :=
  match format_types with
  | [] => mret found
  | format_type :: rest =>
      parsed ← consult (Parsed template format_type) template
                       (fun r => SeqIO_parse r format_type);
      found ← scan_records format_type chain_id parsed.1 found;
      match parsed.2 with
      | Some e => throw e
      | None => scan_formats template chain_id rest found
      end
  end.

Definition extract_seqs (template : path) (chain_id : string)
  : IO (option string * option string) :=
  let suffix := py_suffix (default "" (last template)) in
  let file_type := py_lower suffix in
  if negb (String.eqb (py_lower suffix) ".pdb") && negb (String.eqb (py_lower suffix) ".cif")
  then throw (ValueError template)
  else
    let kind := String.substring 1 (String.length file_type - 1) file_type in
    let format_types := [kind +:+ "-atom"; kind +:+ "-seqres"] in
    found ← scan_formats template chain_id format_types (None, None);
    let sequence_atom := found.1 in
    let sequence_seqres := found.2 in
    when (bool_decide (sequence_atom = None))
         (logging ERROR [Txt "No atom sequence found for chain "; Val chain_id]);;
    when (bool_decide (sequence_seqres = None))
         (logging WARNING [Txt "No SEQRES sequence found for chain "; Val chain_id]);;
    mret (sequence_atom, sequence_seqres).

(** ** [save_cif] *)

Definition save_cif (cif_fn : path) (code chain_id : string) (dir : path) : IO path :=
  checked ← try (rewrite (Validated cif_fn) (validate_and_fix_mmcif cif_fn));
  match checked with
  | Returned _ => logging INFO [Txt "Validated and fixed "; Loc cif_fn; Txt "!"]
  | Raised e =>
      if is_Exception e
      then logging WARNING [Txt "Exception: "; Exc e;
                            Txt "Cannot validate and fix "; Loc cif_fn; Txt "!"]
      else throw e
  end;;
  parsed ← consult (A := outcome structure) (Structured cif_fn) cif_fn get_structure;
  struct ← match parsed with
           | Returned struct => mret (struct : structure)
           | Raised e => throw e
           end;
  (if (1 <? length struct)%nat
   then throw (Failure "models found")
   else mret ());;
  (* for model in struct: chain_ids = [chain.id for chain in model] *)
  let chain_ids := last ((fun model : list chain => chain_id_of <$> model) <$> (struct : structure)) in
  chain_ids ← bound "chain_ids" chain_ids;
  (if bool_decide (chain_id ∈ chain_ids)
   then logging INFO [Txt "Found chain "; Val chain_id; Txt " in "; Loc cif_fn; Txt "!"]
   else logging WARNING [Txt "Warning! SEQRES chains may be different from ATOM chains!";
                         Txt "Chain "; Val chain_id; Txt " not found in "; Loc cif_fn;
                         Txt "!"; Txt "Found chains: "; Names chain_ids; Txt "!"]);;
  let out_path := dir ++ [code +:+ ".cif"] in
  copyfile cif_fn out_path;;
  mret out_path.

(** ** [extract_seqs_from_cif] *)

(** The loop over the SEQRES records. *)
Fixpoint seqres_of_chain (chain_id : string) (records : list seq_record)
    (seqs : list (string * string)) : IO (list (string * string)) :=
  match records with
  | [] => mret seqs
  | record :: rest =>
      if negb (String.eqb (rec_id record) chain_id) then
        logging INFO [Txt "Skipping chain "; Val (rec_id record)];;
        seqres_of_chain chain_id rest seqs
      else seqres_of_chain chain_id rest (seqs ++ [(rec_seq record, rec_id record)])
  end.

(** The loop over the residues of a chain. *)
Fixpoint one_letter_codes (residues : list string) (seq_chain : string) : IO string :=
  match residues with
  | [] => mret seq_chain
  | resname :: rest =>
      match three_to_one resname with
      | Some one_letter => one_letter_codes rest (seq_chain +:+ one_letter)
      | None =>
          logging WARNING [Txt "Cannot convert "; Val resname; Txt " to one letter code!"];;
          one_letter_codes rest seq_chain
      end
  end.

(** The loop over the chains of a model. *)
Fixpoint atoms_of_chain (chain_id : string) (chains : list chain)
    (seqs : list (string * string)) : IO (list (string * string)) :=
  match chains with
  | [] => mret seqs
  | c :: rest =>
      if negb (String.eqb (chain_id_of c) chain_id) then
        logging INFO [Txt "Skipping chain "; Val (chain_id_of c)];;
        atoms_of_chain chain_id rest seqs
      else
        seq_chain ← one_letter_codes (resnames c) "";
        atoms_of_chain chain_id rest (seqs ++ [(seq_chain, chain_id_of c)])
  end.

(** The loop over the models. *)
Fixpoint atoms_of_models (chain_id : string) (models : structure)
    (seqs : list (string * string)) : IO (list (string * string)) :=
  match models with
  | [] => mret seqs
  | model :: rest =>
      seqs ← atoms_of_chain chain_id model seqs;
      atoms_of_models chain_id rest seqs
  end.

Definition extract_seqs_from_cif (file_path : path) (chain_id : string)
  : IO (list (string * string)) :=
  parsed ← consult (Parsed file_path "cif-seqres") file_path
                   (fun r => SeqIO_parse r "cif-seqres");
  seqs ← seqres_of_chain chain_id parsed.1 [];
  match parsed.2 with
  | Some e => throw e
  | None => mret ()
  end;;
  if (length seqs =? 0)%nat then
    logging INFO [Txt "No SEQRES records found in "; Loc file_path;
                  Txt "! Parsing from atoms!"];;
    parsed ← consult (A := outcome structure) (Structured file_path) file_path get_structure;
    struct ← match parsed with
             | Returned struct => mret struct
             | Raised e => throw e
             end;
    atoms_of_models chain_id struct seqs
  else mret seqs.

(** ** [create_db] of [create_fake_template_db.py] *)

(** The loop over the lines of the structure file: the last [_entry.id]
    line decides. *)
Fixpoint last_entry_id (lines : list string) (code : option string) : IO (option string) :=
  match lines with
  | [] => mret code
  | line :: rest =>
      if py_startswith line "_entry.id" then
        code ← second_token line;
        last_entry_id rest (Some code)
      else last_entry_id rest code
  end.

(** The statements of [create_db] that find the code. *)
Definition entry_code (struct_fn : string) : IO string :=
  text ← read_text (locate struct_fn);
  found ← last_entry_id (py_lines text) None;
  let code := match found with
              | Some code => code
              | None => py_stem (path_name struct_fn)
              end in
  logging INFO [Txt "Code: "; Val code];;
  let code := py_lower code in
  when (negb (String.length code =? 4)%nat)
       (logging WARNING [Txt "Code must have 4 characters but is "; Val code]);;
  mret code.

(** [for f in mmcif_files: os.remove(mmcif_dir / Path(f))] *)
Fixpoint remove_all (dir : path) (names : list string) : IO unit :=
  match names with
  | [] => mret ()
  | f :: rest => unlink (dir ++ [f]);; remove_all dir rest
  end.

(** The statements of [create_db] that make the directories. *)
Definition prepare_dirs (pdb_mmcif_dir mmcif_dir seqres_dir : path) : IO unit :=
  made ← try (path_mkdir mmcif_dir true false;;
              open_file Append (pdb_mmcif_dir ++ ["obsolete.dat"]));
  match made with
  | Returned _ => mret ()
  | Raised (FileExistsError _) =>
      logging INFO [Txt "Output mmcif directory already exists!"];;
      logging INFO [Txt "The existing database will be overwritten!"];;
      mmcif_files ← listdir mmcif_dir;
      when (0 <? length mmcif_files)%nat
           (logging INFO [Txt "Removing existing mmcif files!"];;
            remove_all mmcif_dir mmcif_files)
  | Raised e => throw e
  end;;
  made ← try (path_mkdir seqres_dir true false);
  match made with
  | Returned _ => mret ()
  | Raised (FileExistsError _) =>
      logging INFO [Txt "Output mmcif directory already exists!"];;
      logging INFO [Txt "The existing database will be overwritten!"];;
      there ← exists_ (seqres_dir ++ ["pdb_seqres.txt"]);
      when there (unlink (seqres_dir ++ ["pdb_seqres.txt"]))
  | Raised e => throw e
  end.

Definition fake_create_db (out_path struct_fn chain_id : string) : IO unit :=
  code ← entry_code struct_fn;
  let pdb_mmcif_dir := locate out_path ++ ["pdb_mmcif"] in
  let mmcif_dir := pdb_mmcif_dir ++ ["mmcif_files"] in
  let seqres_dir := locate out_path ++ ["pdb_seqres"] in
  prepare_dirs pdb_mmcif_dir mmcif_dir seqres_dir;;
  cif ← (if py_endswith struct_fn "pdb" then
           logging INFO [Txt "Converting "; Val struct_fn; Txt " to CIF!"];;
           rewrite (Converted (locate struct_fn)) (convert_pdb_to_mmcif (locate struct_fn));;
           save_cif (locate (py_replace struct_fn ".pdb" ".cif")) code chain_id mmcif_dir
         else if py_endswith struct_fn "cif" then
           logging INFO [Txt "Reading "; Val struct_fn; Txt "!"];;
           save_cif (locate struct_fn) code chain_id mmcif_dir
         else
           note (BadLog ERROR "Unknown format of " [struct_fn]);;
           throw (SystemExit 1));
  seqs ← extract_seqs_from_cif cif chain_id;
  sqrres_path ← fake_save_seqres code seqs seqres_dir;
  logging INFO [Txt "SEQRES saved to "; Loc sqrres_path; Txt "!"].

End Scripts.

(** ** The vocabulary of the properties of the scripts *)

(** The codes of the [_entry.id] lines of a file, in order. *)
Definition entry_ids (lines : list string) : list string :=
  omap (fun line => if py_startswith line "_entry.id" then py_split line !! 1%nat else None)
       lines.

(** A line that [parse_code] passes: if it is an [_entry.id] line, it has a
    code, of four characters. *)
Definition accepted (line : string) : Prop :=
  py_startswith line "_entry.id" = true ->
  exists code, py_split line !! 1%nat = Some code /\ String.length code = 4%nat.

(** The text of a file, empty where there is none. *)
Definition content_at (t : gmap path node) (p : path) : string :=
  match resolve t p with
  | Found (File content) => content
  | _ => ""
  end.

(** The records of all the chains of a list, one after the other. *)
Definition records_text (code : string) (seqs : list (string * string)) : string :=
  foldr (fun seq text => seqres_record code seq.2 seq.1 +:+ text) "" seqs.

(** What [create_fake_template_db.save_seqres] logs for them. *)
Definition records_log (code : string) (seqs : list (string * string)) (fn : path)
  : list entry :=
  seqs ≫= (fun seq =>
    [Logged INFO [Txt "Saving SEQRES for chain "; Val seq.2; Txt " to "; Loc fn; Txt "!"];
     Logged INFO [Val (seqres_record code seq.2 seq.1)]]).

(** The sequence of the last record annotated with the chain. *)
Definition chain_seq (chain_id : string) (records : list seq_record) : option string :=
  last (rec_seq <$> filter (fun record => rec_chain record = Some chain_id) records).

(** The tuples of the SEQRES records of the chain. *)
Definition seqres_seqs (chain_id : string) (records : list seq_record)
  : list (string * string) :=
  (fun record => (rec_seq record, rec_id record))
    <$> filter (fun record => rec_id record = chain_id) records.

(** The log records for the chains passed over. *)
Definition skipped (chain_id : string) (ids : list string) : list entry :=
  (fun id => Logged INFO [Txt "Skipping chain "; Val id])
    <$> filter (fun id => id ≠ chain_id) ids.

(** The strings of a list, one after the other. *)
Definition join (l : list string) : string := foldr String.append "" l.

(** The tuples of the chains of that id in all the models of a structure,
    from the residues that have a one-letter code. *)
Definition atom_seqs {libs : Libraries} (chain_id : string) (struct : structure)
  : list (string * string) :=
  (fun c => (join (omap three_to_one (resnames c)), chain_id_of c))
    <$> filter (fun c => chain_id_of c = chain_id) (concat struct).

(** The warnings for the residues that have no one-letter code. *)
Definition unconverted {libs : Libraries} (residues : list string) : list entry :=
  (fun resname => Logged WARNING [Txt "Cannot convert "; Val resname;
                                  Txt " to one letter code!"])
    <$> filter (fun resname => three_to_one resname = None) residues.

(** What the walk over the chains of all the models logs: for a chain of
    that id the warnings for its residues, for another chain that it is
    passed over. *)
Definition atoms_log {libs : Libraries} (chain_id : string) (struct : structure)
  : list entry :=
  concat struct ≫= (fun c =>
    if bool_decide (chain_id_of c = chain_id)
    then unconverted (resnames c)
    else [Logged INFO [Txt "Skipping chain "; Val (chain_id_of c)]]).

(** ** Concrete libraries and trees for the examples *)

Definition residue_table (resname : string) : option string :=
  if String.eqb resname "ALA" then Some "A"
  else if String.eqb resname "GLY" then Some "G"
  else if String.eqb resname "SER" then Some "S"
  else if String.eqb resname "LYS" then Some "K"
  else None.

Definition untouched (p : path) (t : gmap path node) : outcome unit * gmap path node :=
  (Returned (), t).

(** Libraries that list names as the tree enumerates them and read path
    strings from the root. *)
Definition libraries
    (parse : resolution -> string -> list seq_record * option error)
    (struct : resolution -> outcome structure)
    (convert validate : path -> gmap path node -> outcome unit * gmap path node)
  : Libraries :=
  {| listing_order := fun names => names;
     listing_order_perm := fun names => reflexivity names;
     locate := components;
     SeqIO_parse := parse;
     get_structure := struct;
     three_to_one := residue_table;
     convert_pdb_to_mmcif := convert;
     validate_and_fix_mmcif := validate |}.

(** A parser that finds two chains, the chain [A] twice among the ATOM
    records. *)
Definition parse_two_chains (r : resolution) (format : string)
  : list seq_record * option error :=
  if String.eqb format "pdb-atom" then
    ([SeqRecord "7abc:A" (Some "A") "GS"; SeqRecord "7abc:B" (Some "B") "KK";
      SeqRecord "7abc:A" (Some "A") "GSA"], None)
  else if String.eqb format "pdb-seqres" then
    ([SeqRecord "7abc:B" (Some "B") "KKG"], None)
  else ([], Some (ValueError [])).

Definition two_chains : Libraries :=
  libraries parse_two_chains (fun _ => Returned []) untouched untouched.

(** A file with SEQRES records for the chains [A] and [B], and a structure
    of two models. *)
Definition parse_seqres (r : resolution) (format : string)
  : list seq_record * option error :=
  ([SeqRecord "A" None "GSK"; SeqRecord "B" None "KK"], None).

Definition two_models : structure :=
  [[Chain "A" ["GLY"; "HOH"; "SER"]; Chain "B" ["LYS"]]; [Chain "A" ["GLY"]]].

Definition with_seqres : Libraries :=
  libraries parse_seqres (fun _ => Returned two_models) untouched untouched.

(** A file with a SEQRES record for the chain [B] only, and the structure
    of two models, where the chain [A] has a water among its residues. *)
Definition parse_seqres_B (r : resolution) (format : string)
  : list seq_record * option error :=
  ([SeqRecord "B" None "KK"], None).

Definition atoms_only : Libraries :=
  libraries parse_seqres_B (fun _ => Returned two_models) untouched untouched.

(** A validation that fails, on a file with one model of the chains [A]
    and [B]. *)
Definition failing (p : path) (t : gmap path node) : outcome unit * gmap path node :=
  (Raised (Foreign "validate_and_fix_mmcif"), t).

Definition one_model : Libraries :=
  libraries parse_seqres (fun _ => Returned [[Chain "A" ["GLY"]; Chain "B" ["LYS"]]])
            untouched failing.

(** Libraries that find nothing in any file. *)
Definition plain : Libraries :=
  libraries (fun _ _ => ([], None)) (fun _ => Returned []) untouched untouched.

(** A template with an [_entry.id] line. *)
Definition tree_6xyz : gmap path node :=
  {[ ["in"] := Dir;
     ["in"; "6XYZ.cif"] := File ("data_t" +:+ nl +:+ "_entry.id   1ABC" +:+ nl) ]}.

(** A template whose second [_entry.id] line has a code of five characters. *)
Definition tree_7abc : gmap path node :=
  {[ ["in"] := Dir;
     ["in"; "7abc.cif"]
     := File ("_entry.id 7ABC" +:+ nl +:+ "_entry.id model" +:+ nl
              +:+ "_entry.id 7ABC" +:+ nl) ]}.

(** A template with a suffix in capitals. *)
Definition tree_upper : gmap path node :=
  {[ ["in"] := Dir; ["in"; "7abc.PDB"] := File "ATOM" ]}.

(** A database with one record in [pdb_seqres.txt]. *)
Definition tree_db : gmap path node :=
  {[ ["db"] := Dir;
     ["db"; "pdb_seqres"] := Dir;
     ["db"; "pdb_seqres"; "pdb_seqres.txt"] := File (seqres_record "1abc" "A" "GS") ]}.

(** A database that an earlier run has made for the template [1abc]. *)
Definition tree_old_db : gmap path node :=
  {[ ["db"] := Dir;
     ["db"; "pdb_mmcif"] := Dir;
     ["db"; "pdb_mmcif"; "obsolete.dat"] := File "";
     ["db"; "pdb_mmcif"; "mmcif_files"] := Dir;
     ["db"; "pdb_mmcif"; "mmcif_files"; "1abc.cif"] := File "data_1abc";
     ["db"; "pdb_seqres"] := Dir;
     ["db"; "pdb_seqres"; "pdb_seqres.txt"] := File (seqres_record "1abc" "A" "GS");
     ["db"; "templates"] := Dir;
     ["db"; "templates"; "1abc.cif"] := File "data_1abc" ]}.

(** The same, and a structure file of a format that is not known. *)
Definition tree_old_db_ent : gmap path node :=
  <[ ["1abc.ent"] := File "HEADER" ]> tree_old_db.

(** A database directory without [pdb_seqres.txt]. *)
Definition tree_new : gmap path node :=
  {[ ["db"] := Dir; ["db"; "pdb_seqres"] := Dir ]}.

End TemplateDb.

(** * Properties *)

(** ** Order on binary64 numbers *)

Lemma SFltb_trans (x y z : spec_float) :
  SFltb x y = true -> SFltb y z = true -> SFltb x z = true.
Proof.
  unfold SFltb, SFcompare.
  destruct x as [sx|sx| |sx mx ex], y as [sy|sy| |sy my ey], z as [sz|sz| |sz mz ez];
    try destruct sx; try destruct sy; try destruct sz; simpl;
    try discriminate; try reflexivity.
  all: destruct (Z.compare_spec ex ey), (Z.compare_spec ey ez), (Z.compare_spec ex ez);
    try discriminate; try reflexivity; try lia; subst.
  all: change (PosDef.Pos.compare_cont Eq) with Pos.compare.
  all: destruct (Pos.compare_spec mx my), (Pos.compare_spec my mz), (Pos.compare_spec mx mz);
    simpl; try discriminate; try reflexivity; try lia.
Qed.

(** [x < y] and [y < z] give [x < z], also when a NaN or an infinity is
    among them. *)
Lemma float_ltb_trans (x y z : float) :
  PrimFloat.ltb x y = true -> PrimFloat.ltb y z = true -> PrimFloat.ltb x z = true.
Proof. rewrite !ltb_spec. apply SFltb_trans. Qed.

(** ** Cells of an array *)

Lemma cell_assign_block lo hi v a i j :
  cell (assign_block lo hi v a) i j =
  (fun x => if in_slice lo hi i && in_slice lo hi j then v else x) <$> cell a i j.
Proof.
  unfold cell, assign_block. rewrite list_lookup_imap.
  destruct (a !! i) as [row|]; simpl; [|done].
  destruct (in_slice lo hi i); simpl; [|by destruct (row !! j)].
  rewrite list_lookup_imap. by destruct (row !! j).
Qed.

Lemma cell_mask_blocks seq_lengths : forall old a i j,
  cell (mask_blocks old seq_lengths a) i j =
  (fun x => if same_chain old seq_lengths i j then 50%float else x) <$> cell a i j.
Proof.
  induction seq_lengths as [|len rest IH]; intros old a i j; simpl.
  - by destruct (cell a i j).
  - rewrite IH, cell_assign_block.
    destruct (cell a i j) as [x|]; simpl; [|done].
    destruct (in_slice old (old + len) i && in_slice old (old + len) j); simpl; [|done].
    by destruct (same_chain (old + len) rest i j).
Qed.

Lemma cell_in_square n a i j x :
  square n a -> cell a i j = Some x -> i < n ∧ j < n.
Proof.
  intros [Hlen Hrows]. unfold cell.
  destruct (a !! i) as [row|] eqn:Hrow; simpl; [|done]. intros Hx.
  split.
  - rewrite <- Hlen. by eapply lookup_lt_Some.
  - rewrite Forall_forall in Hrows.
    rewrite <- (Hrows row); [by eapply lookup_lt_Some|].
    apply list_elem_of_lookup. eauto.
Qed.

Lemma cell_square_defined n a i j :
  square n a -> i < n -> j < n -> ∃ x, cell a i j = Some x.
Proof.
  intros [Hlen Hrows] Hi Hj. unfold cell.
  destruct (lookup_lt_is_Some_2 a i) as [row Hrow]; [lia|].
  rewrite Hrow; simpl. apply lookup_lt_is_Some_2.
  rewrite Forall_forall in Hrows. rewrite (Hrows row); [done|].
  apply list_elem_of_lookup. eauto.
Qed.

(** [np.where(a < cutoff)] lists exactly the cells below the cutoff. *)
Lemma hits_spec cutoff a i j :
  (i, j) ∈ mjoin (imap (row_hits cutoff) a) ↔
  ∃ x, cell a i j = Some x ∧ PrimFloat.ltb x cutoff = true.
Proof.
  rewrite list_elem_of_join. unfold cell. split.
  - intros (l & Hin & Hl).
    apply elem_of_lookup_imap in Hl as (i' & row & -> & Hrow).
    unfold row_hits in Hin. apply list_elem_of_omap in Hin as (o & Ho & Hid).
    apply elem_of_lookup_imap in Ho as (j' & x & -> & Hx).
    simpl in Hid. destruct (PrimFloat.ltb x cutoff) eqn:Hlt; [|done].
    injection Hid as <- <-. exists x. by rewrite Hrow; simpl.
  - intros (x & Hc & Hlt).
    destruct (a !! i) as [row|] eqn:Hrow; simpl in Hc; [|done].
    exists (row_hits cutoff i row). split.
    + unfold row_hits. apply list_elem_of_omap.
      exists (Some (i, j)). split; [|done].
      apply elem_of_lookup_imap. exists j, x. by rewrite Hlt.
    + apply elem_of_lookup_imap. eauto.
Qed.

Lemma any_below_true cutoff a :
  any_below cutoff a = true ↔
  ∃ i j x, cell a i j = Some x ∧ PrimFloat.ltb x cutoff = true.
Proof.
  unfold any_below, np_where_lt; simpl. rewrite length_fmap.
  split.
  - destruct (mjoin (imap (row_hits cutoff) a)) as [|[i j] hits] eqn:Hhits; [done|].
    intros _. exists i, j. apply hits_spec. rewrite Hhits. left.
  - intros (i & j & Hx). apply hits_spec in Hx.
    destruct (mjoin (imap (row_hits cutoff) a)); [by apply elem_of_nil in Hx|done].
Qed.

(** ** What [examine_inter_pae] does to the store *)

Ltac run :=
  repeat progress
    (unfold mbind, M_bind, mret, M_ret, bind, ret, raise, lift, emit, deref, assign;
     simpl).

Example examine_two_chains :
  examine_inter_pae 0 [1; 1] 5 (World [[[0; 4]; [7; 0]]]%float []) =
  (Ok true, World [[[50; 4]; [7; 50]]]%float []).
Proof. reflexivity. Qed.

Lemma mask_loop_spec r seq_lengths : forall old w a,
  heap w !! r = Some a ->
  mask_loop r old seq_lengths w =
  (Ok (), World (<[r := mask_blocks old seq_lengths a]> (heap w)) (log w)).
Proof.
  induction seq_lengths as [|len rest IH]; intros old w a Ha; simpl.
  - run. rewrite list_insert_id by done. by destruct w.
  - run. rewrite Ha; simpl. rewrite Ha; simpl.
    erewrite IH; simpl.
    + by rewrite list_insert_insert_eq.
    + apply list_lookup_insert_eq. by eapply lookup_lt_Some.
Qed.

Lemma examine_inter_pae_spec r seq_lengths cutoff w a :
  heap w !! r = Some a ->
  examine_inter_pae r seq_lengths cutoff w =
  (Ok (any_below cutoff (mask_blocks 0 seq_lengths a)),
   World (<[r := mask_blocks 0 seq_lengths a]> (heap w)) (log w)).
Proof.
  intros Ha. unfold examine_inter_pae. run.
  rewrite (mask_loop_spec _ _ _ _ a Ha); simpl.
  rewrite list_lookup_insert_eq by (by eapply lookup_lt_Some). done.
Qed.

(** Without an array behind the reference the function raises. *)
Lemma examine_inter_pae_dangling r seq_lengths cutoff w :
  heap w !! r = None ->
  examine_inter_pae r seq_lengths cutoff w = (Raise DanglingReference, w).
Proof.
  intros Hr. unfold examine_inter_pae.
  destruct seq_lengths; run; by rewrite Hr.
Qed.

(** C2, as the specification states it, fails: the array the caller passed
    holds 50 on its diagonal blocks after the call. *)
Lemma C2_caller_matrix_overwritten :
  heap (World [[[0; 4]; [7; 0]]%float] []) !! 0%nat = Some [[0; 4]; [7; 0]]%float ∧
  heap (snd (examine_inter_pae 0 [1; 1]%nat 5 (World [[[0; 4]; [7; 0]]%float] []))) !! 0%nat
  = Some [[50; 4]; [7; 50]]%float.
Proof. split; reflexivity. Qed.

(** C2 (amended): [examine_inter_pae] masks the caller's array itself.  When
    [pae_mtx] refers to the array [a], the call returns, and afterwards the
    same reference holds an array of the same shape in which every cell
    whose row and column lie in one chain is 50 and every other cell is as
    in [a]; all other arrays and the log are untouched. *)
Theorem C2_examine_inter_pae_masks_in_place
    (pae_mtx : ref) (seq_lengths : list nat) (cutoff : float) (w : world) (a : ndarray) :
  heap w !! pae_mtx = Some a ->
  ∃ check w' a',
    examine_inter_pae pae_mtx seq_lengths cutoff w = (Ok check, w')
    ∧ heap w' !! pae_mtx = Some a'
    ∧ (∀ i j, cell a' i j =
              (fun x => if same_chain 0 seq_lengths i j then 50%float else x) <$> cell a i j)
    ∧ (∀ r, r ≠ pae_mtx -> heap w' !! r = heap w !! r)
    ∧ log w' = log w.
Proof.
  intros Ha. eexists _, _, (mask_blocks 0 seq_lengths a).
  split; [by apply examine_inter_pae_spec|]. simpl.
  split; [apply list_lookup_insert_eq; by eapply lookup_lt_Some|].
  split; [intros; apply cell_mask_blocks|].
  split; [|done]. intros r Hr. by apply list_lookup_insert_ne.
Qed.

Lemma C2_examine_inter_pae_masks_in_place_witness :
  ∃ check w' a',
    examine_inter_pae 0 [1; 1]%nat 5 (World [pae_2x2] []) = (Ok check, w')
    ∧ heap w' !! 0%nat = Some a'
    ∧ (∀ i j, cell a' i j =
              (fun x => if same_chain 0 [1; 1]%nat i j then 50%float else x)
                <$> cell pae_2x2 i j)
    ∧ (∀ r, r ≠ 0%nat -> heap w' !! r = heap (World [pae_2x2] []) !! r)
    ∧ log w' = log (World [pae_2x2] []).
Proof.
  apply (C2_examine_inter_pae_masks_in_place 0 [1; 1]%nat 5 (World [pae_2x2] []) pae_2x2).
  reflexivity.
Defined.

(** C3, as the specification states it, fails: with a cutoff above the
    sentinel 50 a single-chain model is reported as having an interface. *)
Lemma C3_single_chain_above_sentinel :
  examine_inter_pae 0 [1%nat] 51 (World [[[0%float]]] []) =
  (Ok true, World [[[50%float]]] []).
Proof. reflexivity. Qed.

(** C3 (amended): for a single-chain model (an [n] by [n] matrix and the
    one length [n]) the result of the check does not depend on what the
    matrix holds: it is true exactly when the matrix is not empty and the
    sentinel 50 is below the cutoff.  So the check returns false for every
    cutoff that 50 is not below. *)
Theorem C3_single_chain_check
    (pae_mtx : ref) (n : nat) (cutoff : float) (w : world) (a : ndarray) :
  heap w !! pae_mtx = Some a ->
  square n a ->
  fst (examine_inter_pae pae_mtx [n] cutoff w) = Ok ((0 <? n)%nat && PrimFloat.ltb 50 cutoff)
  ∧ (PrimFloat.ltb 50 cutoff = false ->
     fst (examine_inter_pae pae_mtx [n] cutoff w) = Ok false).
Proof.
  intros Ha Hsq.
  assert (fst (examine_inter_pae pae_mtx [n] cutoff w)
          = Ok ((0 <? n)%nat && PrimFloat.ltb 50 cutoff)) as Hcheck.
  { rewrite (examine_inter_pae_spec _ _ _ _ a Ha); cbn [fst]. f_equal.
    assert (∀ i j, i < n -> j < n -> same_chain 0 [n] i j = true) as Hsame.
    { intros i j Hi Hj. simpl. unfold in_slice.
      apply orb_true_intro; left. apply andb_true_intro; split;
        apply andb_true_intro; split;
        first [by apply Nat.leb_le; lia | by apply Nat.ltb_lt; lia]. }
    destruct ((0 <? n)%nat && PrimFloat.ltb 50 cutoff) eqn:Hrhs.
    - apply andb_prop in Hrhs as [Hn Hcut]. apply Nat.ltb_lt in Hn.
      apply any_below_true. exists 0%nat, 0%nat, 50%float. split; [|done].
      destruct (cell_square_defined n a 0 0 Hsq Hn Hn) as [y Hy].
      rewrite cell_mask_blocks, Hy. cbn [fmap option_fmap option_map].
      by rewrite Hsame.
    - apply not_true_is_false. intros Hany.
      apply any_below_true in Hany as (i & j & x & Hcell & Hlt).
      rewrite cell_mask_blocks in Hcell.
      destruct (cell a i j) as [y|] eqn:Hy; [|done].
      cbn [fmap option_fmap option_map] in Hcell.
      destruct (cell_in_square _ _ _ _ _ Hsq Hy) as [Hi Hj].
      rewrite (Hsame i j Hi Hj) in Hcell. injection Hcell as <-.
      rewrite Hlt, andb_true_r in Hrhs. apply Nat.ltb_ge in Hrhs. lia. }
  split; [done|]. intros Hcut. rewrite Hcheck, Hcut. by rewrite andb_false_r.
Qed.

Lemma C3_single_chain_check_witness :
  fst (examine_inter_pae 0 [2%nat] 5 (World [pae_2x2] []))
    = Ok ((0 <? 2)%nat && PrimFloat.ltb 50 5)
  ∧ (PrimFloat.ltb 50 5 = false ->
     fst (examine_inter_pae 0 [2%nat] 5 (World [pae_2x2] [])) = Ok false).
Proof.
  apply (C3_single_chain_check 0 2 5 (World [pae_2x2] []) pae_2x2).
  - reflexivity.
  - split; [reflexivity | repeat constructor].
Defined.

(** C7: the check is monotone in the cutoff.  On the same store, array and
    chain lengths, if it returns true at cutoff [c1] and [c1 < c2], it
    returns true at cutoff [c2]. *)
Theorem C7_examine_inter_pae_monotone
    (pae_mtx : ref) (seq_lengths : list nat) (c1 c2 : float) (w : world) :
  PrimFloat.ltb c1 c2 = true ->
  fst (examine_inter_pae pae_mtx seq_lengths c1 w) = Ok true ->
  fst (examine_inter_pae pae_mtx seq_lengths c2 w) = Ok true.
Proof.
  intros Hlt. destruct (heap w !! pae_mtx) as [a|] eqn:Ha.
  - rewrite !(examine_inter_pae_spec _ _ _ _ a Ha); cbn [fst].
    intros [= Hany]. f_equal.
    apply any_below_true in Hany as (i & j & x & Hcell & Hx).
    apply any_below_true. exists i, j, x. split; [done|].
    by eapply float_ltb_trans.
  - by rewrite examine_inter_pae_dangling.
Qed.

Lemma C7_examine_inter_pae_monotone_witness :
  fst (examine_inter_pae 0 [1; 1]%nat 6 (World [pae_2x2] [])) = Ok true.
Proof.
  apply (C7_examine_inter_pae_monotone 0 [1; 1]%nat 5 6 (World [pae_2x2] []));
    reflexivity.
Defined.

(** ** Reasoning about statements *)

(** A statement that returns normally ran both halves of a sequence. *)
Lemma bind_Ok {A B} (m : M A) (k : A -> M B) w b w' :
  (m ≫= k) w = (Ok b, w') ->
  ∃ a w1, m w = (Ok a, w1) ∧ k a w1 = (Ok b, w').
Proof.
  unfold mbind, M_bind, bind. destruct (m w) as [[a|e] w1]; [eauto|done].
Qed.

(** An exception in the first half of a sequence is the outcome of the
    sequence. *)
Lemma bind_Raise {A B} (m : M A) (k : A -> M B) w e w' :
  m w = (Raise e, w') -> (m ≫= k) w = (Raise e, w').
Proof. unfold mbind, M_bind, bind. by intros ->. Qed.

Lemma bind_step {A B} (m : M A) (k : A -> M B) w a w' :
  m w = (Ok a, w') -> (m ≫= k) w = k a w'.
Proof. unfold mbind, M_bind, bind. by intros ->. Qed.

Section Grows.

Context (P : event -> Prop).

Lemma grows_ret {A} (a : A) : grows P (mret a).
Proof. intros w r w' [= <- <-]. exists []. by rewrite app_nil_r. Qed.

Lemma grows_raise {A} e : grows P (@raise A e).
Proof. intros w r w' [= <- <-]. exists []. by rewrite app_nil_r. Qed.

Lemma grows_lift {A} (x : result A) : grows P (lift x).
Proof. intros w r w' [= <- <-]. exists []. by rewrite app_nil_r. Qed.

Lemma grows_emit ev : P ev -> grows P (emit ev).
Proof. intros Hev w r w' [= <- <-]. exists [ev]. split; [done|by constructor]. Qed.

Lemma grows_alloc a : grows P (alloc a).
Proof. intros w r w' [= <- <-]. exists []. by rewrite app_nil_r. Qed.

Lemma grows_deref r : grows P (deref r).
Proof.
  intros w x w'. unfold deref.
  destruct (heap w !! r); intros [= <- <-]; exists []; by rewrite app_nil_r.
Qed.

Lemma grows_assign r a : grows P (assign r a).
Proof.
  intros w x w'. unfold assign.
  destruct (heap w !! r); intros [= <- <-]; exists []; by rewrite app_nil_r.
Qed.

Lemma grows_bind {A B} (m : M A) (k : A -> M B) :
  grows P m -> (∀ a, grows P (k a)) -> grows P (m ≫= k).
Proof.
  intros Hm Hk w r w'. unfold mbind, M_bind, bind.
  destruct (m w) as [[a|e] w1] eqn:Hmw.
  - intros Hkw. destruct (Hm _ _ _ Hmw) as (evs1 & E1 & H1).
    destruct (Hk _ _ _ _ Hkw) as (evs2 & E2 & H2).
    exists (evs1 ++ evs2). split; [|by apply Forall_app].
    by rewrite E2, E1, app_assoc.
  - intros [= <- <-]. eauto.
Qed.

Lemma grows_attempt {A} (m : M A) : grows P m -> grows P (attempt m).
Proof.
  intros Hm w r w'. unfold attempt.
  destruct (m w) as [x w1] eqn:Hmw. intros [= <- <-]. eauto.
Qed.

Lemma grows_local {A} var (v : option A) : grows P (local var v).
Proof. destruct v; [apply grows_ret|apply grows_raise]. Qed.

Lemma grows_getkey {V} key (v : option V) : grows P (getkey key v).
Proof. destruct v; [apply grows_ret|apply grows_raise]. Qed.

Lemma grows_getitem {V} key (d : gmap string V) : grows P (getitem key d).
Proof. unfold getitem. destruct (d !! key); [apply grows_ret|apply grows_raise]. Qed.

Lemma grows_first_item {V} (l : list V) : grows P (first_item l).
Proof. destruct l; [apply grows_raise|apply grows_ret]. Qed.

Lemma grows_invoke {collab : Collaborators} {A} c (r : result A) :
  P (Called c) -> grows P (invoke c r).
Proof.
  intros Hc. apply grows_bind; [by apply grows_emit|intros; apply grows_lift].
Qed.

End Grows.

(** Decompose a statement along its sequencing and case distinctions. *)
Ltac grows_step :=
  first
    [ apply grows_ret | apply grows_raise | apply grows_lift
    | apply grows_alloc | apply grows_deref | apply grows_assign
    | apply grows_local | apply grows_getkey | apply grows_getitem
    | apply grows_first_item
    | apply grows_emit; simpl; exact I
    | apply grows_invoke; simpl; exact I
    | apply grows_attempt
    | apply grows_bind; [|intros]
    | match goal with
      | |- grows _ (match ?x with _ => _ end) => destruct x
      | |- grows _ (let (_, _) := ?x in _) => destruct x
      end ].

Lemma grows_mask_loop P r seq_lengths : forall old, grows P (mask_loop r old seq_lengths).
Proof.
  induction seq_lengths as [|len rest IH]; intros old; simpl.
  - apply grows_ret.
  - repeat grows_step. apply IH.
Qed.

Lemma grows_examine_inter_pae P r seq_lengths cutoff :
  grows P (examine_inter_pae r seq_lengths cutoff).
Proof.
  unfold examine_inter_pae. apply grows_bind; [apply grows_mask_loop|intros].
  repeat grows_step.
Qed.

Lemma grows_load_ranking P d : grows P (load_ranking d).
Proof. unfold load_ranking. repeat grows_step. Qed.

Lemma grows_load_pae_json P path d : grows P (load_pae_json path d).
Proof. unfold load_pae_json. repeat grows_step. Qed.

Lemma grows_pickle_load P path d : grows P (pickle_load path d).
Proof. unfold pickle_load. repeat grows_step. Qed.

Lemma grows_obtain_seq_lengths P d : grows P (obtain_seq_lengths d).
Proof. unfold obtain_seq_lengths. repeat grows_step. Qed.

Lemma grows_obtain_pae_and_iptm d best_model :
  grows not_csv (obtain_pae_and_iptm d best_model).
Proof.
  unfold obtain_pae_and_iptm.
  repeat first [ apply grows_load_ranking | apply grows_load_pae_json
               | apply grows_pickle_load | grows_step ].
Qed.

(** ** The error-matrix artifacts: [obtain_pae_and_iptm] *)

(** C4 (the code departs from the specification): when the ranking file has an
    [iptm] mapping and the PAE JSON file is absent, neither pickle is
    tried, whether present or not; [pae_mtx] is never assigned and the
    function raises [UnboundLocalError] at its [return]. *)
Theorem C4_pickles_not_tried_when_iptm_known
    (result_subdir : directory) (best_model : string) (data : ranking)
    (scores : gmap string float) (w : world) :
  at_path result_subdir "ranking_debug.json" = Some (RankingJson data) ->
  rk_iptm data = Some scores ->
  at_path result_subdir ("pae_" +:+ best_model +:+ ".json") = None ->
  obtain_pae_and_iptm result_subdir best_model w =
  (Raise (UnboundLocalError "pae_mtx"), w).
Proof.
  intros Hrank Hiptm Hjson. unfold obtain_pae_and_iptm, attempt, load_ranking.
  rewrite Hrank. run. rewrite Hiptm, Hjson. simpl.
  by destruct (scores !! best_model).
Qed.

Lemma C4_pickles_not_tried_when_iptm_known_witness :
  obtain_pae_and_iptm (job_pickle_only "job") "model_1" world0 =
  (Raise (UnboundLocalError "pae_mtx"), world0).
Proof.
  apply (C4_pickles_not_tried_when_iptm_known
           (job_pickle_only "job") "model_1" ranking_full
           (scores_of "model_1" 0.75%float) world0);
    reflexivity.
Defined.

(** X4: a PAE JSON file, when present, is what the matrix is read from, as
    a new array, whatever pickles there are. *)
Lemma obtain_pae_from_json
    (result_subdir : directory) (best_model : string) (data : ranking)
    (a : ndarray) (rest : list (option ndarray)) (w : world) :
  at_path result_subdir "ranking_debug.json" = Some (RankingJson data) ->
  at_path result_subdir ("pae_" +:+ best_model +:+ ".json") = Some (PaeJson (Some a :: rest)) ->
  ∃ iptm_score,
    obtain_pae_and_iptm result_subdir best_model w =
    (Ok (length (heap w), iptm_score), World (heap w ++ [a]) (log w)).
Proof.
  intros Hrank Hjson. unfold obtain_pae_and_iptm, attempt, load_ranking, load_pae_json.
  rewrite Hrank. run. rewrite Hjson. run. eauto.
Qed.

Lemma obtain_pae_from_json_witness :
  ∃ iptm_score,
    obtain_pae_and_iptm (job_all_artifacts "a") "model_1" world0 =
    (Ok (length (heap world0), iptm_score), World (heap world0 ++ [pae_2x2]) (log world0)).
Proof.
  apply (obtain_pae_from_json (job_all_artifacts "a") "model_1"
           ranking_iptm_ptm_only pae_2x2 [] world0);
    reflexivity.
Defined.

(** X5: without PAE JSON file and without [iptm] in the ranking file, the
    uncompressed pickle is read first, and the matrix and the [iptm] score
    come from it. *)
Lemma obtain_pae_from_pickle
    (result_subdir : directory) (best_model : string) (data : ranking)
    (a : ndarray) (x : float) (w : world) :
  at_path result_subdir "ranking_debug.json" = Some (RankingJson data) ->
  rk_iptm data = None ->
  at_path result_subdir ("pae_" +:+ best_model +:+ ".json") = None ->
  at_path result_subdir ("result_" +:+ best_model +:+ ".pkl") =
    Some (ResultPickle (ResultBlob (Some a) (Some x))) ->
  obtain_pae_and_iptm result_subdir best_model w =
  (Ok (length (heap w), PyFloat x),
   World (heap w ++ [a])
         (log w ++ [LogInfo [Lit "finished reading result pickle for the best model."]])).
Proof.
  intros Hrank Hiptm Hjson Hpkl.
  unfold obtain_pae_and_iptm, attempt, load_ranking, pickle_load.
  rewrite Hrank. run. rewrite Hiptm, Hjson. run.
  rewrite Hpkl. by run.
Qed.

Lemma obtain_pae_from_pickle_witness :
  obtain_pae_and_iptm (job_both_pickles "a") "model_1" world0 =
  (Ok (length (heap world0), PyFloat 0.75),
   World (heap world0 ++ [[[1; 1]; [1; 1]]%float])
         (log world0 ++ [LogInfo [Lit "finished reading result pickle for the best model."]])).
Proof.
  apply (obtain_pae_from_pickle (job_both_pickles "a") "model_1"
           ranking_iptm_ptm_only [[1; 1]; [1; 1]]%float 0.75%float world0);
    reflexivity.
Defined.

(** X6: if the uncompressed pickle is absent too, the gzip-compressed one
    is read. *)
Lemma obtain_pae_from_gzip
    (result_subdir : directory) (best_model : string) (data : ranking)
    (a : ndarray) (x : float) (w : world) :
  at_path result_subdir "ranking_debug.json" = Some (RankingJson data) ->
  rk_iptm data = None ->
  at_path result_subdir ("pae_" +:+ best_model +:+ ".json") = None ->
  at_path result_subdir ("result_" +:+ best_model +:+ ".pkl") = None ->
  at_path result_subdir ("result_" +:+ best_model +:+ ".pkl.gz") =
    Some (ResultPickle (ResultBlob (Some a) (Some x))) ->
  obtain_pae_and_iptm result_subdir best_model w =
  (Ok (length (heap w), PyFloat x),
   World (heap w ++ [a])
         (log w ++ [LogInfo [FStr (os_path_join (dir_path result_subdir)
                                                ("result_" +:+ best_model +:+ ".pkl"));
                             Lit " does not exist. Will search for pkl.gz"];
                    LogInfo [Lit "finished reading result pickle for the best model."]])).
Proof.
  intros Hrank Hiptm Hjson Hpkl Hgz.
  unfold obtain_pae_and_iptm, attempt, load_ranking, pickle_load.
  rewrite Hrank. run. rewrite Hiptm, Hjson. run.
  rewrite Hpkl. run. rewrite Hgz. run. by rewrite <- app_assoc.
Qed.

Lemma obtain_pae_from_gzip_witness :
  obtain_pae_and_iptm (job_gzip_only "a") "model_1" world0 =
  (Ok (length (heap world0), PyFloat 0.75),
   World (heap world0 ++ [pae_2x2])
         (log world0 ++ [LogInfo [FStr "a/result_model_1.pkl";
                                  Lit " does not exist. Will search for pkl.gz"];
                         LogInfo [Lit "finished reading result pickle for the best model."]])).
Proof.
  apply (obtain_pae_from_gzip (job_gzip_only "a") "model_1"
           ranking_iptm_ptm_only pae_2x2 0.75%float world0);
    reflexivity.
Defined.

(** ** The dock-quality score: [obtain_mpdockq] *)

(** Split every case distinction in the goal. *)
Ltac split_cases :=
  repeat (match goal with
          | |- context [match ?x with _ => _ end] =>
              lazymatch x with
              | context [match _ with _ => _ end] => fail
              | _ => destruct x eqn:?
              end
          end; simpl).

(** C5: when the composite score is undefined ([None]) or the model has
    fewer than two chains, [obtain_mpdockq] returns the string ["None"]
    as the dock-quality result.  The only collaborators called are
    [read_pdb], [get_best_plddt], [read_plddt] and [score_complex]; neither
    regressor ([calculate_mpDockQ], [calc_pdockq]) is called.  The string
    ["None"] is not the float 0.0, and Python's [==] tells them apart. *)
Theorem C5_undefined_score_gives_None_sentinel {collab : Collaborators}
    (work_dir : directory) (w : world)
    (pdb_chains : list string) (chain_coords : coords)
    (chain_CA_inds chain_CB_inds : indices) (best_plddt : plddt)
    (plddt_per_chain : chain_plddt) (complex_score : option float) (num_chains : Z) :
  read_pdb (at_path work_dir "ranked_0.pdb") =
    Ok (pdb_chains, chain_coords, chain_CA_inds, chain_CB_inds) ->
  get_best_plddt work_dir = Ok best_plddt ->
  read_plddt best_plddt chain_CA_inds = Ok plddt_per_chain ->
  score_complex chain_coords chain_CB_inds plddt_per_chain = Ok (complex_score, num_chains) ->
  complex_score = None ∨ (num_chains < 2)%Z ->
  obtain_mpdockq work_dir w =
    (Ok (PyStr "None", plddt_per_chain),
     World (heap w)
           (log w ++ [Called (call_read_pdb (dir_path work_dir));
                      Called (call_get_best_plddt (dir_path work_dir));
                      Called call_read_plddt;
                      Called call_score_complex]))
  ∧ PyStr "None" ≠ PyFloat 0
  ∧ py_eq (PyStr "None") (PyFloat 0) = false.
Proof.
  intros Hpdb Hbest Hplddt Hscore Hnone.
  split; [|split; [discriminate|reflexivity]].
  unfold obtain_mpdockq, invoke. run.
  rewrite Hpdb; simpl. rewrite Hbest; simpl. rewrite Hplddt; simpl.
  rewrite Hscore; simpl. rewrite <- !app_assoc; simpl.
  destruct Hnone as [-> | Hlt]; [done|].
  destruct complex_score; [|done].
  rewrite (proj2 (Z.ltb_ge 2 num_chains)) by lia.
  by rewrite (proj2 (Z.eqb_neq num_chains 2)) by lia.
Qed.

Lemma C5_undefined_score_gives_None_sentinel_witness :
  obtain_mpdockq (collab := stub None 2) (job_complete "a") world0 =
    (Ok (PyStr "None", ()),
     World [] [Called (call_read_pdb "a"); Called (call_get_best_plddt "a");
               Called call_read_plddt; Called call_score_complex])
  ∧ PyStr "None" ≠ PyFloat 0
  ∧ py_eq (PyStr "None") (PyFloat 0) = false.
Proof.
  apply (C5_undefined_score_gives_None_sentinel (collab := stub None 2)
           (job_complete "a") world0 [] () () () () () None 2);
    [reflexivity | reflexivity | reflexivity | reflexivity | left; reflexivity].
Defined.

(** A single chain with a defined composite score is also given the
    sentinel. *)
Example one_chain_gives_None_sentinel :
  fst (obtain_mpdockq (collab := stub (Some 1%float) 1)
         (Directory "a" (files [("ranked_0.pdb", PdbFile [2%nat] "ATOM")])) world0)
  = Ok (PyStr "None", ()).
Proof. reflexivity. Qed.

(** For a model of two chains with a composite score, the per-chain
    confidence that [obtain_mpdockq] returns is the one of
    [read_pdb_pdockq]: the branch assigns [plddt_per_chain] again. *)
Lemma obtain_mpdockq_two_chains {collab : Collaborators}
    (work_dir : directory) (w : world) (pdb_chains : list string) (chain_coords : coords)
    (chain_CA_inds chain_CB_inds : indices) (best_plddt : plddt)
    (plddt_per_chain : chain_plddt) (x : float) (pair : pair_coords)
    (pair_plddt : chain_plddt) (score : float) :
  read_pdb (at_path work_dir "ranked_0.pdb")
    = Ok (pdb_chains, chain_coords, chain_CA_inds, chain_CB_inds) ->
  get_best_plddt work_dir = Ok best_plddt ->
  read_plddt best_plddt chain_CA_inds = Ok plddt_per_chain ->
  score_complex chain_coords chain_CB_inds plddt_per_chain = Ok (Some x, 2%Z) ->
  read_pdb_pdockq (at_path work_dir "ranked_0.pdb") = Ok (pair, pair_plddt) ->
  calc_pdockq pair pair_plddt 8 = Ok score ->
  obtain_mpdockq work_dir w =
    (Ok (PyFloat score, pair_plddt),
     World (heap w)
           (log w ++ [Called (call_read_pdb (dir_path work_dir));
                      Called (call_get_best_plddt (dir_path work_dir));
                      Called call_read_plddt;
                      Called call_score_complex;
                      Called (call_read_pdb_pdockq (dir_path work_dir));
                      Called (call_calc_pdockq 8)])).
Proof.
  intros Hpdb Hbest Hplddt Hscore Hpair Hcalc.
  unfold obtain_mpdockq, invoke. run.
  rewrite Hpdb; simpl. rewrite Hbest; simpl. rewrite Hplddt; simpl.
  rewrite Hscore; simpl. rewrite Hpair; simpl. rewrite Hcalc; simpl.
  by rewrite <- !app_assoc.
Qed.

(** So the interface confidence of an accepted two-chain job is computed
    from the confidence of [read_pdb_pdockq] (80), not from the one of
    [read_plddt] (70). *)
Example two_chain_job_reports_pair_plddt :
  last (log (snd (main (collab := tagged) 5 [job_complete "a"] world0)))
  = Some (ToCsv "output.csv"
            (Columns ["a"] [0.875%float] [PyFloat 0.75] [PyFloat 0.25]
                     [50%float] [80%float])).
Proof. reflexivity. Qed.

(** [obtain_mpdockq] leaves the arrays alone. *)
Lemma obtain_mpdockq_heap {collab : Collaborators} work_dir w r w' :
  obtain_mpdockq work_dir w = (r, w') -> heap w' = heap w.
Proof.
  unfold obtain_mpdockq, invoke. run. split_cases; by intros [= <- <-].
Qed.


(** ** What depends on the interface check *)





(** ** The ranking file: [iptm] and [iptm+ptm] *)

(** C9 (the code departs from the specification): a ranking file with an [iptm]
    mapping but no [iptm+ptm] mapping passes the test
    ["iptm" in data.keys() or "iptm+ptm" in data.keys()], and the next
    statement, [data['iptm+ptm'][best_model]], raises [KeyError]: the job
    is not analysed and the exception leaves the loop body. *)
Theorem C9_iptm_only_ranking_raises {collab : Collaborators}
    (cutoff : float) (n_jobs : nat) (job : directory) (st : locals) (w : world)
    (data : ranking) (best_model : string) (others : list string)
    (scores : gmap string float) (pdb_an : analyser) :
  at_path job "ranking_debug.json" = Some (RankingJson data) ->
  rk_order data = Some (best_model :: others) ->
  rk_iptm data = Some scores ->
  rk_iptm_ptm data = None ->
  PDBAnalyser (at_path job "ranked_0.pdb") = Ok pdb_an ->
  process_job cutoff n_jobs job st w =
  (Raise (KeyError "iptm+ptm"),
   World (heap w) (log w ++ [LogInfo [Lit "now processing "; FStr (dir_path job)];
                             Called (call_PDBAnalyser (dir_path job))])).
Proof.
  intros Hrank Horder Hiptm Hnone Han.
  unfold process_job, analyse_job, invoke, load_ranking. run.
  rewrite Hrank, Han; simpl. rewrite Horder; simpl. rewrite Hiptm, Hnone; simpl.
  by rewrite <- app_assoc.
Qed.

Lemma C9_iptm_only_ranking_raises_witness :
  process_job (collab := stub (Some 1%float) 2) 5 1 (job_iptm_only "a") (Locals no_rows 0) world0 =
  (Raise (KeyError "iptm+ptm"),
   World [] [LogInfo [Lit "now processing "; FStr "a"]; Called (call_PDBAnalyser "a")]).
Proof.
  apply (C9_iptm_only_ranking_raises (collab := stub (Some 1%float) 2)
           5 1%nat (job_iptm_only "a") (Locals no_rows 0) world0
           ranking_iptm_only "model_1" [] (scores_of "model_1" 0.75%float) ());
    reflexivity.
Defined.

(** The other variant is handled: with [iptm+ptm] only, the job is
    analysed and accepted. *)
Example iptm_ptm_only_ranking_accepted :
  fst (process_job (collab := stub (Some 1%float) 2) 5 1
         (Directory "a" (files [("ranking_debug.json", RankingJson ranking_iptm_ptm_only);
                                ("pae_model_1.json", PaeJson [Some pae_2x2]);
                                ("ranked_0.pdb", PdbFile [1; 1]%nat "ATOM")]))
         (Locals no_rows 0) world0)
  = Ok (Locals (Columns ["a"] [0.875%float] [PyStr "None"] [PyFloat 0.25]
                        [50%float] [90%float]) 1).
Proof. reflexivity. Qed.

(** ** The matrix the interface statistics are computed from *)

(** [obtain_seq_lengths] changes nothing. *)
Lemma obtain_seq_lengths_pure d w r w' :
  obtain_seq_lengths d w = (r, w') -> w' = w.
Proof.
  unfold obtain_seq_lengths. run. split_cases; by intros [= <- <-].
Qed.

Lemma getkey_Ok {V} key (v : option V) w x w' :
  getkey key v w = (Ok x, w') -> v = Some x ∧ w' = w.
Proof. destruct v; [by intros [= <- <-]|done]. Qed.

Lemma getitem_Ok {V} key (d : gmap string V) w x w' :
  getitem key d w = (Ok x, w') -> d !! key = Some x ∧ w' = w.
Proof. unfold getitem. destruct (d !! key); [by intros [= <- <-]|done]. Qed.

(** C10: for an accepted job, the array handed to [pdb_analyser] is the
    object [obtain_pae_and_iptm] returned, as [examine_inter_pae] left it.
    If the analysis of a job returns with a new row, then the matrix was
    loaded as some array [a0] behind [pae_mtx]; the last event is the call
    of [pdb_analyser] on [pae_mtx], whose contents [a] at that time have 50
    in every cell whose row and column lie in one chain and the value of
    [a0] elsewhere; and the mean interface error of the new row is what
    [pdb_analyser] computed from [a]. *)
Theorem C10_statistics_from_masked_matrix {collab : Collaborators}
    (cutoff : float) (job : directory) (pdb_an : analyser) (data : ranking)
    (best_model : string) (t t' : columns) (w w' : world) :
  analyse_job cutoff job pdb_an data best_model t w = (Ok t', w') ->
  t' ≠ t ->
  ∃ pae_mtx iptm_score w1 a0 seq_lengths a per_chain x y,
    obtain_pae_and_iptm job best_model w = (Ok (pae_mtx, iptm_score), w1)
    ∧ heap w1 !! pae_mtx = Some a0
    ∧ obtain_seq_lengths job w1 = (Ok seq_lengths, w1)
    ∧ (∀ i j, cell a i j =
              (fun v => if same_chain 0 seq_lengths i j then 50%float else v) <$> cell a0 i j)
    ∧ heap w' !! pae_mtx = Some a
    ∧ last (log w') = Some (Called (call_pdb_analyser pae_mtx a))
    ∧ pdb_analyser pdb_an a per_chain = Ok (x, y)
    ∧ average_interface_paes t' = average_interface_paes t ++ [x].
Proof.
  intros Hrun Hrow. unfold analyse_job in Hrun.
  apply bind_Ok in Hrun as (scores & w0 & Hkey & Hrun).
  apply getkey_Ok in Hkey as [_ ->].
  apply bind_Ok in Hrun as (iptm_ptm_score & w0 & Hitem & Hrun).
  apply getitem_Ok in Hitem as [_ ->].
  apply bind_Ok in Hrun as ([pae_mtx iptm_score] & w1 & Hload & Hrun).
  apply bind_Ok in Hrun as (seq_lengths & w2 & Hseq & Hrun).
  pose proof (obtain_seq_lengths_pure _ _ _ _ Hseq) as ->.
  apply bind_Ok in Hrun as (check & w3 & Hcheck & Hrun).
  destruct (heap w1 !! pae_mtx) as [a0|] eqn:Ha0;
    [|by rewrite examine_inter_pae_dangling in Hcheck].
  rewrite (examine_inter_pae_spec _ _ _ _ a0 Ha0) in Hcheck.
  injection Hcheck as <- <-.
  unfold score_and_report in Hrun.
  apply bind_Ok in Hrun as ([score per_chain] & w4 & Hscore & Hrun).
  apply obtain_mpdockq_heap in Hscore as Hheap; simpl in Hheap.
  destruct (any_below cutoff (mask_blocks 0 seq_lengths a0));
    [|by injection Hrun as <- <-].
  apply bind_Ok in Hrun as (contents & w5 & Hderef & Hrun).
  unfold deref in Hderef. rewrite Hheap in Hderef.
  rewrite list_lookup_insert_eq in Hderef by (by eapply lookup_lt_Some).
  injection Hderef as <- <-.
  apply bind_Ok in Hrun as ([x y] & w6 & Hcall & Hrun).
  injection Hrun as <- <-.
  unfold invoke, emit, lift, mbind, M_bind, bind in Hcall; simpl in Hcall.
  destruct (pdb_analyser pdb_an (mask_blocks 0 seq_lengths a0) per_chain)
    as [[x' y']|e] eqn:Hstat; [|done].
  injection Hcall as -> -> <-.
  exists pae_mtx, iptm_score, w1, a0, seq_lengths,
         (mask_blocks 0 seq_lengths a0), per_chain, x, y.
  repeat split; try done.
  - intros. apply cell_mask_blocks.
  - simpl. rewrite Hheap. apply list_lookup_insert_eq. by eapply lookup_lt_Some.
  - simpl. by rewrite last_snoc.
Qed.

Lemma C10_statistics_from_masked_matrix_witness :
  ∃ pae_mtx iptm_score w1 a0 seq_lengths a per_chain x y,
    obtain_pae_and_iptm (job_complete "a") "model_1" world0 = (Ok (pae_mtx, iptm_score), w1)
    ∧ heap w1 !! pae_mtx = Some a0
    ∧ obtain_seq_lengths (job_complete "a") w1 = (Ok seq_lengths, w1)
    ∧ (∀ i j, cell a i j =
              (fun v => if same_chain 0 seq_lengths i j then 50%float else v) <$> cell a0 i j)
    ∧ heap (World [[[50; 4]; [7; 50]]%float]
                  [Called (call_read_pdb "a"); Called (call_get_best_plddt "a");
                   Called call_read_plddt; Called call_score_complex;
                   Called (call_read_pdb_pdockq "a"); Called (call_calc_pdockq 8);
                   Called (call_pdb_analyser 0 [[50; 4]; [7; 50]]%float)])
        !! pae_mtx = Some a
    ∧ last (log (World [[[50; 4]; [7; 50]]%float]
                  [Called (call_read_pdb "a"); Called (call_get_best_plddt "a");
                   Called call_read_plddt; Called call_score_complex;
                   Called (call_read_pdb_pdockq "a"); Called (call_calc_pdockq 8);
                   Called (call_pdb_analyser 0 [[50; 4]; [7; 50]]%float)]))
      = Some (Called (call_pdb_analyser pae_mtx a))
    ∧ pdb_analyser (Collaborators := stub (Some 1%float) 2) () a per_chain = Ok (x, y)
    ∧ average_interface_paes
        (Columns ["a"] [0.875%float] [PyFloat 0.75] [PyFloat 0.25] [50%float] [90%float])
      = average_interface_paes no_rows ++ [x].
Proof.
  apply (C10_statistics_from_masked_matrix (collab := stub (Some 1%float) 2)
           5 (job_complete "a") () ranking_full "model_1" no_rows
           (Columns ["a"] [0.875%float] [PyFloat 0.75] [PyFloat 0.25] [50%float] [90%float])
           world0
           (World [[[50; 4]; [7; 50]]%float]
                  [Called (call_read_pdb "a"); Called (call_get_best_plddt "a");
                   Called call_read_plddt; Called call_score_complex;
                   Called (call_read_pdb_pdockq "a"); Called (call_calc_pdockq 8);
                   Called (call_pdb_analyser 0 [[50; 4]; [7; 50]]%float)])).
  - reflexivity.
  - discriminate.
Defined.

(** ** The batch loop *)

Section Batch.

Context {collab : Collaborators}.

Lemma grows_obtain_mpdockq work_dir : grows not_csv (obtain_mpdockq work_dir).
Proof. unfold obtain_mpdockq. repeat grows_step. Qed.

Lemma grows_score_and_report job pdb_an pae_mtx iptm_ptm_score iptm_score check t :
  grows not_csv (score_and_report job pdb_an pae_mtx iptm_ptm_score iptm_score check t).
Proof.
  unfold score_and_report.
  repeat first [ apply grows_obtain_mpdockq | grows_step ].
Qed.

Lemma grows_analyse_job cutoff job pdb_an data best_model t :
  grows not_csv (analyse_job cutoff job pdb_an data best_model t).
Proof.
  unfold analyse_job.
  repeat first [ apply grows_obtain_pae_and_iptm | apply grows_obtain_seq_lengths
               | apply grows_examine_inter_pae | apply grows_score_and_report
               | grows_step ].
Qed.

Lemma grows_process_job cutoff n_jobs job st :
  grows not_csv (process_job cutoff n_jobs job st).
Proof.
  unfold process_job.
  repeat first [ apply grows_load_ranking | apply grows_analyse_job | grows_step ].
Qed.

Lemma grows_job_loop cutoff n_jobs jobs : forall st,
  grows not_csv (job_loop cutoff n_jobs jobs st).
Proof.
  induction jobs as [|job rest IH]; intros st; simpl.
  - apply grows_ret.
  - apply grows_bind; [apply grows_process_job|apply IH].
Qed.

(** The loop neither writes the table nor logs the notice. *)
Ltac quiet_step :=
  first
    [ apply grows_ret | apply grows_raise | apply grows_lift
    | apply grows_alloc | apply grows_deref | apply grows_assign
    | apply grows_local | apply grows_getkey | apply grows_getitem
    | apply grows_first_item
    | apply grows_load_ranking | apply grows_load_pae_json | apply grows_pickle_load
    | apply grows_obtain_seq_lengths | apply grows_examine_inter_pae
    | apply grows_emit; split; [exact I|unfold empty_notice; discriminate]
    | apply grows_invoke; split; [exact I|discriminate]
    | apply grows_attempt
    | apply grows_bind; [|intros]
    | match goal with
      | |- grows _ (match ?x with _ => _ end) => destruct x
      | |- grows _ (let (_, _) := ?x in _) => destruct x
      end ].

Lemma quiet_obtain_pae_and_iptm cutoff d best_model :
  grows (quiet cutoff) (obtain_pae_and_iptm d best_model).
Proof. unfold obtain_pae_and_iptm. repeat quiet_step. Qed.

Lemma quiet_obtain_mpdockq cutoff work_dir : grows (quiet cutoff) (obtain_mpdockq work_dir).
Proof. unfold obtain_mpdockq. repeat quiet_step. Qed.

Lemma quiet_process_job cutoff n_jobs job st :
  grows (quiet cutoff) (process_job cutoff n_jobs job st).
Proof.
  unfold process_job, analyse_job, score_and_report.
  repeat first [ apply quiet_obtain_pae_and_iptm | apply quiet_obtain_mpdockq | quiet_step ].
Qed.

Lemma quiet_job_loop cutoff n_jobs jobs : forall st,
  grows (quiet cutoff) (job_loop cutoff n_jobs jobs st).
Proof.
  induction jobs as [|job rest IH]; intros st; simpl.
  - apply grows_ret.
  - apply grows_bind; [apply quiet_process_job|apply IH].
Qed.

Lemma csv_writes_quiet cutoff evs : Forall (quiet cutoff) evs -> csv_writes evs = 0.
Proof.
  induction 1 as [|ev evs [Hev _] _ IH]; [done|].
  unfold csv_writes in *; simpl. by destruct ev.
Qed.

(** The loop over a list of jobs is the loop over its first part, then
    over the rest. *)
Lemma job_loop_app cutoff n_jobs before after : forall st w,
  job_loop cutoff n_jobs (before ++ after) st w =
  (job_loop cutoff n_jobs before st ≫= job_loop cutoff n_jobs after) w.
Proof.
  induction before as [|job rest IH]; intros st w; simpl; [done|].
  unfold mbind, M_bind, bind.
  destruct (process_job cutoff n_jobs job st w) as [[st'|e] w1]; [|done].
  apply IH.
Qed.

(** A directory without ranking file is passed over. *)
Lemma process_job_without_ranking cutoff n_jobs job st w :
  at_path job "ranking_debug.json" = None ->
  process_job cutoff n_jobs job st w =
  (Ok st, World (heap w) (log w ++ [LogInfo [Lit "now processing "; FStr (dir_path job)]])).
Proof. intros Hnone. unfold process_job. run. by rewrite Hnone. Qed.

(** Without coordinate file the analysis of a job raises: at the latest
    in [obtain_seq_lengths]. *)
Lemma analyse_job_without_pdb cutoff job pdb_an data best_model t w :
  at_path job "ranked_0.pdb" = None ->
  ∃ e w', analyse_job cutoff job pdb_an data best_model t w = (Raise e, w').
Proof.
  intros Hpdb. unfold analyse_job, getkey, getitem.
  destruct (rk_iptm_ptm data) as [scores|]; [|by eexists _, _].
  rewrite (bind_step _ _ _ scores w) by done.
  destruct (scores !! best_model) as [x|]; [|by eexists _, _].
  rewrite (bind_step _ _ _ x w) by done.
  destruct (obtain_pae_and_iptm job best_model w) as [[[pae_mtx iptm_score]|e] w1] eqn:Hload.
  - rewrite (bind_step _ _ _ _ _ Hload).
    eexists _, _. apply bind_Raise. unfold obtain_seq_lengths. by rewrite Hpdb.
  - eexists _, _. by apply bind_Raise.
Qed.

Lemma process_job_without_pdb cutoff n_jobs job data st w :
  at_path job "ranking_debug.json" = Some (RankingJson data) ->
  is_Some (rk_iptm data) ∨ is_Some (rk_iptm_ptm data) ->
  at_path job "ranked_0.pdb" = None ->
  ∃ e w', process_job cutoff n_jobs job st w = (Raise e, w').
Proof.
  intros Hrank Hkeys Hpdb. unfold process_job, invoke, load_ranking.
  rewrite Hrank, Hpdb. run.
  destruct (PDBAnalyser None) as [pdb_an|e]; simpl; [|by eexists _, _].
  destruct (rk_order data) as [[|best_model others]|]; simpl; try by eexists _, _.
  assert (bool_decide (is_Some (rk_iptm data)) || bool_decide (is_Some (rk_iptm_ptm data))
          = true) as ->.
  { destruct Hkeys as [Hk|Hk]; rewrite (bool_decide_eq_true_2 _ Hk);
      [done|by destruct (bool_decide _)]. }
  match goal with
  | |- context [analyse_job ?c ?j ?a ?d ?b ?t ?v] =>
      destruct (analyse_job_without_pdb c j a d b t v Hpdb) as (e & w' & ->)
  end.
  by eexists _, _.
Qed.

End Batch.

Lemma csv_writes_app l1 l2 : csv_writes (l1 ++ l2) = csv_writes l1 + csv_writes l2.
Proof. unfold csv_writes. by rewrite List.filter_app, length_app. Qed.

Lemma csv_writes_not_csv evs : Forall not_csv evs -> csv_writes evs = 0.
Proof.
  induction 1 as [|ev evs Hev _ IH]; [done|].
  unfold csv_writes in *; simpl. by destruct ev.
Qed.

(** ** The end of a run *)

(** C8, as the specification states it, fails.  The first job is accepted
    (the loop over it alone gives a table with one row), the second one
    lacks [ranked_0.pdb]: [main] ends with the exception of the second job.
    No table has been written for the accepted job, and no notice logged. *)
Lemma C8_failed_run_writes_nothing :
  fst (job_loop (collab := stub (Some 1%float) 2) 5 2 [job_complete "b"]
                (Locals no_rows 0) world0)
  = Ok (Locals (Columns ["b"] [0.875%float] [PyFloat 0.75] [PyFloat 0.25]
                        [50%float] [90%float]) 1)
  ∧ main (collab := stub (Some 1%float) 2) 5 [job_complete "b"; job_without_pdb "a"] world0
    = (Raise (FileNotFoundError "ranked_0.pdb is not found at a"),
       World [[[50; 4]; [7; 50]]%float; pae_2x2]
             [LogInfo [Lit "now processing "; FStr "b"];
              Called (call_PDBAnalyser "b"); Called (call_read_pdb "b");
              Called (call_get_best_plddt "b"); Called call_read_plddt;
              Called call_score_complex; Called (call_read_pdb_pdockq "b");
              Called (call_calc_pdockq 8);
              Called (call_pdb_analyser 0 [[50; 4]; [7; 50]]%float);
              LogInfo [Lit "done for "; FStr "b"; Lit " "; FNat 1; Lit " out of ";
                       FNat 2; Lit " finished."];
              LogInfo [Lit "now processing "; FStr "a"];
              Called (call_PDBAnalyser "a")]).
Proof. split; reflexivity. Qed.

(** C8 (amended): how a run ends depends on the loop over the jobs.  The
    loop itself neither writes a table nor logs the notice.  If it returns,
    [main] returns: when no job was accepted it logs the notice, which
    names the cutoff in use and suggests a larger one, and the run has
    written no table; otherwise it writes the table of the accepted jobs to
    [output.csv], and that is the only table of the run.  If a job raises,
    [main] ends with that exception where it was raised: the run has
    written no table and logged no notice, whatever was accepted before. *)
Theorem C8_notice_or_one_table {collab : Collaborators}
    (cutoff : float) (jobs : list directory) (w : world) (r : result unit) (w' : world) :
  main cutoff jobs w = (r, w') ->
  ∃ evs, Forall (quiet cutoff) evs
    ∧ match job_loop cutoff (length jobs) jobs (Locals no_rows 0) w with
      | (Ok st, _) =>
          r = Ok ()
          ∧ match good_jobs (table st) with
            | [] =>
                log w' = log w ++ evs ++ [LogInfo (empty_notice cutoff)]
                ∧ FFloat cutoff ∈ empty_notice cutoff
                ∧ Lit (String "010"%char " Please consider using a larger cutoff.")
                    ∈ empty_notice cutoff
                ∧ csv_writes (log w') = csv_writes (log w)
            | _ :: _ =>
                log w' = log w ++ evs ++ [ToCsv "output.csv" (table st)]
                ∧ csv_writes (log w') = S (csv_writes (log w))
            end
      | (Raise e, w1) =>
          r = Raise e ∧ w' = w1
          ∧ log w' = log w ++ evs
          ∧ csv_writes (log w') = csv_writes (log w)
      end.
Proof.
  unfold main. intros Hmain.
  destruct (job_loop cutoff (length jobs) jobs (Locals no_rows 0) w) as [[st|e] w1] eqn:Hloop.
  - destruct (quiet_job_loop _ _ _ _ _ _ _ Hloop) as (evs & Hlog & Hevs).
    exists evs. split; [done|].
    rewrite (bind_step _ _ _ _ _ Hloop) in Hmain.
    apply csv_writes_quiet in Hevs.
    destruct (good_jobs (table st)) as [|name names]; simpl in Hmain;
      injection Hmain as <- <-; simpl; (split; [done|]).
    + repeat split.
      * by rewrite Hlog, app_assoc.
      * unfold empty_notice. apply elem_of_cons. right. apply elem_of_cons. by left.
      * unfold empty_notice. do 3 (apply elem_of_cons; right). apply elem_of_cons. by left.
      * rewrite Hlog, !csv_writes_app, Hevs. unfold csv_writes; simpl. lia.
    + split; [by rewrite Hlog, app_assoc|].
      rewrite Hlog, !csv_writes_app, Hevs. unfold csv_writes; simpl. lia.
  - destruct (quiet_job_loop _ _ _ _ _ _ _ Hloop) as (evs & Hlog & Hevs).
    exists evs. split; [done|].
    rewrite (bind_Raise _ _ _ _ _ Hloop) in Hmain. injection Hmain as <- <-.
    repeat split; [done|].
    apply csv_writes_quiet in Hevs. rewrite Hlog, csv_writes_app, Hevs. lia.
Qed.

Lemma C8_notice_or_one_table_witness :
  ∃ evs, Forall (quiet 5) evs
    ∧ Ok () = Ok ()
    ∧ log (snd (main (collab := stub (Some 1%float) 2) 5
                  [job_without_ranking "z"; job_complete "a"] world0))
      = log world0 ++ evs
        ++ [ToCsv "output.csv"
              (Columns ["a"] [0.875%float] [PyFloat 0.75] [PyFloat 0.25]
                       [50%float] [90%float])]
    ∧ csv_writes (log (snd (main (collab := stub (Some 1%float) 2) 5
                              [job_without_ranking "z"; job_complete "a"] world0)))
      = S (csv_writes (log world0)).
Proof.
  apply (C8_notice_or_one_table (collab := stub (Some 1%float) 2)
           5 [job_without_ranking "z"; job_complete "a"] world0 (Ok ())
           (snd (main (collab := stub (Some 1%float) 2) 5
                   [job_without_ranking "z"; job_complete "a"] world0))).
  reflexivity.
Defined.

(** Three chains without contacts but with a confident inter-chain cell:
    the job is accepted and its dock-quality entry is the string ["None"]. *)
Example accepted_job_without_contacts :
  last (log (snd (main (collab := stub None 3) 5
                    [Directory "a"
                       (files [("ranking_debug.json", RankingJson ranking_full);
                               ("pae_model_1.json",
                                PaeJson [Some [[0; 9; 4]; [9; 0; 9]; [9; 9; 0]]%float]);
                               ("ranked_0.pdb", PdbFile [1; 1; 1]%nat "ATOM")])]
                    world0)))
  = Some (ToCsv "output.csv"
            (Columns ["a"] [0.875%float] [PyFloat 0.75] [PyStr "None"]
                     [50%float] [90%float])).
Proof. reflexivity. Qed.

(** A run that accepts no job ends with the notice. *)
Example run_without_accepted_job :
  snd (main (collab := stub (Some 1%float) 2) 3 [job_complete "a"] world0) =
  World [[[50; 4]; [7; 50]]%float]
        [LogInfo [Lit "now processing "; FStr "a"];
         Called (call_PDBAnalyser "a"); Called (call_read_pdb "a");
         Called (call_get_best_plddt "a"); Called call_read_plddt;
         Called call_score_complex; Called (call_read_pdb_pdockq "a");
         Called (call_calc_pdockq 8);
         LogInfo [Lit "done for "; FStr "a"; Lit " "; FNat 1; Lit " out of ";
                  FNat 1; Lit " finished."];
         LogInfo (empty_notice 3)].
Proof. reflexivity. Qed.

(** ** A job that fails *)

(** C1, as the specification states it, fails: the first job lacks
    [ranked_0.pdb]; [obtain_seq_lengths] raises [FileNotFoundError], and
    that is the outcome of [main].  (The constructor of the analyser is
    taken to accept the missing path; an exception of its own would leave
    [main] the same way.)  The log ends where the exception was
    raised: the second job, which alone gives a table with one row, is
    never processed, and neither table nor notice is produced. *)
Lemma C1_missing_pdb_aborts_batch :
  main (collab := stub (Some 1%float) 2) 5 [job_without_pdb "a"; job_complete "b"] world0 =
    (Raise (FileNotFoundError "ranked_0.pdb is not found at a"),
     World [pae_2x2]
           [LogInfo [Lit "now processing "; FStr "a"]; Called (call_PDBAnalyser "a")])
  ∧ fst (main (collab := stub (Some 1%float) 2) 5 [job_complete "b"] world0) = Ok ()
  ∧ last (log (snd (main (collab := stub (Some 1%float) 2) 5 [job_complete "b"] world0))) =
    Some (ToCsv "output.csv"
            (Columns ["b"] [0.875%float] [PyFloat 0.75] [PyFloat 0.25]
                     [50%float] [90%float])).
Proof. repeat split; reflexivity. Qed.

(** A job with none of the three error-matrix artifacts fails the batch as
    well: both pickles are missing, the [finally] clause reads the
    unassigned [check_dict], and [UnboundLocalError] leaves [main]. *)
Example missing_artifacts_abort_batch :
  fst (main (collab := stub (Some 1%float) 2) 5
         [Directory "a" (files [("ranking_debug.json", RankingJson ranking_iptm_ptm_only);
                                ("ranked_0.pdb", PdbFile [1; 1]%nat "ATOM")]);
          job_complete "b"] world0)
  = Raise (UnboundLocalError "check_dict").
Proof. reflexivity. Qed.

(** C1 (amended): there is no per-job boundary for exceptions.  When the
    jobs before it have been processed, a job that has its ranking file,
    with an [iptm] or an [iptm+ptm] mapping, but no [ranked_0.pdb] raises,
    and [main] ends with that exception in the world of the raise: no later
    job is processed, and the run writes no table. *)
Theorem C1_job_failure_aborts_batch {collab : Collaborators}
    (cutoff : float) (before : list directory) (job : directory)
    (after : list directory) (data : ranking) (w : world) (st1 : locals) (w1 : world) :
  at_path job "ranking_debug.json" = Some (RankingJson data) ->
  is_Some (rk_iptm data) ∨ is_Some (rk_iptm_ptm data) ->
  at_path job "ranked_0.pdb" = None ->
  job_loop cutoff (length (before ++ job :: after)) before (Locals no_rows 0) w
    = (Ok st1, w1) ->
  ∃ e w2,
    process_job cutoff (length (before ++ job :: after)) job st1 w1 = (Raise e, w2)
    ∧ main cutoff (before ++ job :: after) w = (Raise e, w2)
    ∧ csv_writes (log w2) = csv_writes (log w).
Proof.
  intros Hrank Hkeys Hpdb Hbefore.
  destruct (process_job_without_pdb cutoff (length (before ++ job :: after))
              job data st1 w1 Hrank Hkeys Hpdb) as (e & w2 & Hjob).
  exists e, w2. split; [done|]. split.
  - unfold main. apply bind_Raise. rewrite job_loop_app.
    rewrite (bind_step _ _ _ _ _ Hbefore). simpl. by apply bind_Raise.
  - destruct (grows_job_loop _ _ _ _ _ _ _ Hbefore) as (evs1 & Hlog1 & Hevs1).
    destruct (grows_process_job _ _ _ _ _ _ _ Hjob) as (evs2 & Hlog2 & Hevs2).
    rewrite Hlog2, Hlog1, !csv_writes_app.
    rewrite (csv_writes_not_csv _ Hevs1), (csv_writes_not_csv _ Hevs2). lia.
Qed.

Lemma C1_job_failure_aborts_batch_witness :
  ∃ e w2,
    process_job (collab := stub (Some 1%float) 2) 5
        (length ([job_without_ranking "z"] ++ job_without_pdb "a" :: [job_complete "b"]))
        (job_without_pdb "a") (Locals no_rows 0)
        (World [] [LogInfo [Lit "now processing "; FStr "z"]])
      = (Raise e, w2)
    ∧ main (collab := stub (Some 1%float) 2) 5
        ([job_without_ranking "z"] ++ job_without_pdb "a" :: [job_complete "b"]) world0
      = (Raise e, w2)
    ∧ csv_writes (log w2) = csv_writes (log world0).
Proof.
  apply (C1_job_failure_aborts_batch (collab := stub (Some 1%float) 2)
           5 [job_without_ranking "z"] (job_without_pdb "a") [job_complete "b"]
           ranking_full world0 (Locals no_rows 0)
           (World [] [LogInfo [Lit "now processing "; FStr "z"]])).
  - reflexivity.
  - left. eexists. reflexivity.
  - reflexivity.
  - reflexivity.
Defined.

(** ** Further properties of the interface check *)

(** The array after the loop, in closed form. *)
Lemma lookup_mask_blocks seq_lengths : forall old a i,
  mask_blocks old seq_lengths a !! i =
  (fun row => imap (fun j x => if same_chain old seq_lengths i j then 50%float else x) row)
    <$> a !! i.
Proof.
  induction seq_lengths as [|len rest IH]; intros old a i; simpl.
  - destruct (a !! i) as [row|]; simpl; [|done]. f_equal.
    apply list_eq; intros j. rewrite list_lookup_imap. by destruct (row !! j).
  - rewrite IH. unfold assign_block. rewrite list_lookup_imap.
    destruct (a !! i) as [row|]; simpl; [|done]. f_equal.
    apply list_eq; intros j. rewrite !list_lookup_imap.
    destruct (in_slice old (old + len) i); simpl.
    + rewrite list_lookup_imap. destruct (row !! j); simpl; [|done].
      by destruct (in_slice old (old + len) j), (same_chain (old + len) rest i j).
    + by destruct (row !! j).
Qed.

Lemma mask_blocks_idempotent seq_lengths old a :
  mask_blocks old seq_lengths (mask_blocks old seq_lengths a) =
  mask_blocks old seq_lengths a.
Proof.
  apply list_eq; intros i. rewrite !lookup_mask_blocks.
  destruct (a !! i) as [row|]; simpl; [|done]. f_equal.
  apply list_eq; intros j. rewrite !list_lookup_imap.
  destruct (row !! j); simpl; [|done].
  by destruct (same_chain old seq_lengths i j).
Qed.

(** X1: masking is idempotent: a second call of [examine_inter_pae] on the
    same array, lengths and cutoff changes nothing and returns what the
    first call returned. *)
Theorem examine_inter_pae_idempotent
    (pae_mtx : ref) (seq_lengths : list nat) (cutoff : float)
    (w : world) (check : bool) (w' : world) :
  examine_inter_pae pae_mtx seq_lengths cutoff w = (Ok check, w') ->
  examine_inter_pae pae_mtx seq_lengths cutoff w' = (Ok check, w').
Proof.
  destruct (heap w !! pae_mtx) as [a|] eqn:Ha;
    [|by rewrite examine_inter_pae_dangling].
  rewrite (examine_inter_pae_spec _ _ _ _ a Ha). intros [= <- <-].
  assert (pae_mtx < length (heap w)) by (by eapply lookup_lt_Some).
  erewrite examine_inter_pae_spec; simpl;
    [|by apply list_lookup_insert_eq].
  by rewrite mask_blocks_idempotent, list_insert_insert_eq.
Qed.

Lemma examine_inter_pae_idempotent_witness :
  examine_inter_pae 0 [1; 1]%nat 5 (World [[[50; 4]; [7; 50]]%float] []) =
  (Ok true, World [[[50; 4]; [7; 50]]%float] []).
Proof.
  apply (examine_inter_pae_idempotent 0 [1; 1]%nat 5 (World [pae_2x2] [])).
  reflexivity.
Defined.

(** X2: for a cutoff that the sentinel 50 is not below, the check returns
    (it does not raise), and its result is true exactly when some cell whose
    row and column lie in different chains is below the cutoff. *)
Theorem examine_inter_pae_detects_inter_chain_cell
    (pae_mtx : ref) (seq_lengths : list nat) (cutoff : float) (w : world) (a : ndarray) :
  heap w !! pae_mtx = Some a ->
  PrimFloat.ltb 50 cutoff = false ->
  ∃ check w',
    examine_inter_pae pae_mtx seq_lengths cutoff w = (Ok check, w')
    ∧ (check = true ↔
       ∃ i j x, cell a i j = Some x ∧ same_chain 0 seq_lengths i j = false
                ∧ PrimFloat.ltb x cutoff = true).
Proof.
  intros Ha Hcut. eexists _, _. split; [by apply examine_inter_pae_spec|].
  rewrite any_below_true. split.
  - intros (i & j & x & Hcell & Hlt). rewrite cell_mask_blocks in Hcell.
    destruct (cell a i j) as [y|] eqn:Hy; [|done].
    cbn [fmap option_fmap option_map] in Hcell.
    destruct (same_chain 0 seq_lengths i j) eqn:Hsame.
    + injection Hcell as <-. by rewrite Hcut in Hlt.
    + injection Hcell as <-. by exists i, j, y.
  - intros (i & j & x & Hcell & Hsame & Hlt). exists i, j, x.
    rewrite cell_mask_blocks, Hcell. cbn [fmap option_fmap option_map].
    by rewrite Hsame.
Qed.

Lemma examine_inter_pae_detects_inter_chain_cell_witness :
  ∃ check w',
    examine_inter_pae 0 [1; 1]%nat 5 (World [pae_2x2] []) = (Ok check, w')
    ∧ (check = true ↔
       ∃ i j x, cell pae_2x2 i j = Some x ∧ same_chain 0 [1; 1]%nat i j = false
                ∧ PrimFloat.ltb x 5 = true).
Proof.
  apply (examine_inter_pae_detects_inter_chain_cell 0 [1; 1]%nat 5
           (World [pae_2x2] []) pae_2x2);
    reflexivity.
Defined.

(** ** Further properties of the batch *)

(** X3: a job directory without [ranking_debug.json] is skipped: the loop logs
    that it is processing the job, leaves table and count as they are, and
    goes on with the next job. *)
Theorem job_without_ranking_is_skipped {collab : Collaborators}
    (cutoff : float) (n_jobs : nat) (job : directory) (rest : list directory)
    (st : locals) (w : world) :
  at_path job "ranking_debug.json" = None ->
  job_loop cutoff n_jobs (job :: rest) st w =
  job_loop cutoff n_jobs rest st
    (World (heap w) (log w ++ [LogInfo [Lit "now processing "; FStr (dir_path job)]])).
Proof.
  intros Hnone. simpl.
  by rewrite (bind_step _ _ _ _ _ (process_job_without_ranking _ _ _ _ _ Hnone)).
Qed.

Lemma job_without_ranking_is_skipped_witness :
  job_loop (collab := stub (Some 1%float) 2) 5 2
    (job_without_ranking "z" :: [job_complete "a"]) (Locals no_rows 0) world0 =
  job_loop (collab := stub (Some 1%float) 2) 5 2 [job_complete "a"] (Locals no_rows 0)
    (World (heap world0)
           (log world0 ++ [LogInfo [Lit "now processing ";
                                    FStr (dir_path (job_without_ranking "z"))]])).
Proof.
  apply (job_without_ranking_is_skipped (collab := stub (Some 1%float) 2)
           5 2 (job_without_ranking "z") [job_complete "a"] (Locals no_rows 0) world0).
  reflexivity.
Defined.

(** X7: the two regressions exclude each other: one run of [obtain_mpdockq]
    never calls both [calculate_mpDockQ] and [calc_pdockq]. *)
Theorem regressors_exclude_each_other {collab : Collaborators}
    (work_dir : directory) (w : world) (r : result (pyval * chain_plddt)) (w' : world) :
  obtain_mpdockq work_dir w = (r, w') ->
  ∃ evs, log w' = log w ++ evs
    ∧ ¬ ((∃ x, Called (call_calculate_mpDockQ x) ∈ evs)
         ∧ (∃ t, Called (call_calc_pdockq t) ∈ evs)).
Proof.
  unfold obtain_mpdockq, invoke. run.
  split_cases; intros [= <- <-]; simpl; rewrite <- ?app_assoc; simpl;
    (eexists; split; [reflexivity|]);
    intros [[x Hx] [t Ht]];
    repeat match goal with
           | Hin : _ ∈ [] |- _ => by apply elem_of_nil in Hin
           | Hin : _ ∈ _ :: _ |- _ =>
               apply elem_of_cons in Hin as [Hin|Hin]; try discriminate
           end.
Qed.

Lemma regressors_exclude_each_other_witness :
  ∃ evs,
    [Called (call_read_pdb "a"); Called (call_get_best_plddt "a");
     Called call_read_plddt; Called call_score_complex;
     Called (call_read_pdb_pdockq "a"); Called (call_calc_pdockq 8)]
    = log world0 ++ evs
    ∧ ¬ ((∃ x, Called (call_calculate_mpDockQ x) ∈ evs)
         ∧ (∃ t, Called (call_calc_pdockq t) ∈ evs)).
Proof.
  apply (regressors_exclude_each_other (collab := stub (Some 1%float) 2)
           (job_complete "a") world0 (Ok (PyFloat 0.25, ()))
           (World [] [Called (call_read_pdb "a"); Called (call_get_best_plddt "a");
                      Called call_read_plddt; Called call_score_complex;
                      Called (call_read_pdb_pdockq "a"); Called (call_calc_pdockq 8)])).
  reflexivity.
Defined.

Lemma aligned_append_row t job a b c d e :
  aligned t -> aligned (append_row t job a b c d e).
Proof.
  unfold aligned, append_row; simpl. rewrite !length_app; simpl. lia.
Qed.

Lemma analyse_job_aligned {collab : Collaborators} cutoff job pdb_an data best_model t w t' w' :
  analyse_job cutoff job pdb_an data best_model t w = (Ok t', w') ->
  aligned t -> aligned t'.
Proof.
  intros Hrun Ht. unfold analyse_job in Hrun.
  apply bind_Ok in Hrun as (scores & w0 & _ & Hrun).
  apply bind_Ok in Hrun as (iptm_ptm_score & w1 & _ & Hrun).
  apply bind_Ok in Hrun as ([pae_mtx iptm_score] & w2 & _ & Hrun).
  apply bind_Ok in Hrun as (seq_lengths & w3 & _ & Hrun).
  apply bind_Ok in Hrun as (check & w4 & _ & Hrun).
  unfold score_and_report in Hrun.
  apply bind_Ok in Hrun as ([score per_chain] & w5 & _ & Hrun).
  destruct check; [|by injection Hrun as <- <-].
  apply bind_Ok in Hrun as (contents & w6 & _ & Hrun).
  apply bind_Ok in Hrun as ([x y] & w7 & _ & Hrun).
  injection Hrun as <- <-. by apply aligned_append_row.
Qed.

Lemma process_job_aligned {collab : Collaborators} cutoff n_jobs job st w st' w' :
  process_job cutoff n_jobs job st w = (Ok st', w') ->
  aligned (table st) -> aligned (table st').
Proof.
  intros Hrun Ht. unfold process_job in Hrun.
  apply bind_Ok in Hrun as (? & w0 & _ & Hrun).
  destruct (bool_decide (is_Some (at_path job "ranking_debug.json")));
    [|by injection Hrun as <- <-].
  apply bind_Ok in Hrun as (pdb_an & w1 & _ & Hrun).
  apply bind_Ok in Hrun as (ranked & w2 & _ & Hrun).
  apply bind_Ok in Hrun as (order & w3 & _ & Hrun).
  apply bind_Ok in Hrun as (best_model & w4 & _ & Hrun).
  apply bind_Ok in Hrun as (data & w5 & _ & Hrun).
  apply bind_Ok in Hrun as (t' & w6 & Hbody & Hrun).
  apply bind_Ok in Hrun as (? & w7 & _ & Hrun).
  injection Hrun as <- <-. simpl.
  destruct (bool_decide (is_Some (rk_iptm data)) || bool_decide (is_Some (rk_iptm_ptm data))).
  - by eapply analyse_job_aligned.
  - by injection Hbody as <- <-.
Qed.

(** X8: the table stays well formed: whenever [main] reaches the writing of
    the table, its six columns have the same length, one entry per accepted
    job. *)
Theorem job_loop_keeps_table_aligned {collab : Collaborators}
    (cutoff : float) (n_jobs : nat) (jobs : list directory)
    (st : locals) (w : world) (st' : locals) (w' : world) :
  job_loop cutoff n_jobs jobs st w = (Ok st', w') ->
  aligned (table st) ->
  aligned (table st').
Proof.
  revert st w. induction jobs as [|job rest IH]; intros st w Hrun Ht; simpl in Hrun.
  - by injection Hrun as <- <-.
  - apply bind_Ok in Hrun as (st1 & w1 & Hjob & Hrun).
    eapply IH; [done|]. by eapply process_job_aligned.
Qed.

Lemma job_loop_keeps_table_aligned_witness :
  aligned (table (Locals (Columns ["a"] [0.875%float] [PyFloat 0.75] [PyFloat 0.25]
                                  [50%float] [90%float]) 1)).
Proof.
  apply (job_loop_keeps_table_aligned (collab := stub (Some 1%float) 2)
           5 1 [job_complete "a"] (Locals no_rows 0) world0
           (Locals (Columns ["a"] [0.875%float] [PyFloat 0.75] [PyFloat 0.25]
                            [50%float] [90%float]) 1)
           (World [[[50; 4]; [7; 50]]%float]
              [LogInfo [Lit "now processing "; FStr "a"];
               Called (call_PDBAnalyser "a"); Called (call_read_pdb "a");
               Called (call_get_best_plddt "a"); Called call_read_plddt;
               Called call_score_complex; Called (call_read_pdb_pdockq "a");
               Called (call_calc_pdockq 8);
               Called (call_pdb_analyser 0 [[50; 4]; [7; 50]]%float);
               LogInfo [Lit "done for "; FStr "a"; Lit " "; FNat 1; Lit " out of ";
                        FNat 1; Lit " finished."]])).
  - reflexivity.
  - repeat split.
Defined.

(** ** Frames of the batch: arrays, order and count *)

(** A sequence ends either in its first half, with an exception, or in
    its second half. *)
Lemma bind_inv {A B} (m : M A) (k : A -> M B) w r w' :
  (m ≫= k) w = (r, w') ->
  (∃ a w1, m w = (Ok a, w1) ∧ k a w1 = (r, w'))
  ∨ (∃ e, m w = (Raise e, w') ∧ r = Raise e).
Proof.
  unfold mbind, M_bind, bind. destruct (m w) as [[a|e] w1]; [eauto|].
  intros [= <- <-]. eauto.
Qed.

Lemma getkey_pure {V} key (v : option V) w r w' :
  getkey key v w = (r, w') -> w' = w.
Proof. destruct v; by intros [= <- <-]. Qed.

Lemma getitem_pure {V} key (d : gmap string V) w r w' :
  getitem key d w = (r, w') -> w' = w.
Proof. unfold getitem. destruct (d !! key); by intros [= <- <-]. Qed.

Lemma load_ranking_pure d w r w' :
  load_ranking d w = (r, w') -> w' = w.
Proof. unfold load_ranking. run. split_cases; by intros [= <- <-]. Qed.

Lemma first_item_pure {V} (l : list V) w r w' :
  first_item l w = (r, w') -> w' = w.
Proof. destruct l; by intros [= <- <-]. Qed.

(** [obtain_pae_and_iptm] adds at most new arrays to the store, and the
    array it returns is one of them. *)
Lemma obtain_pae_and_iptm_allocates d best_model w r w' :
  obtain_pae_and_iptm d best_model w = (r, w') ->
  ∃ new, heap w' = heap w ++ new
    ∧ ∀ pae_mtx iptm_score, r = Ok (pae_mtx, iptm_score) ->
        length (heap w) <= pae_mtx < length (heap w').
Proof.
  unfold obtain_pae_and_iptm, attempt, load_ranking, load_pae_json, pickle_load,
    local, getkey, first_item, alloc.
  run. split_cases; intros [= <- <-]; simpl.
  all: first [ exists []; rewrite app_nil_r; split; [done|]; by intros ? ? [=]
             | eexists; split; [reflexivity|]; intros ? ? [= <- <-];
               rewrite length_app; simpl; lia
             | eexists; split; [reflexivity|]; by intros ? ? [=] ].
Qed.

Section Frames.

Context {collab : Collaborators}.

Lemma invoke_heap {A} c (x : result A) w r w' :
  invoke c x w = (r, w') -> heap w' = heap w.
Proof. unfold invoke. run. by intros [= <- <-]. Qed.

Lemma score_and_report_heap job pdb_an pae_mtx iptm_ptm_score iptm_score check t w r w' :
  score_and_report job pdb_an pae_mtx iptm_ptm_score iptm_score check t w = (r, w') ->
  heap w' = heap w.
Proof.
  unfold score_and_report. intros Hrun.
  apply bind_inv in Hrun as [([score per_chain] & w1 & Hscore & Hrun)|(e & Hscore & _)];
    [|by eapply obtain_mpdockq_heap].
  apply obtain_mpdockq_heap in Hscore. rewrite <- Hscore.
  destruct check; [|by injection Hrun as <- <-].
  apply bind_inv in Hrun as [(contents & w2 & Hderef & Hrun)|(e & Hderef & _)].
  - assert (w2 = w1) as ->
      by (unfold deref in Hderef; destruct (heap w1 !! pae_mtx); by injection Hderef).
    apply bind_inv in Hrun as [([x y] & w3 & Hcall & Hrun)|(e & Hcall & _)].
    + apply invoke_heap in Hcall. by injection Hrun as <- <-.
    + by apply invoke_heap in Hcall.
  - unfold deref in Hderef. destruct (heap w1 !! pae_mtx); [done|].
    by injection Hderef as _ <-.
Qed.

(** The analysis of a job adds arrays to the store and changes none that
    was there before, whatever its outcome. *)
Lemma analyse_job_frame cutoff job pdb_an data best_model t w r w' :
  analyse_job cutoff job pdb_an data best_model t w = (r, w') ->
  ∃ new, heap w' = heap w ++ new.
Proof.
  unfold analyse_job. intros Hrun.
  apply bind_inv in Hrun as [(scores & w0 & Hkey & Hrun)|(e & Hkey & _)];
    [|apply getkey_pure in Hkey as ->; exists []; by rewrite app_nil_r].
  apply getkey_pure in Hkey as ->.
  apply bind_inv in Hrun as [(score & w0 & Hitem & Hrun)|(e & Hitem & _)];
    [|apply getitem_pure in Hitem as ->; exists []; by rewrite app_nil_r].
  apply getitem_pure in Hitem as ->.
  apply bind_inv in Hrun as [([pae_mtx iptm_score] & w1 & Hload & Hrun)|(e & Hload & _)];
    [|destruct (obtain_pae_and_iptm_allocates _ _ _ _ _ Hload) as (new & ? & _); eauto].
  destruct (obtain_pae_and_iptm_allocates _ _ _ _ _ Hload) as (new & Hheap & Hfresh).
  destruct (Hfresh _ _ eq_refl) as [Hlo Hhi].
  apply bind_inv in Hrun as [(seq_lengths & w2 & Hseq & Hrun)|(e & Hseq & _)];
    [|apply obtain_seq_lengths_pure in Hseq as ->; eauto].
  apply obtain_seq_lengths_pure in Hseq as ->.
  apply bind_inv in Hrun as [(check & w3 & Hcheck & Hrun)|(e & Hcheck & _)].
  - destruct (lookup_lt_is_Some_2 (heap w1) pae_mtx Hhi) as [a0 Ha0].
    rewrite (examine_inter_pae_spec _ _ _ _ a0 Ha0) in Hcheck.
    injection Hcheck as <- <-.
    apply score_and_report_heap in Hrun. simpl in Hrun.
    rewrite Hrun, Hheap. rewrite insert_app_r_alt by done. eauto.
  - destruct (lookup_lt_is_Some_2 (heap w1) pae_mtx Hhi) as [a0 Ha0].
    by rewrite (examine_inter_pae_spec _ _ _ _ a0 Ha0) in Hcheck.
Qed.

Lemma emit_inv ev w r w' :
  emit ev w = (r, w') -> r = Ok () ∧ heap w' = heap w.
Proof. by intros [= <- <-]. Qed.

Lemma process_job_frame cutoff n_jobs job st w r w' :
  process_job cutoff n_jobs job st w = (r, w') ->
  ∃ new, heap w' = heap w ++ new.
Proof.
  unfold process_job. intros Hrun.
  apply bind_inv in Hrun as [(? & w0 & Hemit & Hrun)|(e & Hemit & _)];
    [|by apply emit_inv in Hemit as [? _]].
  apply emit_inv in Hemit as [_ Hw0]. rewrite <- Hw0.
  destruct (bool_decide (is_Some (at_path job "ranking_debug.json")));
    [|injection Hrun as <- <-; exists []; by rewrite app_nil_r].
  apply bind_inv in Hrun as [(pdb_an & w1 & Hnew & Hrun)|(e & Hnew & _)];
    [|apply invoke_heap in Hnew; exists []; by rewrite app_nil_r].
  apply invoke_heap in Hnew. rewrite <- Hnew.
  apply bind_inv in Hrun as [(ranked & w2 & Hload & Hrun)|(e & Hload & _)];
    [|apply load_ranking_pure in Hload as ->; exists []; by rewrite app_nil_r].
  apply load_ranking_pure in Hload as ->.
  apply bind_inv in Hrun as [(order & w2 & Hkey & Hrun)|(e & Hkey & _)];
    [|apply getkey_pure in Hkey as ->; exists []; by rewrite app_nil_r].
  apply getkey_pure in Hkey as ->.
  apply bind_inv in Hrun as [(best_model & w2 & Hfirst & Hrun)|(e & Hfirst & _)];
    [|apply first_item_pure in Hfirst as ->; exists []; by rewrite app_nil_r].
  apply first_item_pure in Hfirst as ->.
  apply bind_inv in Hrun as [(data & w2 & Hload & Hrun)|(e & Hload & _)];
    [|apply load_ranking_pure in Hload as ->; exists []; by rewrite app_nil_r].
  apply load_ranking_pure in Hload as ->.
  apply bind_inv in Hrun as [(t' & w2 & Hbody & Hrun)|(e & Hbody & _)].
  - assert (∃ new, heap w2 = heap w1 ++ new) as (new & Hheap).
    { destruct (bool_decide (is_Some (rk_iptm data))
                || bool_decide (is_Some (rk_iptm_ptm data))).
      - by eapply analyse_job_frame.
      - injection Hbody as <- <-. exists []. by rewrite app_nil_r. }
    apply bind_inv in Hrun as [(? & w3 & Hemit & Hrun)|(e & Hemit & _)];
      [|by apply emit_inv in Hemit as [? _]].
    apply emit_inv in Hemit as [_ Hw3]. injection Hrun as <- <-.
    rewrite Hw3. eauto.
  - destruct (bool_decide (is_Some (rk_iptm data))
              || bool_decide (is_Some (rk_iptm_ptm data))).
    + by eapply analyse_job_frame.
    + by injection Hbody.
Qed.

End Frames.

(** X9: jobs do not share arrays.  Whatever the outcome of the loop over
    the jobs, normal or exceptional, every array that was in the store
    before it is there unchanged afterwards: the in-place masking of
    [examine_inter_pae] only ever reaches the matrix loaded for the job at
    hand. *)
Theorem job_loop_leaves_earlier_arrays {collab : Collaborators}
    (cutoff : float) (n_jobs : nat) (jobs : list directory) (st : locals) (w : world)
    (r : result locals) (w' : world) :
  job_loop cutoff n_jobs jobs st w = (r, w') ->
  ∃ new, heap w' = heap w ++ new.
Proof.
  revert st w. induction jobs as [|job rest IH]; intros st w Hrun; simpl in Hrun.
  - injection Hrun as <- <-. exists []. by rewrite app_nil_r.
  - apply bind_inv in Hrun as [(st1 & w1 & Hjob & Hrun)|(e & Hjob & _)].
    + destruct (process_job_frame _ _ _ _ _ _ _ Hjob) as (new1 & Hheap1).
      destruct (IH _ _ Hrun) as (new2 & Hheap2).
      exists (new1 ++ new2). by rewrite Hheap2, Hheap1, app_assoc.
    + by eapply process_job_frame.
Qed.

Lemma job_loop_leaves_earlier_arrays_witness :
  ∃ new, heap (World [[[9; 9]; [9; 9]]%float; [[50; 4]; [7; 50]]%float]
                 [LogInfo [Lit "now processing "; FStr "a"];
                  Called (call_PDBAnalyser "a"); Called (call_read_pdb "a");
                  Called (call_get_best_plddt "a"); Called call_read_plddt;
                  Called call_score_complex; Called (call_read_pdb_pdockq "a");
                  Called (call_calc_pdockq 8);
                  Called (call_pdb_analyser 1 [[50; 4]; [7; 50]]%float);
                  LogInfo [Lit "done for "; FStr "a"; Lit " "; FNat 1; Lit " out of ";
                           FNat 1; Lit " finished."]])
         = heap (World [[[9; 9]; [9; 9]]%float] []) ++ new.
Proof.
  apply (job_loop_leaves_earlier_arrays (collab := stub (Some 1%float) 2)
           5 1 [job_complete "a"] (Locals no_rows 0)
           (World [[[9; 9]; [9; 9]]%float] [])
           (Ok (Locals (Columns ["a"] [0.875%float] [PyFloat 0.75] [PyFloat 0.25]
                                [50%float] [90%float]) 1))).
  reflexivity.
Defined.

(** The check on the masked matrix: a cell between two chains below the
    cutoff, or the sentinel itself below the cutoff in a cell of a chain. *)
Lemma any_below_masked cutoff seq_lengths a :
  any_below cutoff (mask_blocks 0 seq_lengths a) = true
  ↔ confident_cell cutoff seq_lengths a ∨ sentinel_cell cutoff seq_lengths a.
Proof.
  rewrite any_below_true. unfold confident_cell, sentinel_cell. split.
  - intros (i & j & y & Hcell & Hlt). rewrite cell_mask_blocks in Hcell.
    destruct (cell a i j) as [x|] eqn:Hx; [|done].
    injection Hcell as <-.
    destruct (same_chain 0 seq_lengths i j) eqn:Hsame.
    + right. split; [done|]. by exists i, j, x.
    + left. by exists i, j, x.
  - intros [(i & j & x & Hcell & Hsame & Hlt)|(Hlt & i & j & x & Hcell & Hsame)];
      eexists i, j, _; rewrite cell_mask_blocks, Hcell, Hsame; by split.
Qed.

(** What a completed analysis of a job has done. *)
Lemma analyse_job_inv {collab : Collaborators}
    (cutoff : float) (job : directory) (pdb_an : analyser) (data : ranking)
    (best_model : string) (t t' : columns) (w w' : world) :
  analyse_job cutoff job pdb_an data best_model t w = (Ok t', w') ->
  ∃ pae_mtx iptm_score w1 a0 seq_lengths,
    obtain_pae_and_iptm job best_model w = (Ok (pae_mtx, iptm_score), w1)
    ∧ heap w1 !! pae_mtx = Some a0
    ∧ obtain_seq_lengths job w1 = (Ok seq_lengths, w1)
    ∧ (if any_below cutoff (mask_blocks 0 seq_lengths a0)
       then good_jobs t' = good_jobs t ++ [dir_path job]
       else t' = t).
Proof.
  intros Hrun. unfold analyse_job in Hrun.
  apply bind_Ok in Hrun as (scores & w0 & Hkey & Hrun).
  apply getkey_Ok in Hkey as [_ ->].
  apply bind_Ok in Hrun as (iptm_ptm_score & w0 & Hitem & Hrun).
  apply getitem_Ok in Hitem as [_ ->].
  apply bind_Ok in Hrun as ([pae_mtx iptm_score] & w1 & Hload & Hrun).
  apply bind_Ok in Hrun as (seq_lengths & w2 & Hseq & Hrun).
  pose proof (obtain_seq_lengths_pure _ _ _ _ Hseq) as ->.
  apply bind_Ok in Hrun as (check & w3 & Hcheck & Hrun).
  destruct (heap w1 !! pae_mtx) as [a0|] eqn:Ha0;
    [|by rewrite examine_inter_pae_dangling in Hcheck].
  rewrite (examine_inter_pae_spec _ _ _ _ a0 Ha0) in Hcheck.
  injection Hcheck as <- <-.
  exists pae_mtx, iptm_score, w1, a0, seq_lengths. repeat split; try done.
  unfold score_and_report in Hrun.
  apply bind_Ok in Hrun as ([score per_chain] & w4 & _ & Hrun).
  destruct (any_below cutoff (mask_blocks 0 seq_lengths a0)) eqn:Hany.
  - apply bind_Ok in Hrun as (contents & w5 & _ & Hrun).
    apply bind_Ok in Hrun as ([x y] & w6 & _ & Hrun).
    by injection Hrun as <- <-.
  - by injection Hrun as <- <-.
Qed.

(** X10: a job is accepted exactly when the masked matrix has a cell below
    the cutoff.  If the analysis of a job returns, then the matrix [a0] and
    the chain lengths were loaded, and one of two things holds.  Either
    some cell of [a0] outside every chain block is below the cutoff, or the
    cutoff is above the sentinel 50 and [a0] has a cell inside a chain
    block (which the masking sets to 50): then the job's name is appended
    to [good_jobs].  Or neither is the case, and the table is unchanged. *)
Theorem analyse_job_accepts_iff_confident {collab : Collaborators}
    (cutoff : float) (job : directory) (pdb_an : analyser) (data : ranking)
    (best_model : string) (t t' : columns) (w w' : world) :
  analyse_job cutoff job pdb_an data best_model t w = (Ok t', w') ->
  ∃ pae_mtx iptm_score w1 a0 seq_lengths,
    obtain_pae_and_iptm job best_model w = (Ok (pae_mtx, iptm_score), w1)
    ∧ heap w1 !! pae_mtx = Some a0
    ∧ obtain_seq_lengths job w1 = (Ok seq_lengths, w1)
    ∧ (((confident_cell cutoff seq_lengths a0 ∨ sentinel_cell cutoff seq_lengths a0)
        ∧ good_jobs t' = good_jobs t ++ [dir_path job])
       ∨ (¬ confident_cell cutoff seq_lengths a0
          ∧ ¬ sentinel_cell cutoff seq_lengths a0
          ∧ t' = t)).
Proof.
  intros Hrun.
  apply analyse_job_inv in Hrun
    as (pae_mtx & iptm_score & w1 & a0 & seq_lengths & Hload & Ha0 & Hseq & Hrow).
  exists pae_mtx, iptm_score, w1, a0, seq_lengths. repeat split; try done.
  destruct (any_below cutoff (mask_blocks 0 seq_lengths a0)) eqn:Hany.
  - left. split; [by apply any_below_masked|done].
  - right. repeat split; [| |done].
    + intros Hc. assert (any_below cutoff (mask_blocks 0 seq_lengths a0) = true);
        [apply any_below_masked; by left|congruence].
    + intros Hc. assert (any_below cutoff (mask_blocks 0 seq_lengths a0) = true);
        [apply any_below_masked; by right|congruence].
Qed.

(** A single chain and a cutoff above the sentinel: the job is accepted
    though no cell lies between two chains. *)
Lemma analyse_job_accepts_iff_confident_witness :
  ∃ pae_mtx iptm_score w1 a0 seq_lengths,
    obtain_pae_and_iptm job_single_chain "model_1" world0 = (Ok (pae_mtx, iptm_score), w1)
    ∧ heap w1 !! pae_mtx = Some a0
    ∧ obtain_seq_lengths job_single_chain w1 = (Ok seq_lengths, w1)
    ∧ (((confident_cell 51 seq_lengths a0 ∨ sentinel_cell 51 seq_lengths a0)
        ∧ good_jobs (Columns ["s"] [0.875%float] [PyFloat 0.75] [PyStr "None"]
                             [50%float] [90%float])
          = good_jobs no_rows ++ [dir_path job_single_chain])
       ∨ (¬ confident_cell 51 seq_lengths a0
          ∧ ¬ sentinel_cell 51 seq_lengths a0
          ∧ Columns ["s"] [0.875%float] [PyFloat 0.75] [PyStr "None"]
                    [50%float] [90%float] = no_rows)).
Proof.
  apply (analyse_job_accepts_iff_confident (collab := stub (Some 1%float) 1)
           51 job_single_chain () ranking_full "model_1" no_rows
           (Columns ["s"] [0.875%float] [PyFloat 0.75] [PyStr "None"]
                    [50%float] [90%float])
           world0
           (World [[[50; 50]; [50; 50]]%float]
                  [Called (call_read_pdb "s"); Called (call_get_best_plddt "s");
                   Called call_read_plddt; Called call_score_complex;
                   Called (call_pdb_analyser 0 [[50; 50]; [50; 50]]%float)])).
  reflexivity.
Defined.

Section Order.

Context {collab : Collaborators}.

(** A completed analysis either leaves the table alone or appends this
    job's name, and the latter only if the coordinate file was read. *)
Lemma analyse_job_rows cutoff job pdb_an data best_model t w t' w' :
  analyse_job cutoff job pdb_an data best_model t w = (Ok t', w') ->
  has_coordinates job
  ∧ (good_jobs t' = good_jobs t ∨ good_jobs t' = good_jobs t ++ [dir_path job]).
Proof.
  intros Hrun. split.
  - unfold analyse_job in Hrun.
    apply bind_Ok in Hrun as (? & ? & _ & Hrun).
    apply bind_Ok in Hrun as (? & ? & _ & Hrun).
    apply bind_Ok in Hrun as ([? ?] & ? & _ & Hrun).
    apply bind_Ok in Hrun as (seq_lengths & w2 & Hseq & _).
    unfold obtain_seq_lengths, has_coordinates in *.
    destruct (at_path job "ranked_0.pdb") as [[| | |peptides records|]|]; try done.
    eauto.
  - destruct (analyse_job_inv _ _ _ _ _ _ _ _ _ Hrun)
      as (? & ? & ? & a0 & seq_lengths & _ & _ & _ & Hrow).
    destruct (any_below cutoff (mask_blocks 0 seq_lengths a0)); [by right|].
    left. by rewrite Hrow.
Qed.

Lemma process_job_step cutoff n_jobs job st w st' w' :
  process_job cutoff n_jobs job st w = (Ok st', w') ->
  count st' = (if has_ranking job then S (count st) else count st)
  ∧ (good_jobs (table st') = good_jobs (table st)
     ∨ (has_ranking job = true ∧ has_coordinates job
        ∧ good_jobs (table st') = good_jobs (table st) ++ [dir_path job])).
Proof.
  intros Hrun. unfold process_job in Hrun. unfold has_ranking.
  apply bind_Ok in Hrun as (? & w0 & _ & Hrun).
  destruct (bool_decide (is_Some (at_path job "ranking_debug.json")));
    [|injection Hrun as <- <-; auto].
  apply bind_Ok in Hrun as (pdb_an & w1 & _ & Hrun).
  apply bind_Ok in Hrun as (ranked & w2 & _ & Hrun).
  apply bind_Ok in Hrun as (order & w3 & _ & Hrun).
  apply bind_Ok in Hrun as (best_model & w4 & _ & Hrun).
  apply bind_Ok in Hrun as (data & w5 & _ & Hrun).
  apply bind_Ok in Hrun as (t' & w6 & Hbody & Hrun).
  apply bind_Ok in Hrun as (? & w7 & _ & Hrun).
  injection Hrun as <- <-. simpl. split; [done|].
  destruct (bool_decide (is_Some (rk_iptm data)) || bool_decide (is_Some (rk_iptm_ptm data))).
  - destruct (analyse_job_rows _ _ _ _ _ _ _ _ _ Hbody) as [Hpdb [Hrow|Hrow]]; auto.
  - injection Hbody as <- <-. auto.
Qed.

End Order.

(** X11: the rows of the table follow the enumeration of the job
    directories.  When the loop returns, the names added to [good_jobs]
    are those of a subsequence of the jobs, in the order of the listing,
    and each of these jobs has a ranking file and a coordinate file. *)
Theorem job_loop_rows_in_listing_order {collab : Collaborators}
    (cutoff : float) (n_jobs : nat) (jobs : list directory) (st : locals) (w : world)
    (st' : locals) (w' : world) :
  job_loop cutoff n_jobs jobs st w = (Ok st', w') ->
  ∃ accepted,
    accepted `sublist_of` jobs
    ∧ Forall (fun job => has_ranking job = true ∧ has_coordinates job) accepted
    ∧ good_jobs (table st') = good_jobs (table st) ++ (dir_path <$> accepted).
Proof.
  revert st w. induction jobs as [|job rest IH]; intros st w Hrun; simpl in Hrun.
  - injection Hrun as <- <-. exists []. by rewrite app_nil_r.
  - apply bind_Ok in Hrun as (st1 & w1 & Hjob & Hrun).
    destruct (IH _ _ Hrun) as (accepted & Hsub & Hall & Hrows).
    destruct (process_job_step _ _ _ _ _ _ _ Hjob) as [_ [Hrow|(Hrk & Hpdb & Hrow)]].
    + exists accepted. split; [by apply sublist_cons_r; left|].
      split; [done|]. by rewrite Hrows, Hrow.
    + exists (job :: accepted). split; [by apply sublist_skip|].
      split; [by constructor|]. rewrite Hrows, Hrow. by rewrite <- app_assoc.
Qed.

Lemma job_loop_rows_in_listing_order_witness :
  ∃ accepted,
    accepted `sublist_of` [job_without_ranking "z"; job_complete "a"]
    ∧ Forall (fun job => has_ranking job = true ∧ has_coordinates job) accepted
    ∧ good_jobs (table (Locals (Columns ["a"] [0.875%float] [PyFloat 0.75] [PyFloat 0.25]
                                         [50%float] [90%float]) 1))
      = good_jobs (table (Locals no_rows 0)) ++ (dir_path <$> accepted).
Proof.
  apply (job_loop_rows_in_listing_order (collab := stub (Some 1%float) 2)
           5 2 [job_without_ranking "z"; job_complete "a"] (Locals no_rows 0) world0
           (Locals (Columns ["a"] [0.875%float] [PyFloat 0.75] [PyFloat 0.25]
                            [50%float] [90%float]) 1)
           (World [[[50; 4]; [7; 50]]%float]
              [LogInfo [Lit "now processing "; FStr "z"];
               LogInfo [Lit "now processing "; FStr "a"];
               Called (call_PDBAnalyser "a"); Called (call_read_pdb "a");
               Called (call_get_best_plddt "a"); Called call_read_plddt;
               Called call_score_complex; Called (call_read_pdb_pdockq "a");
               Called (call_calc_pdockq 8);
               Called (call_pdb_analyser 0 [[50; 4]; [7; 50]]%float);
               LogInfo [Lit "done for "; FStr "a"; Lit " "; FNat 1; Lit " out of ";
                        FNat 2; Lit " finished."]])).
  reflexivity.
Defined.

(** X12: the count reported in the log is the number of job directories
    with a ranking file met so far, whether or not they were analysed or
    accepted: when the loop returns, [count] has grown by the number of
    jobs that have a [ranking_debug.json]. *)
Theorem job_loop_counts_ranked_jobs {collab : Collaborators}
    (cutoff : float) (n_jobs : nat) (jobs : list directory) (st : locals) (w : world)
    (st' : locals) (w' : world) :
  job_loop cutoff n_jobs jobs st w = (Ok st', w') ->
  count st' = count st + length (List.filter has_ranking jobs).
Proof.
  revert st w. induction jobs as [|job rest IH]; intros st w Hrun; simpl in Hrun.
  - injection Hrun as <- <-. simpl. lia.
  - apply bind_Ok in Hrun as (st1 & w1 & Hjob & Hrun).
    rewrite (IH _ _ Hrun).
    destruct (process_job_step _ _ _ _ _ _ _ Hjob) as [-> _]. simpl.
    destruct (has_ranking job); simpl; lia.
Qed.

Lemma job_loop_counts_ranked_jobs_witness :
  count (Locals (Columns ["a"] [0.875%float] [PyFloat 0.75] [PyFloat 0.25]
                         [50%float] [90%float]) 1)
  = count (Locals no_rows 0)
    + length (List.filter has_ranking [job_without_ranking "z"; job_complete "a"]).
Proof.
  apply (job_loop_counts_ranked_jobs (collab := stub (Some 1%float) 2)
           5 2 [job_without_ranking "z"; job_complete "a"] (Locals no_rows 0) world0
           (Locals (Columns ["a"] [0.875%float] [PyFloat 0.75] [PyFloat 0.25]
                            [50%float] [90%float]) 1)
           (World [[[50; 4]; [7; 50]]%float]
              [LogInfo [Lit "now processing "; FStr "z"];
               LogInfo [Lit "now processing "; FStr "a"];
               Called (call_PDBAnalyser "a"); Called (call_read_pdb "a");
               Called (call_get_best_plddt "a"); Called call_read_plddt;
               Called call_score_complex; Called (call_read_pdb_pdockq "a");
               Called (call_calc_pdockq 8);
               Called (call_pdb_analyser 0 [[50; 4]; [7; 50]]%float);
               LogInfo [Lit "done for "; FStr "a"; Lit " "; FNat 1; Lit " out of ";
                        FNat 2; Lit " finished."]])).
  reflexivity.
Defined.

(** X13: [obtain_pae_and_iptm] does not survive a missing ranking file.
    Its [except FileNotFoundError] clause logs a warning and goes on, but
    [ranking_results] was never assigned: the next statement raises
    [UnboundLocalError], whatever artifacts the directory holds. *)
Theorem obtain_pae_and_iptm_without_ranking
    (result_subdir : directory) (best_model : string) (w : world) :
  at_path result_subdir "ranking_debug.json" = None ->
  obtain_pae_and_iptm result_subdir best_model w =
  (Raise (UnboundLocalError "ranking_results"),
   World (heap w)
         (log w ++ [LogWarning [Lit "ranking_debug.json is not found at ";
                                FStr (dir_path result_subdir)]])).
Proof.
  intros Hnone. unfold obtain_pae_and_iptm, attempt, load_ranking.
  rewrite Hnone. by run.
Qed.

Lemma obtain_pae_and_iptm_without_ranking_witness :
  obtain_pae_and_iptm
    (Directory "a" (files [("pae_model_1.json", PaeJson [Some pae_2x2]);
                           ("ranked_0.pdb", PdbFile [1; 1]%nat "ATOM")]))
    "model_1" world0 =
  (Raise (UnboundLocalError "ranking_results"),
   World (heap world0)
         (log world0 ++ [LogWarning [Lit "ranking_debug.json is not found at ";
                                     FStr "a"]])).
Proof.
  apply (obtain_pae_and_iptm_without_ranking
           (Directory "a" (files [("pae_model_1.json", PaeJson [Some pae_2x2]);
                                  ("ranked_0.pdb", PdbFile [1; 1]%nat "ATOM")]))
           "model_1" world0).
  reflexivity.
Defined.

(** * Properties of the template database scripts *)

Module TemplateDbFacts.
Import TemplateDb.

(** ** Python strings *)

Lemma lower_char_idem c : lower_char (lower_char c) = lower_char c.
Proof. by destruct c as [[] [] [] [] [] [] [] []]. Qed.

Lemma py_lower_idem s : py_lower (py_lower s) = py_lower s.
Proof. induction s as [|c s IH]; simpl; [done|]. by rewrite lower_char_idem, IH. Qed.

Lemma py_lower_length s : String.length (py_lower s) = String.length s.
Proof. induction s as [|c s IH]; simpl; [done|]. by rewrite IH. Qed.

Lemma append_assoc (a b c : string) : (a +:+ b) +:+ c = a +:+ (b +:+ c).
Proof.
  induction a as [|x a IH]; [done|].
  change (String x ((a +:+ b) +:+ c) = String x (a +:+ (b +:+ c))). by f_equal.
Qed.

Lemma append_empty_r (a : string) : a +:+ "" = a.
Proof.
  induction a as [|x a IH]; [done|].
  change (String x (a +:+ "") = String x a). by f_equal.
Qed.

(** ** Reasoning about statements *)

Lemma io_bind_inv {A B} (m : IO A) (k : A -> IO B) s r s2 :
  (m ≫= k) s = (r, s2) ->
  (exists a s1, m s = (Returned a, s1) /\ k a s1 = (r, s2))
  \/ (exists e, m s = (Raised e, s2) /\ r = Raised e).
Proof.
  unfold mbind, IO_bind, io_bind. destruct (m s) as [[a|e] s1]; intros H.
  - left. by exists a, s1.
  - right. injection H as <- <-. by exists e.
Qed.

Lemma io_bind_returned {A B} (m : IO A) (k : A -> IO B) s a s1 :
  m s = (Returned a, s1) -> (m ≫= k) s = k a s1.
Proof. unfold mbind, IO_bind, io_bind. by intros ->. Qed.

Lemma io_bind_raised {A B} (m : IO A) (k : A -> IO B) s e s1 :
  m s = (Raised e, s1) -> (m ≫= k) s = (Raised e, s1).
Proof. unfold mbind, IO_bind, io_bind. by intros ->. Qed.

Ltac io_unfold :=
  repeat progress
    (unfold mbind, mret, IO_bind, IO_ret, io_bind, io_ret, throw, try, note, logging,
            when, bound, stat, exists_, is_dir, put, del, fresh_dir in *;
     simpl in *).

(** ** Looking paths up in a tree that changes *)

Lemma resolve_nil t : resolve t [] = Found Dir.
Proof. done. Qed.

Lemma resolve_snoc t p x :
  resolve t (p ++ [x])
  = match resolve t p with
    | Found Dir => match t !! (p ++ [x]) with
                   | Some n => Found n
                   | None => Missing
                   end
    | Found (File _) => NotDir
    | Missing => Missing
    | NotDir => NotDir
    end.
Proof. unfold resolve. rewrite rev_unit. simpl. by rewrite rev_involutive. Qed.

Lemma parent_snoc (p : path) x : parent (p ++ [x]) = p.
Proof. unfold parent. rewrite rev_unit. simpl. apply rev_involutive. Qed.

Lemma path_cases (p : path) : p = [] \/ exists p0 x, p = p0 ++ [x].
Proof. destruct p as [|y p] using rev_ind; [by left|right; eauto]. Qed.

Lemma prefix_snoc_cases (p q : path) x :
  p `prefix_of` q ++ [x] -> p = q ++ [x] \/ p `prefix_of` q.
Proof.
  intros [k Hk]. destruct (path_cases k) as [->|(k' & y & ->)].
  - left. by rewrite app_nil_r in Hk.
  - right. rewrite app_assoc in Hk. apply app_inj_tail in Hk as [-> _]. by exists k'.
Qed.

Lemma not_prefix_snoc (p : path) x : ¬ (p ++ [x]) `prefix_of` p.
Proof. intros H. apply prefix_length in H. rewrite length_app in H. simpl in H. lia. Qed.

Lemma snoc_ne (p : path) x : p ++ [x] ≠ p.
Proof. intros H. apply (f_equal length) in H. rewrite length_app in H. simpl in H. lia. Qed.

(** The walk along [q] only looks at the prefixes of [q]. *)
Lemma resolve_outside t t' p q :
  (forall q', ¬ p `prefix_of` q' -> t' !! q' = t !! q') ->
  ¬ p `prefix_of` q -> resolve t' q = resolve t q.
Proof.
  intros Hsame. induction q as [|x q IH] using rev_ind; intros Hq; [done|].
  rewrite !resolve_snoc, IH, (Hsame (q ++ [x])); [done..|].
  intros Hp. apply Hq. etrans; [done|]. by apply prefix_app_r.
Qed.

(** Above a node that is found there are directories. *)
Lemma found_prefix t p q n :
  resolve t q = Found n -> p `prefix_of` q -> p ≠ q -> resolve t p = Found Dir.
Proof.
  revert n. induction q as [|x q IH] using rev_ind; intros n Hq Hp Hne.
  - apply prefix_nil_inv in Hp. done.
  - rewrite resolve_snoc in Hq.
    destruct (resolve t q) as [[|c]| |] eqn:Hres; try done.
    apply prefix_snoc_cases in Hp as [->|Hp]; [done|].
    destruct (decide (p = q)) as [->|Hpq]; [done|]. by eapply IH.
Qed.

Lemma found_not_below t p q n :
  resolve t q = Found n -> resolve t p ≠ Found Dir -> p ≠ q -> ¬ p `prefix_of` q.
Proof. intros Hq Hp Hne Hpre. apply Hp. by eapply found_prefix. Qed.

Lemma found_parent t p x n : resolve t (p ++ [x]) = Found n -> resolve t p = Found Dir.
Proof.
  intros H. eapply found_prefix; [done|by apply prefix_app_r|].
  intros Heq. apply (f_equal length) in Heq. rewrite length_app in Heq. simpl in Heq. lia.
Qed.

Lemma found_lookup t p x n : resolve t (p ++ [x]) = Found n -> t !! (p ++ [x]) = Some n.
Proof.
  intros H. pose proof (found_parent _ _ _ _ H) as Hp.
  rewrite resolve_snoc, Hp in H. by destruct (t !! (p ++ [x])); simplify_eq.
Qed.

Lemma missing_lookup t p x :
  resolve t p = Found Dir -> resolve t (p ++ [x]) = Missing -> t !! (p ++ [x]) = None.
Proof. intros Hp H. rewrite resolve_snoc, Hp in H. by destruct (t !! (p ++ [x])). Qed.

Lemma cleared_outside p t q : ¬ p `prefix_of` q -> cleared p t !! q = t !! q.
Proof.
  intros Hq. unfold cleared. rewrite lookup_insert_ne by (by intros ->).
  apply option_eq. intros n. rewrite map_lookup_filter_Some. simpl. tauto.
Qed.

Lemma cleared_below p t q : p `prefix_of` q -> q ≠ p -> cleared p t !! q = None.
Proof.
  intros Hq Hne. unfold cleared. rewrite lookup_insert_ne by done.
  apply map_lookup_filter_None. right. intros n _. simpl. tauto.
Qed.

Lemma insert_outside (p : path) (n : node) (t : gmap path node) q :
  ¬ p `prefix_of` q -> <[p := n]> t !! q = t !! q.
Proof. intros Hq. by rewrite lookup_insert_ne by (by intros ->). Qed.

Lemma delete_outside (p : path) (t : gmap path node) q :
  ¬ p `prefix_of` q -> delete p t !! q = t !! q.
Proof. intros Hq. by rewrite lookup_delete_ne by (by intros ->). Qed.

Lemma resolve_cleared_at t p x :
  resolve t p = Found Dir -> resolve (cleared (p ++ [x]) t) (p ++ [x]) = Found Dir.
Proof.
  intros Hp. rewrite resolve_snoc.
  rewrite (resolve_outside t _ (p ++ [x]) p), Hp;
    [|apply cleared_outside|apply not_prefix_snoc].
  unfold cleared. by rewrite lookup_insert_eq.
Qed.

Lemma resolve_insert_at t p x n :
  resolve t p = Found Dir -> resolve (<[p ++ [x] := n]> t) (p ++ [x]) = Found n.
Proof.
  intros Hp. rewrite resolve_snoc.
  rewrite (resolve_outside t _ (p ++ [x]) p), Hp;
    [|apply insert_outside|apply not_prefix_snoc].
  by rewrite lookup_insert_eq.
Qed.

Lemma resolve_delete_at t p x :
  resolve t p = Found Dir -> resolve (delete (p ++ [x]) t) (p ++ [x]) = Missing.
Proof.
  intros Hp. rewrite resolve_snoc.
  rewrite (resolve_outside t _ (p ++ [x]) p), Hp;
    [|apply delete_outside|apply not_prefix_snoc].
  by rewrite lookup_delete_eq.
Qed.

(** A node that is found stays where it is when something is made at a
    place that was missing, or when another file is written or removed. *)
Lemma found_cleared t p q n :
  resolve t q = Found n -> resolve t p = Missing -> resolve (cleared p t) q = Found n.
Proof.
  intros Hq Hp. rewrite <-Hq. apply (resolve_outside t _ p); [apply cleared_outside|].
  eapply found_not_below; [done|congruence|]. intros ->. congruence.
Qed.

Lemma found_insert t p q n m :
  resolve t q = Found n -> resolve t p ≠ Found Dir -> p ≠ q ->
  resolve (<[p := m]> t) q = Found n.
Proof.
  intros Hq Hp Hne. rewrite <-Hq. apply (resolve_outside t _ p); [apply insert_outside|].
  by eapply found_not_below.
Qed.

Lemma found_delete t p q n :
  resolve t q = Found n -> resolve t p ≠ Found Dir -> p ≠ q ->
  resolve (delete p t) q = Found n.
Proof.
  intros Hq Hp Hne. rewrite <-Hq. apply (resolve_outside t _ p); [apply delete_outside|].
  by eapply found_not_below.
Qed.

Lemma resolve_insert_file t p c n :
  resolve t p = Found (File c) -> resolve (<[p := n]> t) p = Found n.
Proof.
  intros Hp. destruct (path_cases p) as [->|(p0 & x & ->)]; [done|].
  apply resolve_insert_at. by eapply found_parent.
Qed.

(** The names [os.listdir] reports are the keys below the directory. *)
Lemma elem_of_entries t p x : x ∈ entries t p <-> is_Some (t !! (p ++ [x])).
Proof.
  unfold entries. rewrite list_elem_of_omap. split.
  - intros (q & Hq & Hx). apply list_elem_of_fmap in Hq as ([q' n] & -> & Hq).
    apply elem_of_map_to_list in Hq. simpl in Hx.
    destruct (last q') as [name|] eqn:Hlast; [|done].
    case_bool_decide as Heq; [|done]. injection Hx as ->. rewrite <-Heq. eauto.
  - intros [n Hn]. exists (p ++ [x]). split.
    + apply list_elem_of_fmap. exists (p ++ [x], n). split; [done|].
      by apply elem_of_map_to_list.
    + rewrite last_snoc. by rewrite bool_decide_eq_true_2.
Qed.

(** ** Files *)

Lemma exists_eq p t j :
  exists_ p (State t j)
  = (Returned (match resolve t p with Found _ => true | _ => false end), State t j).
Proof. done. Qed.

Lemma unlink_eq p t j :
  unlink p (State t j)
  = match resolve t p with
    | Found (File _) => (Returned (), State (delete p t) j)
    | Found Dir => (Raised (IsADirectoryError p), State t j)
    | Missing => (Raised (FileNotFoundError p), State t j)
    | NotDir => (Raised (NotADirectoryError p), State t j)
    end.
Proof. unfold unlink. io_unfold. by destruct (resolve t p) as [[|c]| |]. Qed.

Lemma unlink_file p t j c :
  resolve t p = Found (File c) -> unlink p (State t j) = (Returned (), State (delete p t) j).
Proof. intros Hp. by rewrite unlink_eq, Hp. Qed.

Lemma read_text_eq p t j :
  read_text p (State t j)
  = match resolve t p with
    | Found (File content) => (Returned content, State t j)
    | Found Dir => (Raised (IsADirectoryError p), State t j)
    | NotDir => (Raised (NotADirectoryError p), State t j)
    | Missing => (Raised (FileNotFoundError p), State t j)
    end.
Proof. unfold read_text. io_unfold. by destruct (resolve t p) as [[|c]| |]. Qed.

Lemma write_file_eq p text t j :
  write_file p text (State t j)
  = match resolve t p with
    | Found (File content) => (Returned (), State (<[p := File (content +:+ text)]> t) j)
    | Found Dir => (Raised (IsADirectoryError p), State t j)
    | NotDir => (Raised (NotADirectoryError p), State t j)
    | Missing => (Raised (FileNotFoundError p), State t j)
    end.
Proof. unfold write_file. io_unfold. by destruct (resolve t p) as [[|c]| |]. Qed.

Lemma open_file_eq m p t j :
  open_file m p (State t j)
  = match resolve t p with
    | Found (File _) =>
        (Returned (), State (match m with Append => t | Write => <[p := File ""]> t end) j)
    | Found Dir => (Raised (IsADirectoryError p), State t j)
    | NotDir => (Raised (NotADirectoryError p), State t j)
    | Missing =>
        match resolve t (parent p) with
        | Found Dir => (Returned (), State (<[p := File ""]> t) j)
        | _ => (Raised (FileNotFoundError p), State t j)
        end
    end.
Proof.
  unfold open_file. io_unfold. destruct (resolve t p) as [[|c]| |]; try done.
  - by destruct m.
  - simpl. by destruct (resolve t (parent p)) as [[|c]| |].
Qed.

Lemma open_file_ok m t p x j :
  resolve t p = Found Dir -> resolve t (p ++ [x]) ≠ Found Dir ->
  open_file m (p ++ [x]) (State t j)
  = (Returned (),
     State (match m, resolve t (p ++ [x]) with
            | Append, Found (File _) => t
            | _, _ => <[p ++ [x] := File ""]> t
            end) j).
Proof.
  intros Hp Hfn. unfold open_file. io_unfold.
  pose proof (resolve_snoc t p x) as Hs. rewrite Hp in Hs.
  destruct (resolve t (p ++ [x])) as [[|c]| |]; try done; simpl.
  - by destruct m.
  - rewrite parent_snoc, Hp. by destruct m.
  - by destruct (t !! (p ++ [x])).
Qed.

Lemma write_file_ok t p c text j :
  resolve t p = Found (File c) ->
  write_file p text (State t j) = (Returned (), State (<[p := File (c +:+ text)]> t) j).
Proof. intros Hp. unfold write_file. io_unfold. by rewrite Hp. Qed.

Lemma open_file_append_effect p t j r s' :
  open_file Append p (State t j) = (r, s') ->
  journal s' = j /\
  (forall q n, resolve t q = Found n -> resolve (tree s') q = Found n) /\
  (forall q, q ≠ p -> tree s' !! q = t !! q).
Proof.
  unfold open_file. io_unfold.
  destruct (resolve t p) as [[|c]| |] eqn:Hp; simpl; intros Hrun;
    try (by injection Hrun as <- <-).
  destruct (resolve t (parent p)) as [[|c]| |]; simpl in Hrun;
    try (by injection Hrun as <- <-).
  injection Hrun as <- <-. simpl. repeat split.
  - intros q n Hq. apply found_insert; [done|congruence|]. intros ->. congruence.
  - intros q Hq. by apply lookup_insert_ne.
Qed.

Lemma copyfile_returns src dst t j s' :
  copyfile src dst (State t j) = (Returned (), s') ->
  src ≠ dst /\
  exists content,
    resolve t src = Found (File content) /\
    s' = State (<[dst := File content]> t) j.
Proof.
  unfold copyfile. rewrite (io_bind_returned _ _ _ _ _ (exists_eq _ _ _)). intros Hrun.
  destruct (bool_decide (src = dst) && _) eqn:Hsame; [done|].
  apply io_bind_inv in Hrun as [(content & s1 & Hread & Hrun)|(e & _ & ?)]; [|done].
  rewrite read_text_eq in Hread.
  destruct (resolve t src) as [[|c]| |] eqn:Hsrc; try done. injection Hread as -> <-.
  rewrite andb_true_r in Hsame. apply bool_decide_eq_false in Hsame.
  split; [done|]. exists content. split; [done|].
  apply io_bind_inv in Hrun as [([] & [t2 j2] & Hopen & Hrun)|(e & _ & ?)]; [|done].
  rewrite open_file_eq in Hopen. rewrite write_file_eq in Hrun.
  destruct (path_cases dst) as [->|(d & x & ->)]; [done|].
  destruct (resolve t (d ++ [x])) as [[|c]| |] eqn:Hdst; try done.
  - injection Hopen as <- <-. erewrite resolve_insert_file in Hrun by done.
    injection Hrun as <-. by rewrite insert_insert_eq.
  - rewrite parent_snoc in Hopen.
    destruct (resolve t d) as [[|c]| |] eqn:Hd; try done. injection Hopen as <- <-.
    rewrite resolve_insert_at in Hrun by done.
    injection Hrun as <-. by rewrite insert_insert_eq.
Qed.

(** ** Making directories *)

Lemma os_mkdir_eq p t j :
  os_mkdir p (State t j)
  = match resolve t p with
    | Found _ => (Raised (FileExistsError p), State t j)
    | NotDir => (Raised (NotADirectoryError p), State t j)
    | Missing =>
        match resolve t (parent p) with
        | Found Dir => (Returned (), State (cleared p t) j)
        | _ => (Raised (FileNotFoundError p), State t j)
        end
    end.
Proof.
  unfold os_mkdir. io_unfold. destruct (resolve t p) as [[|c]| |]; try done.
  simpl. by destruct (resolve t (parent p)) as [[|c]| |].
Qed.

Lemma mkdir_excuse_eq p ok e t j :
  mkdir_excuse p ok e (State t j)
  = if ok && match resolve t p with Found Dir => true | _ => false end
    then (Returned (), State t j)
    else (Raised e, State t j).
Proof.
  unfold mkdir_excuse. io_unfold.
  by destruct ok, (resolve t p) as [[|c]| |].
Qed.

Lemma path_mkdir_rev_eq rp parents ok :
  path_mkdir_rev rp parents ok
  = (r ← try (os_mkdir (rev rp));
     match r with
     | Returned _ => mret ()
     | Raised (FileNotFoundError q) =>
         match rp with
         | [] => throw (FileNotFoundError q)
         | _ :: rparent =>
             if parents then
               path_mkdir_rev rparent true true;;
               again ← try (os_mkdir (rev rp));
               match again with
               | Returned _ => mret ()
               | Raised (FileNotFoundError q') => throw (FileNotFoundError q')
               | Raised e => mkdir_excuse (rev rp) ok e
               end
             else throw (FileNotFoundError q)
         end
     | Raised e => mkdir_excuse (rev rp) ok e
     end).
Proof. by destruct rp. Qed.

Lemma try_eq {A} (m : IO A) s : try m s = (Returned (m s).1, (m s).2).
Proof. unfold try. by destruct (m s). Qed.

Lemma missing_above t p x :
  resolve t (p ++ [x]) = Missing -> resolve t p = Found Dir \/ resolve t p = Missing.
Proof. rewrite resolve_snoc. destruct (resolve t p) as [[|c]| |]; auto; done. Qed.

(** A path that is there: nothing is made. *)
Lemma path_mkdir_found p ok t j n :
  resolve t p = Found n ->
  path_mkdir p true ok (State t j)
  = if ok && match n with Dir => true | File _ => false end
    then (Returned (), State t j)
    else (Raised (FileExistsError p), State t j).
Proof.
  intros Hp. unfold path_mkdir. rewrite path_mkdir_rev_eq, rev_involutive.
  erewrite io_bind_returned; [|by rewrite try_eq, os_mkdir_eq, Hp].
  simpl. rewrite mkdir_excuse_eq, Hp. by destruct n.
Qed.

Lemma path_mkdir_notdir p ok t j :
  resolve t p = NotDir ->
  path_mkdir p true ok (State t j) = (Raised (NotADirectoryError p), State t j).
Proof.
  intros Hp. unfold path_mkdir. rewrite path_mkdir_rev_eq, rev_involutive.
  erewrite io_bind_returned; [|by rewrite try_eq, os_mkdir_eq, Hp].
  simpl. rewrite mkdir_excuse_eq, Hp. by rewrite andb_false_r.
Qed.

(** A path that is missing: it is made, with the directories above it that
    are missing; the new directory is empty, and what was found before is
    found after. *)
Lemma path_mkdir_rev_missing rp ok t j :
  resolve t (rev rp) = Missing ->
  exists t',
    path_mkdir_rev rp true ok (State t j) = (Returned (), State t' j) /\
    resolve t' (rev rp) = Found Dir /\
    (forall q, rev rp `prefix_of` q -> q ≠ rev rp -> t' !! q = None) /\
    (forall q n, resolve t q = Found n -> resolve t' q = Found n) /\
    (forall q, ¬ q `prefix_of` rev rp -> t' !! q = t !! q \/ t' !! q = None).
Proof.
  revert ok t. induction rp as [|x rp IH]; intros ok t Hmiss; [done|].
  simpl in Hmiss. destruct (missing_above _ _ _ Hmiss) as [Hup|Hup].
  - exists (cleared (rev rp ++ [x]) t). split; [|split; [|split; [|split]]].
    + rewrite path_mkdir_rev_eq. simpl rev.
      erewrite io_bind_returned;
        [|by rewrite try_eq, os_mkdir_eq, Hmiss, parent_snoc, Hup].
      done.
    + by apply resolve_cleared_at.
    + intros q Hq Hne. by apply cleared_below.
    + intros q n Hq. by apply found_cleared.
    + intros q Hq. simpl.
      destruct (decide (rev rp ++ [x] `prefix_of` q)) as [Hpre|Hpre].
      * right. apply cleared_below; [done|]. intros ->. by apply Hq.
      * left. by apply cleared_outside.
  - destruct (IH true t Hup) as (t1 & Hrun1 & Hdir1 & Hbelow1 & Hkeep1 & Hout1).
    assert (resolve t1 (rev rp ++ [x]) = Missing) as Hmiss1.
    { rewrite resolve_snoc, Hdir1, Hbelow1; [done|by apply prefix_app_r|apply snoc_ne]. }
    exists (cleared (rev rp ++ [x]) t1). split; [|split; [|split; [|split]]].
    + rewrite path_mkdir_rev_eq. simpl rev.
      erewrite io_bind_returned;
        [|by rewrite try_eq, os_mkdir_eq, Hmiss, parent_snoc, Hup].
      simpl. erewrite io_bind_returned; [|done].
      erewrite io_bind_returned;
        [|by rewrite try_eq, os_mkdir_eq, Hmiss1, parent_snoc, Hdir1].
      done.
    + by apply resolve_cleared_at.
    + intros q Hq Hne. by apply cleared_below.
    + intros q n Hq. apply found_cleared; [by apply Hkeep1|done].
    + intros q Hq. simpl.
      destruct (decide (rev rp ++ [x] `prefix_of` q)) as [Hpre|Hpre].
      * right. apply cleared_below; [done|]. intros ->. by apply Hq.
      * rewrite cleared_outside by done. apply Hout1.
        intros Hq'. apply Hq. simpl. etrans; [done|]. by apply prefix_app_r.
Qed.

Lemma path_mkdir_missing p ok t j :
  resolve t p = Missing ->
  exists t',
    path_mkdir p true ok (State t j) = (Returned (), State t' j) /\
    resolve t' p = Found Dir /\
    (forall q, p `prefix_of` q -> q ≠ p -> t' !! q = None) /\
    (forall q n, resolve t q = Found n -> resolve t' q = Found n) /\
    (forall q, ¬ q `prefix_of` p -> t' !! q = t !! q \/ t' !! q = None).
Proof.
  intros Hp. unfold path_mkdir.
  destruct (path_mkdir_rev_missing (rev p) ok t j) as (t' & H); [by rewrite rev_involutive|].
  rewrite rev_involutive in H. by exists t'.
Qed.

(** ** [parse_code] *)

Lemma second_token_spec line s :
  second_token line s
  = match py_split line !! 1%nat with
    | Some code => (Returned code, s)
    | None => (Raised IndexError, s)
    end.
Proof. unfold second_token. by destruct (py_split line) as [|? [|? ?]]. Qed.

Lemma entry_ids_cons line rest :
  entry_ids (line :: rest)
  = match (if py_startswith line "_entry.id" then py_split line !! 1%nat else None) with
    | Some code => code :: entry_ids rest
    | None => entry_ids rest
    end.
Proof. done. Qed.

Lemma default_last_cons {A} (d x : A) (l : list A) :
  default d (last (x :: l)) = default x (last l).
Proof. rewrite last_cons. by destruct (last l). Qed.

Lemma scan_entry_id_returns template lines code0 s code s' :
  scan_entry_id template lines code0 s = (Returned code, s') ->
  s' = s /\ Forall accepted lines /\ code = default code0 (last (entry_ids lines)).
Proof.
  revert code0. induction lines as [|line rest IH]; intros code0 Hrun; simpl in Hrun.
  - injection Hrun as <- <-. by repeat split.
  - rewrite entry_ids_cons.
    destruct (py_startswith line "_entry.id") eqn:Hstart.
    + apply io_bind_inv in Hrun as [(c & s1 & Htok & Hrun)|(e & _ & ?)]; [|done].
      rewrite second_token_spec in Htok.
      destruct (py_split line !! 1%nat) as [c'|] eqn:Hc; [|done].
      injection Htok as -> <-.
      destruct (String.length c =? 4)%nat eqn:Hlen; simpl in Hrun.
      * apply IH in Hrun as (-> & Hrest & ->). apply Nat.eqb_eq in Hlen.
        repeat split.
        -- constructor; [|done]. intros _. by exists c.
        -- by rewrite default_last_cons.
      * by io_unfold.
    + apply IH in Hrun as (-> & Hrest & ->). repeat split.
      constructor; [|done]. intros Habs. congruence.
Qed.

Lemma parse_code_inv {libs : Libraries} (template : string) (s s' : state)
    (code : string) :
  parse_code template s = (Returned code, s') ->
  exists text raw,
    resolve (tree s) (locate template) = Found (File text) /\
    scan_entry_id template (py_lines text) (py_stem (path_name template)) s
    = (Returned raw, s') /\
    code = py_lower raw.
Proof.
  unfold parse_code. intros Hrun.
  apply io_bind_inv in Hrun as [(text & s1 & Hread & Hrun)|(e & _ & ?)]; [|done].
  apply io_bind_inv in Hrun as [(raw & s2 & Hscan & Hrun)|(e & _ & ?)]; [|done].
  destruct s as [t j]. rewrite read_text_eq in Hread.
  destruct (resolve t (locate template)) as [[|text']| |] eqn:Hres; try done.
  injection Hread as -> <-. injection Hrun as <- <-. by exists text, raw.
Qed.

(** X14: what [parse_code] returns. The file is read and left as it is, all
    its [_entry.id] lines have a code of four characters, and the result is
    the code of the last of them, or the stem of the file name if there is
    none, in lower case. The stem is not measured. *)
Theorem parse_code_returns {libs : Libraries} (template : string) (s s' : state)
    (code : string) :
  parse_code template s = (Returned code, s') ->
  s' = s /\ py_lower code = code /\
  exists text,
    resolve (tree s) (locate template) = Found (File text) /\
    Forall accepted (py_lines text) /\
    code = py_lower (default (py_stem (path_name template))
                             (last (entry_ids (py_lines text)))).
Proof.
  intros Hrun. apply parse_code_inv in Hrun as (text & raw & Hfile & Hscan & ->).
  apply scan_entry_id_returns in Hscan as (-> & Hall & ->).
  split; [done|]. split; [apply py_lower_idem|]. by exists text.
Qed.

Lemma parse_code_returns_witness :
  State tree_6xyz [] = State tree_6xyz [] /\ py_lower "1abc" = "1abc" /\
  exists text,
    resolve tree_6xyz (@locate plain "in/6XYZ.cif") = Found (File text) /\
    Forall accepted (py_lines text) /\
    "1abc" = py_lower (default (py_stem (path_name "in/6XYZ.cif"))
                             (last (entry_ids (py_lines text)))).
Proof.
  apply (parse_code_returns (libs := plain) "in/6XYZ.cif" (State tree_6xyz []) _ "1abc").
  vm_compute. reflexivity.
Defined.

Lemma scan_entry_id_exits template pre line post code0 code s :
  Forall accepted pre ->
  py_startswith line "_entry.id" = true ->
  py_split line !! 1%nat = Some code ->
  String.length code ≠ 4%nat ->
  scan_entry_id template (pre ++ line :: post) code0 s
  = (Raised (SystemExit 1),
     State (tree s)
           (journal s ++ [Logged ERROR [Txt "Error for template "; Val template; Txt "!";
                                        Txt nl; Txt "Code must have 4 characters but is ";
                                        Val code; Txt nl]])).
Proof.
  intros Hpre Hstart Hcode Hlen. revert code0.
  induction Hpre as [|line0 pre Hline0 _ IH]; intros code0; simpl.
  - rewrite Hstart. erewrite io_bind_returned; [|by rewrite second_token_spec, Hcode].
    apply Nat.eqb_neq in Hlen. by rewrite Hlen.
  - destruct (py_startswith line0 "_entry.id") eqn:Hstart0; [|apply IH].
    destruct (Hline0 Hstart0) as (c0 & Hc0 & Hlen0).
    erewrite io_bind_returned; [|by rewrite second_token_spec, Hc0].
    apply Nat.eqb_eq in Hlen0. rewrite Hlen0. apply IH.
Qed.

(** X15: [parse_code] ends the program at the first [_entry.id] line whose
    code has not four characters, whatever follows it in the file: the error
    is logged and [SystemExit 1] raised. *)
Theorem parse_code_exits {libs : Libraries} (template text : string)
    (pre post : list string) (line code : string) (s : state) :
  resolve (tree s) (locate template) = Found (File text) ->
  py_lines text = pre ++ line :: post ->
  Forall accepted pre ->
  py_startswith line "_entry.id" = true ->
  py_split line !! 1%nat = Some code ->
  String.length code ≠ 4%nat ->
  parse_code template s
  = (Raised (SystemExit 1),
     State (tree s)
           (journal s ++ [Logged ERROR [Txt "Error for template "; Val template; Txt "!";
                                        Txt nl; Txt "Code must have 4 characters but is ";
                                        Val code; Txt nl]])).
Proof.
  intros Hfile Hlines Hpre Hstart Hcode Hlen. unfold parse_code.
  erewrite io_bind_returned; [|by unfold read_text; io_unfold; rewrite Hfile].
  rewrite Hlines. erewrite io_bind_raised; [done|].
  by apply scan_entry_id_exits.
Qed.

Lemma parse_code_exits_witness :
  @parse_code plain "in/7abc.cif" (State tree_7abc [])
  = (Raised (SystemExit 1),
     State tree_7abc
           ([] ++ [Logged ERROR [Txt "Error for template "; Val "in/7abc.cif"; Txt "!";
                                 Txt nl; Txt "Code must have 4 characters but is ";
                                 Val "model"; Txt nl]])).
Proof.
  apply (parse_code_exits (libs := plain) "in/7abc.cif"
           ("_entry.id 7ABC" +:+ nl +:+ "_entry.id model" +:+ nl +:+ "_entry.id 7ABC" +:+ nl)
           ["_entry.id 7ABC" +:+ nl] ["_entry.id 7ABC" +:+ nl]
           ("_entry.id model" +:+ nl) "model" (State tree_7abc [])); try by vm_compute.
  constructor; [|constructor]. intros _. by exists "7ABC".
Defined.

Lemma last_entry_id_returns lines acc s :
  Forall accepted lines ->
  last_entry_id lines acc s
  = (Returned (match last (entry_ids lines) with
               | Some code => Some code
               | None => acc
               end), s).
Proof.
  intros Hlines. revert acc. induction Hlines as [|line rest Hline _ IH]; intros acc.
  - done.
  - rewrite entry_ids_cons. cbn [last_entry_id].
    destruct (py_startswith line "_entry.id") eqn:Hstart; [|apply IH].
    destruct (Hline Hstart) as (c & Hc & _). rewrite Hc.
    erewrite io_bind_returned; [|by rewrite second_token_spec, Hc].
    rewrite IH, last_cons. by destruct (last (entry_ids rest)).
Qed.

(** X16: the two scripts agree on the code of a template that [parse_code]
    passes: the statements of the fake script's [create_db] find the same
    code, and log it (before it is put in lower case), with a warning if it
    has not four characters. *)
Theorem entry_code_agrees_with_parse_code {libs : Libraries} (template : string)
    (s s' : state) (code : string) :
  parse_code template s = (Returned code, s') ->
  exists raw,
    code = py_lower raw /\
    entry_code template s
    = (Returned code,
       State (tree s)
             (journal s
              ++ Logged INFO [Txt "Code: "; Val raw]
              :: (if (String.length code =? 4)%nat then []
                  else [Logged WARNING [Txt "Code must have 4 characters but is ";
                                        Val code]]))).
Proof.
  intros Hrun. apply parse_code_inv in Hrun as (text & raw & Hfile & Hscan & ->).
  apply scan_entry_id_returns in Hscan as (-> & Hlines & ->).
  eexists. split; [done|]. unfold entry_code.
  erewrite io_bind_returned; [|by unfold read_text; io_unfold; rewrite Hfile].
  erewrite io_bind_returned; [|by apply last_entry_id_returns].
  destruct s as [t j]. io_unfold.
  destruct (last (entry_ids (py_lines text))) as [c|]; simpl.
  - destruct (String.length (py_lower c) =? 4)%nat; simpl; by rewrite <-?app_assoc.
  - destruct (String.length (py_lower (py_stem (path_name template))) =? 4)%nat; simpl;
      by rewrite <-?app_assoc.
Qed.

Lemma entry_code_agrees_with_parse_code_witness :
  exists raw,
    "1abc" = py_lower raw /\
    @entry_code plain "in/6XYZ.cif" (State tree_6xyz [])
    = (Returned "1abc",
       State tree_6xyz
             ([] ++ Logged INFO [Txt "Code: "; Val raw]
                 :: (if (String.length "1abc" =? 4)%nat then []
                     else [Logged WARNING [Txt "Code must have 4 characters but is ";
                                           Val "1abc"]]))).
Proof.
  apply (entry_code_agrees_with_parse_code (libs := plain) "in/6XYZ.cif"
           (State tree_6xyz []) (State tree_6xyz []) "1abc").
  by vm_compute.
Defined.

(** ** [save_seqres] *)

Lemma write_records_ok code seqs fn t c j :
  resolve t fn = Found (File c) ->
  write_records code seqs fn (State t j)
  = (Returned (),
     State (<[fn := File (c +:+ records_text code seqs)]> t)
           (j ++ records_log code seqs fn)).
Proof.
  revert t c j. induction seqs as [|[q chain] rest IH]; intros t c j Hfn.
  - simpl. unfold records_text. simpl.
    rewrite app_nil_r. f_equal. f_equal.
    destruct (path_cases fn) as [->|(p0 & x & ->)]; [done|].
    apply map_eq. intros k. rewrite lookup_insert. case_decide as Hk; [subst k|done].
    apply found_lookup in Hfn. by rewrite Hfn, append_empty_r.
  - simpl. io_unfold. unfold write_file. io_unfold. rewrite Hfn. simpl.
    erewrite IH by (by eapply resolve_insert_file).
    rewrite insert_insert_eq. unfold records_text. simpl.
    by rewrite append_assoc, <-!app_assoc.
Qed.

(** X17: the record of a chain is added at the end of [pdb_seqres.txt]: what
    the file held is kept, and nothing else in the tree changes. A file that
    is not there is made. *)
Theorem save_seqres_appends (code chain q : string) (dir : path) (s : state) :
  resolve (tree s) dir = Found Dir ->
  resolve (tree s) (dir ++ ["pdb_seqres.txt"]) ≠ Found Dir ->
  save_seqres code chain (Some q) dir s
  = (Returned (dir ++ ["pdb_seqres.txt"]),
     State (<[dir ++ ["pdb_seqres.txt"]
              := File (content_at (tree s) (dir ++ ["pdb_seqres.txt"])
                       +:+ seqres_record code chain q)]> (tree s))
           (journal s ++ [Logged INFO [Txt "Saving SEQRES for chain "; Val chain;
                                       Txt " to "; Loc (dir ++ ["pdb_seqres.txt"]);
                                       Txt "!"];
                          Logged DEBUG [Val (seqres_record code chain q)]])).
Proof.
  intros Hdir Hfn. destruct s as [t j]. simpl in *.
  unfold save_seqres.
  erewrite io_bind_returned; [|by apply open_file_ok].
  unfold content_at.
  pose proof (resolve_snoc t dir "pdb_seqres.txt") as Hs. rewrite Hdir in Hs.
  destruct (resolve t (dir ++ ["pdb_seqres.txt"])) as [[|c]| |] eqn:Hres; try done.
  - io_unfold. unfold write_file. io_unfold. rewrite Hres.
    by rewrite <-!app_assoc.
  - io_unfold. unfold write_file. io_unfold. rewrite resolve_insert_at by done.
    simpl. by rewrite insert_insert_eq, <-!app_assoc.
  - by destruct (t !! (dir ++ ["pdb_seqres.txt"])).
Qed.

Lemma save_seqres_appends_witness :
  save_seqres "2xyz" "B" (Some "KAG") ["db"; "pdb_seqres"] (State tree_db [])
  = (Returned ["db"; "pdb_seqres"; "pdb_seqres.txt"],
     State (<[ ["db"; "pdb_seqres"; "pdb_seqres.txt"]
               := File (content_at tree_db ["db"; "pdb_seqres"; "pdb_seqres.txt"]
                        +:+ seqres_record "2xyz" "B" "KAG") ]> tree_db)
           ([] ++ [Logged INFO [Txt "Saving SEQRES for chain "; Val "B"; Txt " to ";
                                Loc ["db"; "pdb_seqres"; "pdb_seqres.txt"]; Txt "!"];
                   Logged DEBUG [Val (seqres_record "2xyz" "B" "KAG")]])).
Proof.
  apply (save_seqres_appends "2xyz" "B" "KAG" ["db"; "pdb_seqres"]
           (State tree_db [])); by vm_compute.
Defined.

(** X18: without a sequence [save_seqres] raises [TypeError], and by then it
    has made [pdb_seqres.txt] if it was not there; a file that was there
    keeps its text. *)
Theorem save_seqres_without_sequence (code chain : string) (dir : path) (s : state) :
  resolve (tree s) dir = Found Dir ->
  resolve (tree s) (dir ++ ["pdb_seqres.txt"]) ≠ Found Dir ->
  save_seqres code chain None dir s
  = (Raised TypeError,
     State (<[dir ++ ["pdb_seqres.txt"]
              := File (content_at (tree s) (dir ++ ["pdb_seqres.txt"]))]> (tree s))
           (journal s)).
Proof.
  intros Hdir Hfn. destruct s as [t j]. simpl in *.
  unfold save_seqres.
  erewrite io_bind_returned; [|by apply open_file_ok].
  unfold content_at. io_unfold.
  pose proof (resolve_snoc t dir "pdb_seqres.txt") as Hs. rewrite Hdir in Hs.
  destruct (resolve t (dir ++ ["pdb_seqres.txt"])) as [[|c]| |] eqn:Hres; try done.
  apply found_lookup in Hres. by rewrite insert_id.
Qed.

Lemma save_seqres_without_sequence_witness :
  save_seqres "2xyz" "B" None ["db"; "pdb_seqres"] (State tree_new [])
  = (Raised TypeError,
     State (<[ ["db"; "pdb_seqres"; "pdb_seqres.txt"]
               := File (content_at tree_new ["db"; "pdb_seqres"; "pdb_seqres.txt"]) ]>
              tree_new) []).
Proof.
  apply (save_seqres_without_sequence "2xyz" "B" ["db"; "pdb_seqres"] (State tree_new []));
    by vm_compute.
Defined.

(** X19: [save_seqres] of the fake database starts the file again: after it
    the file holds the records of its list and nothing of what it held, and
    nothing else in the tree changes. *)
Theorem fake_save_seqres_overwrites (code : string) (seqs : list (string * string))
    (dir : path) (s : state) :
  resolve (tree s) dir = Found Dir ->
  resolve (tree s) (dir ++ ["pdb_seqres.txt"]) ≠ Found Dir ->
  fake_save_seqres code seqs dir s
  = (Returned (dir ++ ["pdb_seqres.txt"]),
     State (<[dir ++ ["pdb_seqres.txt"] := File (records_text code seqs)]> (tree s))
           (journal s ++ records_log code seqs (dir ++ ["pdb_seqres.txt"]))).
Proof.
  intros Hdir Hfn. destruct s as [t j]. simpl in *.
  unfold fake_save_seqres.
  rewrite (io_bind_returned _ _ _ _ _ (exists_eq _ _ _)).
  pose proof (resolve_snoc t dir "pdb_seqres.txt") as Hs. rewrite Hdir in Hs.
  destruct (resolve t (dir ++ ["pdb_seqres.txt"])) as [[|c]| |] eqn:Hres; try done.
  - assert (resolve (delete (dir ++ ["pdb_seqres.txt"]) t) dir = Found Dir) as Hdir'.
    { apply found_delete; [done|congruence|apply snoc_ne]. }
    unfold when. cbv beta iota.
    erewrite io_bind_returned; [|by eapply unlink_file].
    erewrite io_bind_returned;
      [|by apply open_file_ok; [|rewrite resolve_delete_at]].
    rewrite resolve_delete_at by done.
    erewrite io_bind_returned;
      [|by eapply write_records_ok, resolve_insert_at].
    by rewrite insert_insert_eq, insert_delete_eq.
  - unfold when. cbv beta iota.
    erewrite io_bind_returned; [|done].
    erewrite io_bind_returned; [|by apply open_file_ok; [|rewrite Hres]].
    rewrite Hres.
    erewrite io_bind_returned;
      [|by eapply write_records_ok, resolve_insert_at].
    by rewrite insert_insert_eq.
  - by destruct (t !! (dir ++ ["pdb_seqres.txt"])).
Qed.

Lemma fake_save_seqres_overwrites_witness :
  fake_save_seqres "2xyz" [("KAG", "B"); ("S", "C")] ["db"; "pdb_seqres"] (State tree_db [])
  = (Returned ["db"; "pdb_seqres"; "pdb_seqres.txt"],
     State (<[ ["db"; "pdb_seqres"; "pdb_seqres.txt"]
               := File (records_text "2xyz" [("KAG", "B"); ("S", "C")]) ]> tree_db)
           ([] ++ records_log "2xyz" [("KAG", "B"); ("S", "C")]
                              ["db"; "pdb_seqres"; "pdb_seqres.txt"])).
Proof.
  apply (fake_save_seqres_overwrites "2xyz" [("KAG", "B"); ("S", "C")] ["db"; "pdb_seqres"]
           (State tree_db [])); by vm_compute.
Defined.

(** ** Removing files *)

Lemma remove_listed_cons d f rest t j :
  remove_listed d (f :: rest) (State t j)
  = match resolve t (d ++ [f]) with
    | Found (File _) => remove_listed d rest (State (delete (d ++ [f]) t) j)
    | Found Dir => (Raised (IsADirectoryError (d ++ [f])), State t j)
    | _ => remove_listed d rest (State t j)
    end.
Proof.
  cbn [remove_listed]. rewrite (io_bind_returned _ _ _ _ _ (exists_eq _ _ _)).
  destruct (resolve t (d ++ [f])) as [[|c]| |] eqn:Hres; unfold when; cbv beta iota.
  - by erewrite io_bind_raised; [|by rewrite unlink_eq, Hres].
  - by erewrite io_bind_returned; [|by rewrite unlink_eq, Hres].
  - done.
  - done.
Qed.

(** What the loop over [files_to_remove] does to the tree. *)
Lemma remove_listed_effect d fs t j r s' :
  remove_listed d fs (State t j) = (r, s') ->
  journal s' = j /\
  (forall q n, resolve t q = Found n -> (forall f, f ∈ fs -> q ≠ d ++ [f]) ->
               resolve (tree s') q = Found n) /\
  (forall q, (forall f, f ∈ fs -> q ≠ d ++ [f]) -> tree s' !! q = t !! q) /\
  (forall q, t !! q = None -> tree s' !! q = None) /\
  (r = Returned () -> resolve t d = Found Dir ->
   forall f, f ∈ fs -> tree s' !! (d ++ [f]) = None).
Proof.
  revert t. induction fs as [|f0 rest IH]; intros t Hrun.
  - injection Hrun as <- <-. repeat split; try done. intros _ _ f Hf. by apply elem_of_nil in Hf.
  - rewrite remove_listed_cons in Hrun.
    destruct (resolve t (d ++ [f0])) as [[|c]| |] eqn:Hres.
    + injection Hrun as <- <-. repeat split; try done.
    + apply IH in Hrun as (Hj & Hfound & Hsame & Hnone & Hgone).
      split; [done|]. split; [|split; [|split]].
      * intros q n Hq Hne. apply Hfound.
        -- apply found_delete; [done|congruence|]. intros <-. eapply Hne; [|done]. left.
        -- intros f Hf. apply Hne. by right.
      * intros q Hne. rewrite Hsame by (intros f Hf; apply Hne; by right).
        apply lookup_delete_ne. intros <-. eapply Hne; [|done]. left.
      * intros q Hq. apply Hnone. rewrite lookup_delete. by case_decide.
      * intros -> Hd f Hf. apply elem_of_cons in Hf as [->|Hf].
        -- apply Hnone, lookup_delete_eq.
        -- apply Hgone; [done| |done].
           apply found_delete; [done|congruence|apply snoc_ne].
    + apply IH in Hrun as (Hj & Hfound & Hsame & Hnone & Hgone).
      split; [done|]. split; [|split; [|split]].
      * intros q n Hq Hne. apply Hfound; [done|]. intros f Hf. apply Hne. by right.
      * intros q Hne. apply Hsame. intros f Hf. apply Hne. by right.
      * done.
      * intros -> Hd f Hf. apply elem_of_cons in Hf as [->|Hf].
        -- by apply Hnone, missing_lookup.
        -- by apply Hgone.
    + apply IH in Hrun as (Hj & Hfound & Hsame & Hnone & Hgone).
      split; [done|]. split; [|split; [|split]].
      * intros q n Hq Hne. apply Hfound; [done|]. intros f Hf. apply Hne. by right.
      * intros q Hne. apply Hsame. intros f Hf. apply Hne. by right.
      * done.
      * intros -> Hd f Hf. rewrite resolve_snoc, Hd in Hres.
        by destruct (t !! (d ++ [f0])).
Qed.

(** Below a regular file nothing is found, and nothing is removed. *)
Lemma remove_listed_below_file d fs t j c :
  resolve t d = Found (File c) -> remove_listed d fs (State t j) = (Returned (), State t j).
Proof.
  intros Hd. induction fs as [|f rest IH]; [done|].
  rewrite remove_listed_cons, resolve_snoc, Hd. done.
Qed.

(** ** [create_dir_and_remove_files] *)

Lemma entries_empty t p : (forall x, t !! (p ++ [x]) = None) -> entries t p = [].
Proof.
  intros Hnone. apply elem_of_nil_inv. intros x Hx.
  apply elem_of_entries in Hx as [n Hn]. by rewrite Hnone in Hn.
Qed.

Lemma create_dir_makes_empty_directory_aux dir_path files_to_remove t j :
  resolve t dir_path = Missing ->
  exists t',
    create_dir_and_remove_files dir_path files_to_remove (State t j)
    = (Returned (), State t' j) /\
    forall q n, resolve t q = Found n -> resolve t' q = Found n.
Proof.
  intros Hmiss.
  destruct (path_mkdir_missing dir_path false t j Hmiss)
    as (t' & Hrun & Hdir & Hbelow & Hkeep & _).
  exists t'. split; [|done].
  unfold create_dir_and_remove_files.
  by erewrite io_bind_returned; [|by rewrite try_eq, Hrun].
Qed.

(** X20: on a path that is missing, [create_dir_and_remove_files] makes a
    directory, with the directories above it that are missing. The new
    directory is empty, nothing is logged, and every node that was found
    before is found after. *)
Theorem create_dir_makes_empty_directory (dir_path : path) (files_to_remove : list string)
    (s : state) :
  resolve (tree s) dir_path = Missing ->
  exists t',
    create_dir_and_remove_files dir_path files_to_remove s
    = (Returned (), State t' (journal s)) /\
    resolve t' dir_path = Found Dir /\
    entries t' dir_path = [] /\
    forall q n, resolve (tree s) q = Found n -> resolve t' q = Found n.
Proof.
  intros Hmiss. destruct s as [t j]. simpl in *.
  destruct (path_mkdir_missing dir_path false t j Hmiss)
    as (t' & Hrun & Hdir & Hbelow & Hkeep & _).
  exists t'. split; [|split; [done|split; [|done]]].
  - unfold create_dir_and_remove_files.
    by erewrite io_bind_returned; [|by rewrite try_eq, Hrun].
  - apply entries_empty. intros x. apply Hbelow; [by apply prefix_app_r|apply snoc_ne].
Qed.

Lemma create_dir_makes_empty_directory_witness :
  exists t',
    create_dir_and_remove_files ["db"; "pdb_mmcif"; "mmcif_files"] ["pdb_seqres.txt"]
                                (State tree_new [])
    = (Returned (), State t' []) /\
    resolve t' ["db"; "pdb_mmcif"; "mmcif_files"] = Found Dir /\
    entries t' ["db"; "pdb_mmcif"; "mmcif_files"] = [] /\
    forall q n, resolve tree_new q = Found n -> resolve t' q = Found n.
Proof.
  apply (create_dir_makes_empty_directory ["db"; "pdb_mmcif"; "mmcif_files"]
           ["pdb_seqres.txt"] (State tree_new [])).
  by vm_compute.
Defined.

(** X21: where the path is a regular file, [create_dir_and_remove_files]
    takes it for the directory: it logs that the path exists, finds none of
    the files to remove, and returns with the tree as it was. *)
Theorem create_dir_passes_regular_file (dir_path : path) (files_to_remove : list string)
    (content : string) (s : state) :
  resolve (tree s) dir_path = Found (File content) ->
  create_dir_and_remove_files dir_path files_to_remove s
  = (Returned (),
     State (tree s)
           (journal s ++ [Logged INFO [Loc dir_path; Txt " already exists!"];
                          Logged INFO [Txt "The existing database will be overwritten!"]])).
Proof.
  intros Hfile. destruct s as [t j]. simpl in *.
  unfold create_dir_and_remove_files.
  erewrite io_bind_returned; [|by rewrite try_eq, (path_mkdir_found _ _ _ _ _ Hfile)].
  simpl. io_unfold. rewrite (remove_listed_below_file _ _ _ _ content) by done.
  by rewrite <-app_assoc.
Qed.

Lemma create_dir_passes_regular_file_witness :
  create_dir_and_remove_files ["db"; "pdb_seqres"; "pdb_seqres.txt"] ["x"] (State tree_db [])
  = (Returned (),
     State tree_db
           ([] ++ [Logged INFO [Loc ["db"; "pdb_seqres"; "pdb_seqres.txt"];
                                Txt " already exists!"];
                   Logged INFO [Txt "The existing database will be overwritten!"]])).
Proof.
  apply (create_dir_passes_regular_file ["db"; "pdb_seqres"; "pdb_seqres.txt"] ["x"]
           (seqres_record "1abc" "A" "GS") (State tree_db [])).
  by vm_compute.
Defined.

Lemma create_dir_existing dir_path files_to_remove t j n :
  resolve t dir_path = Found n ->
  create_dir_and_remove_files dir_path files_to_remove (State t j)
  = remove_listed dir_path files_to_remove
      (State t (j ++ [Logged INFO [Loc dir_path; Txt " already exists!"];
                      Logged INFO [Txt "The existing database will be overwritten!"]])).
Proof.
  intros Hn. unfold create_dir_and_remove_files.
  erewrite io_bind_returned; [|by rewrite try_eq, (path_mkdir_found _ _ _ _ _ Hn)].
  simpl. io_unfold. by rewrite <-app_assoc.
Qed.

(** X22: in a directory that is there, [create_dir_and_remove_files] removes
    the listed files and nothing else: when it returns, no listed name is
    left in the directory, and every other path holds what it held. *)
Theorem create_dir_removes_listed_files (dir_path : path) (files_to_remove : list string)
    (s s' : state) :
  resolve (tree s) dir_path = Found Dir ->
  create_dir_and_remove_files dir_path files_to_remove s = (Returned (), s') ->
  (forall f, f ∈ files_to_remove -> resolve (tree s') (dir_path ++ [f]) = Missing) /\
  (forall q, (forall f, f ∈ files_to_remove -> q ≠ dir_path ++ [f]) ->
             tree s' !! q = tree s !! q).
Proof.
  intros Hdir Hrun. destruct s as [t j]. simpl in *.
  rewrite (create_dir_existing _ _ _ _ _ Hdir) in Hrun.
  apply remove_listed_effect in Hrun as (_ & Hfound & Hsame & _ & Hgone).
  split; [|done]. intros f Hf.
  rewrite resolve_snoc, (Hfound dir_path Dir), Hgone; try done.
  intros f' _. symmetry. apply snoc_ne.
Qed.

Lemma create_dir_removes_listed_files_witness :
  (forall f, f ∈ ["pdb_seqres.txt"; "absent"] ->
             resolve (delete ["db"; "pdb_seqres"; "pdb_seqres.txt"] tree_db)
                     (["db"; "pdb_seqres"] ++ [f]) = Missing) /\
  (forall q, (forall f, f ∈ ["pdb_seqres.txt"; "absent"] -> q ≠ ["db"; "pdb_seqres"] ++ [f]) ->
             delete ["db"; "pdb_seqres"; "pdb_seqres.txt"] tree_db !! q = tree_db !! q).
Proof.
  refine (create_dir_removes_listed_files ["db"; "pdb_seqres"] ["pdb_seqres.txt"; "absent"]
            (State tree_db [])
            (State (delete ["db"; "pdb_seqres"; "pdb_seqres.txt"] tree_db)
                   [Logged INFO [Loc ["db"; "pdb_seqres"]; Txt " already exists!"];
                    Logged INFO [Txt "The existing database will be overwritten!"]]) _ _);
    by vm_compute.
Defined.

Lemma create_dir_effect dir_path files_to_remove t j r s' :
  create_dir_and_remove_files dir_path files_to_remove (State t j) = (r, s') ->
  forall q n, resolve t q = Found n ->
              (forall f, f ∈ files_to_remove -> q ≠ dir_path ++ [f]) ->
              resolve (tree s') q = Found n.
Proof.
  intros Hrun q n Hq Hne.
  destruct (resolve t dir_path) as [m| |] eqn:Hres.
  - rewrite (create_dir_existing _ _ _ _ _ Hres) in Hrun.
    apply remove_listed_effect in Hrun as (_ & Hfound & _). by apply Hfound.
  - destruct (create_dir_makes_empty_directory_aux dir_path files_to_remove t j Hres)
      as (t' & Hrun' & Hkeep).
    rewrite Hrun' in Hrun. injection Hrun as _ <-. by apply Hkeep.
  - unfold create_dir_and_remove_files in Hrun.
    erewrite io_bind_returned in Hrun; [|by rewrite try_eq, (path_mkdir_notdir _ _ _ _ Hres)].
    simpl in Hrun. injection Hrun as _ <-. done.
Qed.

(** ** [create_tree] *)

Section Tree.

Context {libs : Libraries}.

Lemma listdir_eq p t j :
  listdir p (State t j)
  = match resolve t p with
    | Found Dir => (Returned (listing_order (entries t p)), State t j)
    | Found (File _) => (Raised (NotADirectoryError p), State t j)
    | Missing => (Raised (FileNotFoundError p), State t j)
    | NotDir => (Raised (NotADirectoryError p), State t j)
    end.
Proof. done. Qed.

Lemma elem_of_listing x t p :
  x ∈ listing_order (entries t p) <-> is_Some (t !! (p ++ [x])).
Proof. by rewrite listing_order_perm, elem_of_entries. Qed.

Lemma files_to_remove_listed (there : bool) p t j r s1 :
  (if there then listdir p else mret []) (State t j) = (r, s1) ->
  s1 = State t j /\
  forall files, r = Returned files -> forall x, x ∈ files -> is_Some (t !! (p ++ [x])).
Proof.
  destruct there.
  - rewrite listdir_eq. destruct (resolve t p) as [[|c]| |]; intros [= <- <-];
      (split; [done|]); intros files [= <-]. intros x. by rewrite elem_of_listing.
  - intros [= <- <-]. split; [done|]. intros files [= <-] x Hx. by apply elem_of_nil in Hx.
Qed.

End Tree.

(** X23: [create_tree] leaves files of an earlier run in [mmcif_dir]. The
    names it removes there are those of the entries of [pdb_mmcif_dir], the
    directory above: whatever the outcome, a file of [mmcif_dir] whose name
    is not the name of an entry of [pdb_mmcif_dir] is still there
    afterwards, with the text it had. *)
Theorem create_tree_keeps_stale_files {libs : Libraries}
    (pdb_mmcif_dir mmcif_dir seqres_dir templates_dir : path) (name : string) (n : node)
    (s s' : state) (r : outcome unit) :
  create_tree pdb_mmcif_dir mmcif_dir seqres_dir templates_dir s = (r, s') ->
  resolve (tree s) (mmcif_dir ++ [name]) = Found n ->
  tree s !! (pdb_mmcif_dir ++ [name]) = None ->
  mmcif_dir ++ [name] ≠ seqres_dir ++ ["pdb_seqres.txt"] ->
  resolve (tree s') (mmcif_dir ++ [name]) = Found n.
Proof.
  intros Hrun Hfile Hname Hne. destruct s as [t j]. simpl in *.
  unfold create_tree in Hrun.
  rewrite (io_bind_returned _ _ _ _ _ (exists_eq _ _ _)) in Hrun.
  apply io_bind_inv in Hrun as [(files & s1 & Hlist & Hrun)|(e & Hlist & _)]; cycle 1.
  { by apply files_to_remove_listed in Hlist as [-> _]. }
  apply files_to_remove_listed in Hlist as [-> Hfiles].
  assert (name ∉ files) as Hout.
  { intros Hin. apply (Hfiles files eq_refl) in Hin as [? Hin]. congruence. }
  apply io_bind_inv in Hrun as [([] & [t2 j2] & Hmm & Hrun)|(e & Hmm & _)]; cycle 1.
  { eapply create_dir_effect in Hmm; [done..|].
    intros f Hf Heq. apply app_inj_tail in Heq as [_ <-]. done. }
  eapply create_dir_effect in Hmm; [|done|]; cycle 1.
  { intros f Hf Heq. apply app_inj_tail in Heq as [_ <-]. done. }
  simpl in Hmm.
  apply io_bind_inv in Hrun as [([] & [t3 j3] & Htp & Hrun)|(e & Htp & _)]; cycle 1.
  { eapply create_dir_effect in Htp; [done..|]. intros f Hf. by apply elem_of_nil in Hf. }
  eapply create_dir_effect in Htp; [|done|by intros f Hf%elem_of_nil]. simpl in Htp.
  apply io_bind_inv in Hrun as [([] & [t4 j4] & Hobs & Hrun)|(e & Hobs & _)]; cycle 1.
  { apply open_file_append_effect in Hobs as (_ & Hobs & _). by apply Hobs. }
  apply open_file_append_effect in Hobs as (_ & Hobs & _). apply Hobs in Htp. simpl in Htp.
  eapply create_dir_effect in Hrun; [done..|].
  intros f Hf. apply list_elem_of_singleton in Hf as ->. done.
Qed.

Lemma create_tree_keeps_stale_files_witness :
  resolve (tree (@create_tree plain ["db"; "pdb_mmcif"] ["db"; "pdb_mmcif"; "mmcif_files"]
                   ["db"; "pdb_seqres"] ["db"; "templates"] (State tree_old_db [])).2)
          (["db"; "pdb_mmcif"; "mmcif_files"] ++ ["1abc.cif"])
  = Found (File "data_1abc").
Proof.
  refine (create_tree_keeps_stale_files (libs := plain)
            ["db"; "pdb_mmcif"] ["db"; "pdb_mmcif"; "mmcif_files"]
            ["db"; "pdb_seqres"] ["db"; "templates"] "1abc.cif" (File "data_1abc")
            (State tree_old_db [])
            (@create_tree plain ["db"; "pdb_mmcif"] ["db"; "pdb_mmcif"; "mmcif_files"]
               ["db"; "pdb_seqres"] ["db"; "templates"] (State tree_old_db [])).2
            (@create_tree plain ["db"; "pdb_mmcif"] ["db"; "pdb_mmcif"; "mmcif_files"]
               ["db"; "pdb_seqres"] ["db"; "templates"] (State tree_old_db [])).1
            _ _ _ _).
  - vm_compute. reflexivity.
  - vm_compute. reflexivity.
  - vm_compute. reflexivity.
  - discriminate.
Defined.

(** ** The directories of the fake database *)

Lemma remove_all_effect d fs t j s' :
  remove_all d fs (State t j) = (Returned (), s') ->
  (forall f, f ∈ fs -> tree s' !! (d ++ [f]) = None) /\
  (forall q, t !! q = None -> tree s' !! q = None).
Proof.
  revert t. induction fs as [|f0 rest IH]; intros t Hrun.
  - injection Hrun as <-. split; [|done]. intros f Hf. by apply elem_of_nil in Hf.
  - cbn [remove_all] in Hrun.
    apply io_bind_inv in Hrun as [([] & s1 & Hrm & Hrun)|(e & _ & ?)]; [|done].
    rewrite unlink_eq in Hrm. destruct (resolve t (d ++ [f0])) as [[|c]| |]; try done.
    injection Hrm as <-. apply IH in Hrun as [Hgone Hnone]. split.
    + intros f Hf. apply elem_of_cons in Hf as [->|Hf]; [|by apply Hgone].
      apply Hnone, lookup_delete_eq.
    + intros q Hq. apply Hnone. rewrite lookup_delete. by case_decide.
Qed.

Lemma prepare_dirs_unlinks {libs : Libraries}
    (pdb_mmcif_dir mmcif_dir seqres_dir : path) (s s' : state) :
  resolve (tree s) mmcif_dir = Found Dir ->
  ¬ mmcif_dir `prefix_of` seqres_dir ->
  prepare_dirs pdb_mmcif_dir mmcif_dir seqres_dir s = (Returned (), s') ->
  forall x, tree s' !! (mmcif_dir ++ [x]) = None.
Proof.
  intros Hdir Hsep Hrun x. destruct s as [t j]. simpl in *.
  unfold prepare_dirs in Hrun.
  assert (try (path_mkdir mmcif_dir true false;;
               open_file Append (pdb_mmcif_dir ++ ["obsolete.dat"])) (State t j)
          = (Returned (Raised (FileExistsError mmcif_dir)), State t j)) as Htry.
  { rewrite try_eq. erewrite io_bind_raised; [done|].
    by rewrite (path_mkdir_found _ _ _ _ _ Hdir). }
  rewrite (io_bind_returned _ _ _ _ _ Htry) in Hrun.
  apply io_bind_inv in Hrun as [([] & [t1 j1] & Hclear & Hrun)|(e & _ & ?)]; [|done].
  assert (t1 !! (mmcif_dir ++ [x]) = None) as Hx.
  { io_unfold. rewrite listdir_eq, Hdir in Hclear. simpl in Hclear.
    destruct (0 <? length (listing_order (entries t mmcif_dir)))%nat eqn:Hlen.
    - apply remove_all_effect in Hclear as [Hgone Hnone]. simpl in *.
      destruct (t !! (mmcif_dir ++ [x])) as [n|] eqn:Hn; [|by apply Hnone].
      apply Hgone, elem_of_listing. by rewrite Hn.
    - injection Hclear as <- _. apply Nat.ltb_ge in Hlen.
      destruct (t !! (mmcif_dir ++ [x])) as [n|] eqn:Hn; [|done].
      assert (x ∈ listing_order (entries t mmcif_dir)) as Hin.
      { apply elem_of_listing. by rewrite Hn. }
      destruct (listing_order (entries t mmcif_dir)); [by apply elem_of_nil in Hin|].
      simpl in Hlen. lia. }
  assert (¬ (mmcif_dir ++ [x]) `prefix_of` seqres_dir) as Hsep'.
  { intros Hpre. apply Hsep. etrans; [|done]. by apply prefix_app_r. }
  destruct (resolve t1 seqres_dir) as [n| |] eqn:Hsq.
  - erewrite io_bind_returned in Hrun; [|by rewrite try_eq, (path_mkdir_found _ _ _ _ _ Hsq)].
    cbn [fst snd andb] in Hrun. io_unfold.
    destruct (resolve t1 (seqres_dir ++ ["pdb_seqres.txt"])) as [[|c]| |] eqn:Hfile;
      simpl in Hrun; rewrite ?unlink_eq in Hrun; simpl in Hrun; rewrite ?Hfile in Hrun;
      try done; injection Hrun as <-; simpl; try done.
    rewrite lookup_delete. by case_decide.
  - destruct (path_mkdir_missing seqres_dir false t1 j1 Hsq)
      as (t' & Hmk & _ & _ & _ & Hout).
    erewrite io_bind_returned in Hrun; [|by rewrite try_eq, Hmk].
    injection Hrun as <-. simpl. by destruct (Hout _ Hsep') as [->| ->].
  - erewrite io_bind_returned in Hrun; [|by rewrite try_eq, (path_mkdir_notdir _ _ _ _ Hsq)].
    done.
Qed.

(** X24: the fake script does clear [mmcif_dir]: if the directory is there
    and the preparation of the directories returns, the directory has no
    entry left. (A sub-directory in it makes the preparation raise.) *)
Theorem prepare_dirs_empties_mmcif_dir {libs : Libraries}
    (pdb_mmcif_dir mmcif_dir seqres_dir : path) (s s' : state) :
  resolve (tree s) mmcif_dir = Found Dir ->
  ¬ mmcif_dir `prefix_of` seqres_dir ->
  prepare_dirs pdb_mmcif_dir mmcif_dir seqres_dir s = (Returned (), s') ->
  entries (tree s') mmcif_dir = [].
Proof.
  intros Hdir Hsep Hrun. apply entries_empty. intros x.
  by eapply prepare_dirs_unlinks.
Qed.

Lemma prepare_dirs_empties_mmcif_dir_witness :
  entries (tree (@prepare_dirs plain ["db"; "pdb_mmcif"] ["db"; "pdb_mmcif"; "mmcif_files"]
                   ["db"; "pdb_seqres"] (State tree_old_db [])).2)
          ["db"; "pdb_mmcif"; "mmcif_files"]
  = [].
Proof.
  refine (prepare_dirs_empties_mmcif_dir (libs := plain)
            ["db"; "pdb_mmcif"] ["db"; "pdb_mmcif"; "mmcif_files"] ["db"; "pdb_seqres"]
            (State tree_old_db [])
            (@prepare_dirs plain ["db"; "pdb_mmcif"] ["db"; "pdb_mmcif"; "mmcif_files"]
               ["db"; "pdb_seqres"] (State tree_old_db [])).2 _ _ _).
  - vm_compute. reflexivity.
  - apply (bool_decide_unpack _). vm_compute. exact I.
  - vm_compute. reflexivity.
Defined.

(** ** [extract_seqs] *)

Lemma chain_seq_cons chain_id record rest :
  chain_seq chain_id (record :: rest)
  = match chain_seq chain_id rest with
    | Some q => Some q
    | None => if bool_decide (rec_chain record = Some chain_id)
              then Some (rec_seq record) else None
    end.
Proof.
  unfold chain_seq. rewrite filter_cons. case_bool_decide as Hc.
  - rewrite decide_True by done. rewrite fmap_cons, last_cons.
    by destruct (last _).
  - rewrite decide_False by done. by destruct (last _).
Qed.

Section Parsing.

Context {libs : Libraries}.

Lemma scan_records_atom format_type chain_id records atom seqres s :
  py_endswith format_type "atom" = true ->
  Forall (fun record => is_Some (rec_chain record)) records ->
  scan_records format_type chain_id records (atom, seqres) s
  = (Returned (match chain_seq chain_id records with
               | Some q => Some q
               | None => atom
               end, seqres), s).
Proof.
  intros Hfmt Hall. revert atom.
  induction Hall as [|record rest [c Hc] _ IH]; intros atom; [done|].
  cbn [scan_records]. rewrite Hc, chain_seq_cons. io_unfold. rewrite Hfmt.
  destruct (String.eqb_spec c chain_id) as [->|Hne]; simpl; rewrite IH.
  - rewrite bool_decide_eq_true_2 by done. by destruct (chain_seq chain_id rest).
  - rewrite bool_decide_eq_false_2 by congruence. by destruct (chain_seq chain_id rest).
Qed.

Lemma scan_records_seqres format_type chain_id records atom seqres s :
  py_endswith format_type "atom" = false ->
  py_endswith format_type "seqres" = true ->
  Forall (fun record => is_Some (rec_chain record)) records ->
  scan_records format_type chain_id records (atom, seqres) s
  = (Returned (atom, match chain_seq chain_id records with
                     | Some q => Some q
                     | None => seqres
                     end), s).
Proof.
  intros Hfmt Hfmt' Hall. revert seqres.
  induction Hall as [|record rest [c Hc] _ IH]; intros seqres; [done|].
  cbn [scan_records]. rewrite Hc, chain_seq_cons. io_unfold. rewrite Hfmt, Hfmt'.
  destruct (String.eqb_spec c chain_id) as [->|Hne]; simpl; rewrite IH.
  - rewrite bool_decide_eq_true_2 by done. by destruct (chain_seq chain_id rest).
  - rewrite bool_decide_eq_false_2 by congruence. by destruct (chain_seq chain_id rest).
Qed.

Lemma consult_eq {A} e p (f : resolution -> A) t j :
  consult e p f (State t j) = (Returned (f (resolve t p)), State t (j ++ [e])).
Proof. done. Qed.

End Parsing.

(** X25: [extract_seqs] reads the template twice, for its ATOM and for its
    SEQRES records, and of the records of the chain the last one counts in
    each: a chain that occurs more than once is not reported, and a chain
    that does not occur gives [None] with a log record and no exception. *)
Theorem extract_seqs_last_record_wins {libs : Libraries} (template : path)
    (chain_id kind : string) (atoms seqres : list seq_record) (s : state) :
  kind = "pdb" \/ kind = "cif" ->
  py_lower (py_suffix (default "" (last template))) = "." +:+ kind ->
  SeqIO_parse (resolve (tree s) template) (kind +:+ "-atom") = (atoms, None) ->
  SeqIO_parse (resolve (tree s) template) (kind +:+ "-seqres") = (seqres, None) ->
  Forall (fun record => is_Some (rec_chain record)) (atoms ++ seqres) ->
  extract_seqs template chain_id s
  = (Returned (chain_seq chain_id atoms, chain_seq chain_id seqres),
     State (tree s)
           (journal s
            ++ [Parsed template (kind +:+ "-atom"); Parsed template (kind +:+ "-seqres")]
            ++ match chain_seq chain_id atoms with
               | Some _ => []
               | None => [Logged ERROR [Txt "No atom sequence found for chain ";
                                        Val chain_id]]
               end
            ++ match chain_seq chain_id seqres with
               | Some _ => []
               | None => [Logged WARNING [Txt "No SEQRES sequence found for chain ";
                                          Val chain_id]]
               end)).
Proof.
  intros Hkind Hsuffix Hatoms Hseqres Hall. apply Forall_app in Hall as [Ha Hs].
  destruct s as [t j]. simpl in *. unfold extract_seqs. rewrite Hsuffix.
  assert (negb (String.eqb ("." +:+ kind) ".pdb") && negb (String.eqb ("." +:+ kind) ".cif")
          = false) as ->.
  { by destruct Hkind as [-> | ->]. }
  assert (String.substring 1 (String.length ("." +:+ kind) - 1) ("." +:+ kind) = kind) as ->.
  { by destruct Hkind as [-> | ->]. }
  assert (py_endswith (kind +:+ "-atom") "atom" = true) as Hfmt1.
  { by destruct Hkind as [-> | ->]. }
  assert (py_endswith (kind +:+ "-seqres") "atom" = false) as Hfmt2.
  { by destruct Hkind as [-> | ->]. }
  assert (py_endswith (kind +:+ "-seqres") "seqres" = true) as Hfmt3.
  { by destruct Hkind as [-> | ->]. }
  cbn [scan_formats].
  erewrite io_bind_returned; cycle 1.
  { rewrite (io_bind_returned _ _ _ _ _ (consult_eq _ _ _ _ _)), Hatoms. cbn [fst snd].
    rewrite (io_bind_returned _ _ _ _ _ (scan_records_atom _ _ _ _ _ _ Hfmt1 Ha)).
    rewrite (io_bind_returned _ _ _ _ _ (consult_eq _ _ _ _ _)). cbn [tree].
    rewrite Hseqres. cbn [fst snd].
    rewrite (io_bind_returned _ _ _ _ _ (scan_records_seqres _ _ _ _ _ _ Hfmt2 Hfmt3 Hs)).
    done. }
  io_unfold.
  destruct (chain_seq chain_id atoms), (chain_seq chain_id seqres); simpl;
    by rewrite <-?app_assoc.
Qed.

Lemma extract_seqs_last_record_wins_witness :
  @extract_seqs two_chains ["in"; "7abc.PDB"] "A" (State tree_upper [])
  = (Returned (Some "GSA", None),
     State tree_upper
           [Parsed ["in"; "7abc.PDB"] "pdb-atom"; Parsed ["in"; "7abc.PDB"] "pdb-seqres";
            Logged WARNING [Txt "No SEQRES sequence found for chain "; Val "A"]]).
Proof.
  refine (extract_seqs_last_record_wins (libs := two_chains) ["in"; "7abc.PDB"] "A" "pdb"
            [SeqRecord "7abc:A" (Some "A") "GS"; SeqRecord "7abc:B" (Some "B") "KK";
             SeqRecord "7abc:A" (Some "A") "GSA"]
            [SeqRecord "7abc:B" (Some "B") "KKG"]
            (State tree_upper []) _ _ _ _ _); try by vm_compute.
  - by left.
  - repeat constructor; by eexists.
Defined.

(** ** [extract_seqs_from_cif] *)

Lemma seqres_of_chain_eq chain_id records seqs t j :
  seqres_of_chain chain_id records seqs (State t j)
  = (Returned (seqs ++ seqres_seqs chain_id records),
     State t (j ++ skipped chain_id (rec_id <$> records))).
Proof.
  revert seqs j. induction records as [|record rest IH]; intros seqs j.
  - simpl. by rewrite !app_nil_r.
  - cbn [seqres_of_chain]. unfold seqres_seqs, skipped.
    rewrite fmap_cons, !filter_cons.
    destruct (String.eqb_spec (rec_id record) chain_id) as [Heq|Hne]; cbn [negb].
    + rewrite IH, decide_True, decide_False by (done || by intros ?).
      by rewrite fmap_cons, <-app_assoc.
    + io_unfold. rewrite IH, decide_False, decide_True by done.
      by rewrite fmap_cons, <-app_assoc.
Qed.

Section Atoms.

Context {libs : Libraries}.

Lemma one_letter_codes_eq residues seq_chain t j :
  one_letter_codes residues seq_chain (State t j)
  = (Returned (seq_chain +:+ join (omap three_to_one residues)),
     State t (j ++ unconverted residues)).
Proof.
  revert seq_chain j. induction residues as [|resname rest IH]; intros seq_chain j.
  - simpl. unfold join, unconverted. simpl. by rewrite app_nil_r, append_empty_r.
  - cbn [one_letter_codes omap list_omap]. unfold unconverted. rewrite filter_cons.
    destruct (three_to_one resname) as [l|] eqn:Hl.
    + rewrite IH. destruct (decide (Some l = None)) as [?|_]; [done|].
      unfold join. simpl. by rewrite append_assoc.
    + io_unfold. rewrite IH. by rewrite <-app_assoc.
Qed.

Lemma atoms_of_chain_eq chain_id chains seqs t j :
  atoms_of_chain chain_id chains seqs (State t j)
  = (Returned (seqs ++ atom_seqs chain_id [chains]),
     State t (j ++ atoms_log chain_id [chains])).
Proof.
  revert seqs j. induction chains as [|c rest IH]; intros seqs j.
  - simpl. by rewrite !app_nil_r.
  - cbn [atoms_of_chain]. unfold atom_seqs, atoms_log in *. simpl concat in *.
    rewrite app_nil_r in *. rewrite filter_cons, bind_cons.
    destruct (String.eqb_spec (chain_id_of c) chain_id) as [Heq|Hne]; cbn [negb].
    + rewrite (io_bind_returned _ _ _ _ _ (one_letter_codes_eq _ _ _ _)).
      rewrite IH. destruct (decide (chain_id_of c = chain_id)) as [_|?]; [|done].
      rewrite bool_decide_eq_true_2 by done.
      by rewrite fmap_cons, <-!app_assoc.
    + io_unfold. rewrite IH. destruct (decide (chain_id_of c = chain_id)) as [?|_]; [done|].
      rewrite bool_decide_eq_false_2 by done.
      by rewrite <-app_assoc.
Qed.

Lemma atoms_of_models_eq chain_id (models : structure) seqs t j :
  atoms_of_models chain_id models seqs (State t j)
  = (Returned (seqs ++ atom_seqs chain_id models),
     State t (j ++ atoms_log chain_id models)).
Proof.
  revert seqs j. induction models as [|model rest IH]; intros seqs j.
  - simpl. by rewrite !app_nil_r.
  - cbn [atoms_of_models].
    rewrite (io_bind_returned _ _ _ _ _ (atoms_of_chain_eq _ _ _ _ _)), IH.
    unfold atom_seqs, atoms_log. simpl concat.
    by rewrite app_nil_r, filter_app, fmap_app, bind_app, <-!app_assoc.
Qed.

End Atoms.

(** X26: with a SEQRES record for the chain, [extract_seqs_from_cif] returns
    the SEQRES records of the chain, in the order of the file, and does not
    parse the structure. *)
Theorem extract_seqs_from_cif_prefers_seqres {libs : Libraries} (file_path : path)
    (chain_id : string) (records : list seq_record) (s : state) :
  SeqIO_parse (resolve (tree s) file_path) "cif-seqres" = (records, None) ->
  seqres_seqs chain_id records ≠ [] ->
  extract_seqs_from_cif file_path chain_id s
  = (Returned (seqres_seqs chain_id records),
     State (tree s)
           (journal s ++ Parsed file_path "cif-seqres"
                         :: skipped chain_id (rec_id <$> records))).
Proof.
  intros Hparse Hsome. destruct s as [t j]. simpl in *. unfold extract_seqs_from_cif.
  rewrite (io_bind_returned _ _ _ _ _ (consult_eq _ _ _ _ _)), Hparse. cbn [fst snd].
  rewrite (io_bind_returned _ _ _ _ _ (seqres_of_chain_eq _ _ _ _ _)).
  io_unfold. destruct (seqres_seqs chain_id records) as [|seq rest]; [done|].
  simpl. by rewrite <-app_assoc.
Qed.

Lemma extract_seqs_from_cif_prefers_seqres_witness :
  @extract_seqs_from_cif with_seqres ["db"; "templates"; "1abc.cif"] "B"
     (State tree_old_db [])
  = (Returned [("KK", "B")],
     State tree_old_db
           [Parsed ["db"; "templates"; "1abc.cif"] "cif-seqres";
            Logged INFO [Txt "Skipping chain "; Val "A"]]).
Proof.
  refine (extract_seqs_from_cif_prefers_seqres (libs := with_seqres)
            ["db"; "templates"; "1abc.cif"] "B"
            [SeqRecord "A" None "GSK"; SeqRecord "B" None "KK"]
            (State tree_old_db []) _ _); by vm_compute.
Defined.

(** X27: without a SEQRES record for the chain, the sequences come from
    the residues of the structure: one tuple for each chain of that id in
    each model, and in it the residues that have a one-letter code.  A
    residue without one is left out of the sequence, and a warning is
    logged for it; a chain of another id is logged as passed over. *)
Theorem extract_seqs_from_cif_falls_back_to_atoms {libs : Libraries} (file_path : path)
    (chain_id : string) (records : list seq_record) (struct : structure) (s : state) :
  SeqIO_parse (resolve (tree s) file_path) "cif-seqres" = (records, None) ->
  seqres_seqs chain_id records = [] ->
  get_structure (resolve (tree s) file_path) = Returned struct ->
  extract_seqs_from_cif file_path chain_id s
  = (Returned (atom_seqs chain_id struct),
     State (tree s)
           (journal s
            ++ Parsed file_path "cif-seqres" :: skipped chain_id (rec_id <$> records)
            ++ [Logged INFO [Txt "No SEQRES records found in "; Loc file_path;
                             Txt "! Parsing from atoms!"];
                Structured file_path]
            ++ atoms_log chain_id struct)).
Proof.
  intros Hparse Hnone Hstruct. destruct s as [t j]. simpl in *.
  unfold extract_seqs_from_cif.
  rewrite (io_bind_returned _ _ _ _ _ (consult_eq _ _ _ _ _)), Hparse. cbn [fst snd].
  rewrite (io_bind_returned _ _ _ _ _ (seqres_of_chain_eq _ _ _ _ _)), Hnone.
  io_unfold. rewrite Hstruct. simpl.
  rewrite atoms_of_models_eq. simpl. by rewrite <-!app_assoc.
Qed.

Lemma extract_seqs_from_cif_falls_back_to_atoms_witness :
  @extract_seqs_from_cif atoms_only ["db"; "templates"; "1abc.cif"] "A"
     (State tree_old_db [])
  = (Returned [("GS", "A"); ("G", "A")],
     State tree_old_db
           [Parsed ["db"; "templates"; "1abc.cif"] "cif-seqres";
            Logged INFO [Txt "Skipping chain "; Val "B"];
            Logged INFO [Txt "No SEQRES records found in ";
                         Loc ["db"; "templates"; "1abc.cif"];
                         Txt "! Parsing from atoms!"];
            Structured ["db"; "templates"; "1abc.cif"];
            Logged WARNING [Txt "Cannot convert "; Val "HOH";
                            Txt " to one letter code!"];
            Logged INFO [Txt "Skipping chain "; Val "B"]]).
Proof.
  refine (extract_seqs_from_cif_falls_back_to_atoms (libs := atoms_only)
            ["db"; "templates"; "1abc.cif"] "A"
            [SeqRecord "B" None "KK"] two_models
            (State tree_old_db []) _ _ _).
  - vm_compute. reflexivity.
  - vm_compute. reflexivity.
  - vm_compute. reflexivity.
Defined.

(** ** [save_cif] *)

Section Cif.

Context {libs : Libraries}.

Lemma try_rewrite_eq e f t j :
  try (rewrite e f) (State t j) = (Returned (f t).1, State (f t).2 (j ++ [e])).
Proof. unfold rewrite, run_on_tree. io_unfold. by destruct (f t). Qed.

Lemma validation_logged cif_fn (checked : outcome unit) t j r s1 :
  match checked with
  | Returned _ => logging INFO [Txt "Validated and fixed "; Loc cif_fn; Txt "!"]
  | Raised e =>
      if is_Exception e
      then logging WARNING [Txt "Exception: "; Exc e;
                            Txt "Cannot validate and fix "; Loc cif_fn; Txt "!"]
      else throw e
  end (State t j) = (r, s1) ->
  tree s1 = t /\ (exists j', journal s1 = j ++ j') /\
  (r = Returned () \/ exists status, checked = Raised (SystemExit status)).
Proof.
  destruct checked as [[]|e]; [|destruct e]; simpl; io_unfold; intros [= <- <-];
    (split; [done|]); (split; [by (eexists; done) || by exists []; rewrite app_nil_r|]);
    eauto.
Qed.

Lemma validation_passes cif_fn (checked : outcome unit) t j :
  (forall status, checked ≠ Raised (SystemExit status)) ->
  exists j',
    match checked with
    | Returned _ => logging INFO [Txt "Validated and fixed "; Loc cif_fn; Txt "!"]
    | Raised e =>
        if is_Exception e
        then logging WARNING [Txt "Exception: "; Exc e;
                              Txt "Cannot validate and fix "; Loc cif_fn; Txt "!"]
        else throw e
    end (State t j) = (Returned (), State t (j ++ j')).
Proof.
  intros Hexit. destruct checked as [[]|e]; [|destruct e]; simpl; io_unfold;
    try (by eexists); by edestruct Hexit.
Qed.

End Cif.

(** X28: what [save_cif] returns is the place of a copy of the template as
    the validation has left it. Neither the structure that was parsed nor
    the chain that was asked for enters the file, and the template is not at
    the place of the copy. *)
Theorem save_cif_copies_validated_file {libs : Libraries} (cif_fn : path)
    (code chain_id : string) (dir : path) (s : state) (out_path : path) (s' : state) :
  save_cif cif_fn code chain_id dir s = (Returned out_path, s') ->
  out_path = dir ++ [code +:+ ".cif"] /\
  cif_fn ≠ out_path /\
  exists content,
    resolve (validate_and_fix_mmcif cif_fn (tree s)).2 cif_fn = Found (File content) /\
    tree s' = <[out_path := File content]> (validate_and_fix_mmcif cif_fn (tree s)).2.
Proof.
  destruct s as [t j]. simpl. unfold save_cif. intros Hrun.
  rewrite (io_bind_returned _ _ _ _ _ (try_rewrite_eq _ _ _ _)) in Hrun.
  apply io_bind_inv in Hrun as [([] & [t1 j1] & Hlog & Hrun)|(e & _ & ?)]; [|done].
  apply validation_logged in Hlog as (Htree & _ & _). simpl in Htree. subst t1.
  rewrite (io_bind_returned _ _ _ _ _ (consult_eq _ _ _ _ _)) in Hrun.
  destruct (get_structure _) as [struct|e]; [|done].
  apply io_bind_inv in Hrun as [(struct' & s2 & [= <- <-] & Hrun)|(e & _ & ?)]; [|done].
  apply io_bind_inv in Hrun as [([] & s3 & Hmodels & Hrun)|(e & _ & ?)]; [|done].
  destruct (1 <? length struct)%nat; [done|]. injection Hmodels as <-.
  apply io_bind_inv in Hrun as [(chain_ids & s4 & Hbound & Hrun)|(e & _ & ?)]; [|done].
  destruct (last _) as [ids|]; [|done]. injection Hbound as <- <-.
  apply io_bind_inv in Hrun as [([] & [t5 j5] & Hfound & Hrun)|(e & _ & ?)]; [|done].
  assert (t5 = (validate_and_fix_mmcif cif_fn t).2) as ->.
  { by case_bool_decide; injection Hfound as <- _. }
  apply io_bind_inv in Hrun as [([] & s6 & Hcopy & Hrun)|(e & _ & ?)]; [|done].
  injection Hrun as <- <-.
  apply copyfile_returns in Hcopy as (Hne & content & Hsrc & ->).
  split; [done|]. split; [done|]. by exists content.
Qed.

Lemma save_cif_copies_validated_file_witness :
  ["in"; "1abc.cif"] = ["in"] ++ ["1abc" +:+ ".cif"] /\
  ["in"; "6XYZ.cif"] ≠ ["in"; "1abc.cif"] /\
  exists content,
    resolve (@validate_and_fix_mmcif one_model ["in"; "6XYZ.cif"] tree_6xyz).2
            ["in"; "6XYZ.cif"] = Found (File content) /\
    <[ ["in"; "1abc.cif"] := File ("data_t" +:+ nl +:+ "_entry.id   1ABC" +:+ nl) ]> tree_6xyz
    = <[ ["in"; "1abc.cif"] := File content ]>
        (@validate_and_fix_mmcif one_model ["in"; "6XYZ.cif"] tree_6xyz).2.
Proof.
  refine (save_cif_copies_validated_file (libs := one_model) ["in"; "6XYZ.cif"] "1abc" "C"
            ["in"] (State tree_6xyz []) ["in"; "1abc.cif"]
            (State (<[ ["in"; "1abc.cif"]
                       := File ("data_t" +:+ nl +:+ "_entry.id   1ABC" +:+ nl) ]> tree_6xyz)
                   [Validated ["in"; "6XYZ.cif"];
                    Logged WARNING [Txt "Exception: ";
                                    Exc (Foreign "validate_and_fix_mmcif");
                                    Txt "Cannot validate and fix ";
                                    Loc ["in"; "6XYZ.cif"]; Txt "!"];
                    Structured ["in"; "6XYZ.cif"];
                    Logged WARNING
                      [Txt "Warning! SEQRES chains may be different from ATOM chains!";
                       Txt "Chain "; Val "C"; Txt " not found in ";
                       Loc ["in"; "6XYZ.cif"]; Txt "!"; Txt "Found chains: ";
                       Names ["A"; "B"]; Txt "!"]]) _).
  by vm_compute.
Defined.

(** X29: a structure without a model stops [save_cif] with
    [UnboundLocalError]: the loop that is to set [chain_ids] does not run.
    By then the template has been validated, and nothing has been copied. *)
Theorem save_cif_without_models {libs : Libraries} (cif_fn : path) (code chain_id : string)
    (dir : path) (s : state) :
  get_structure (resolve (validate_and_fix_mmcif cif_fn (tree s)).2 cif_fn) = Returned [] ->
  (forall status, (validate_and_fix_mmcif cif_fn (tree s)).1 ≠ Raised (SystemExit status)) ->
  exists j',
    save_cif cif_fn code chain_id dir s
    = (Raised (UnboundLocalError "chain_ids"),
       State (validate_and_fix_mmcif cif_fn (tree s)).2 (journal s ++ j')).
Proof.
  destruct s as [t j]. simpl. intros Hstruct Hexit. unfold save_cif.
  rewrite (io_bind_returned _ _ _ _ _ (try_rewrite_eq _ _ _ _)).
  destruct (validation_passes cif_fn _ (validate_and_fix_mmcif cif_fn t).2
              (j ++ [Validated cif_fn]) Hexit) as (j' & Hlog).
  erewrite io_bind_returned by exact Hlog.
  rewrite (io_bind_returned _ _ _ _ _ (consult_eq _ _ _ _ _)), Hstruct.
  io_unfold. eexists. by rewrite <-!app_assoc.
Qed.

Lemma save_cif_without_models_witness :
  exists j',
    @save_cif plain ["in"; "6XYZ.cif"] "1abc" "A" ["in"] (State tree_6xyz [])
    = (Raised (UnboundLocalError "chain_ids"),
       State (@validate_and_fix_mmcif plain ["in"; "6XYZ.cif"] tree_6xyz).2 ([] ++ j')).
Proof.
  refine (save_cif_without_models (libs := plain) ["in"; "6XYZ.cif"] "1abc" "A" ["in"]
            (State tree_6xyz []) _ _); [by vm_compute|].
  intros status. by vm_compute.
Defined.

(** ** [create_db] of the fake database *)

Lemma entry_code_tree {libs : Libraries} struct_fn s code s1 :
  entry_code struct_fn s = (Returned code, s1) -> tree s1 = tree s.
Proof.
  destruct s as [t j]. unfold entry_code. intros Hrun.
  apply io_bind_inv in Hrun as [(text & s2 & Hread & Hrun)|(e & _ & ?)]; [|done].
  rewrite read_text_eq in Hread.
  destruct (resolve t (locate struct_fn)) as [[|c]| |]; try done. injection Hread as -> <-.
  apply io_bind_inv in Hrun as [(found & [t3 j3] & Hscan & Hrun)|(e & _ & ?)]; [|done].
  assert (t3 = t) as ->.
  { clear Hrun. revert Hscan. generalize (@None string).
    induction (py_lines text) as [|line rest IH]; intros acc Hscan.
    - by injection Hscan as _ <- _.
    - cbn [last_entry_id] in Hscan. destruct (py_startswith line "_entry.id"); [|by eapply IH].
      apply io_bind_inv in Hscan as [(c & s4 & Htok & Hscan)|(e & _ & ?)]; [|done].
      rewrite second_token_spec in Htok.
      destruct (py_split line !! 1%nat); [|done]. injection Htok as <- <-. by eapply IH. }
  io_unfold. by destruct (negb _); injection Hrun as _ <-.
Qed.

(** X30: a structure file that is neither [pdb] nor [cif] is turned down
    only after the directories of the database have been prepared: the run
    ends with a malformed log call and [SystemExit 1], and an [mmcif_files]
    directory that was there has lost its files. *)
Theorem fake_create_db_rejects_after_preparing {libs : Libraries}
    (out_path struct_fn chain_id code : string) (s s1 s2 : state) :
  py_endswith struct_fn "pdb" = false ->
  py_endswith struct_fn "cif" = false ->
  entry_code struct_fn s = (Returned code, s1) ->
  prepare_dirs (locate out_path ++ ["pdb_mmcif"])
               ((locate out_path ++ ["pdb_mmcif"]) ++ ["mmcif_files"])
               (locate out_path ++ ["pdb_seqres"]) s1 = (Returned (), s2) ->
  fake_create_db out_path struct_fn chain_id s
  = (Raised (SystemExit 1),
     State (tree s2) (journal s2 ++ [BadLog ERROR "Unknown format of " [struct_fn]]))
  /\ (resolve (tree s) ((locate out_path ++ ["pdb_mmcif"]) ++ ["mmcif_files"]) = Found Dir ->
      entries (tree s2) ((locate out_path ++ ["pdb_mmcif"]) ++ ["mmcif_files"]) = []).
Proof.
  intros Hpdb Hcif Hcode Hdirs. split.
  - unfold fake_create_db. rewrite (io_bind_returned _ _ _ _ _ Hcode).
    rewrite (io_bind_returned _ _ _ _ _ Hdirs). rewrite Hpdb, Hcif.
    by destruct s2.
  - intros Hdir. apply entries_empty. intros x.
    eapply prepare_dirs_unlinks; [|clear Hdirs|done].
    + by rewrite (entry_code_tree _ _ _ _ Hcode).
    + intros Hpre. apply prefix_length in Hpre. rewrite !length_app in Hpre.
      simpl in Hpre. lia.
Qed.

Lemma fake_create_db_rejects_after_preparing_witness :
  @fake_create_db plain "db" "1abc.ent" "A" (State tree_old_db_ent [])
  = (Raised (SystemExit 1),
     State (tree (@prepare_dirs plain ["db"; "pdb_mmcif"] ["db"; "pdb_mmcif"; "mmcif_files"]
                    ["db"; "pdb_seqres"]
                    (@entry_code plain "1abc.ent" (State tree_old_db_ent [])).2).2)
           (journal (@prepare_dirs plain ["db"; "pdb_mmcif"]
                       ["db"; "pdb_mmcif"; "mmcif_files"] ["db"; "pdb_seqres"]
                       (@entry_code plain "1abc.ent" (State tree_old_db_ent [])).2).2
            ++ [BadLog ERROR "Unknown format of " ["1abc.ent"]]))
  /\ (resolve tree_old_db_ent ["db"; "pdb_mmcif"; "mmcif_files"] = Found Dir ->
      entries (tree (@prepare_dirs plain ["db"; "pdb_mmcif"]
                       ["db"; "pdb_mmcif"; "mmcif_files"] ["db"; "pdb_seqres"]
                       (@entry_code plain "1abc.ent" (State tree_old_db_ent [])).2).2)
              ["db"; "pdb_mmcif"; "mmcif_files"] = []).
Proof.
  refine (fake_create_db_rejects_after_preparing (libs := plain) "db" "1abc.ent" "A" "1abc"
            (State tree_old_db_ent [])
            (@entry_code plain "1abc.ent" (State tree_old_db_ent [])).2
            (@prepare_dirs plain ["db"; "pdb_mmcif"] ["db"; "pdb_mmcif"; "mmcif_files"]
               ["db"; "pdb_seqres"]
               (@entry_code plain "1abc.ent" (State tree_old_db_ent [])).2).2
            _ _ _ _).
  - vm_compute. reflexivity.
  - vm_compute. reflexivity.
  - vm_compute. reflexivity.
  - vm_compute. reflexivity.
Defined.

End TemplateDbFacts.
